(** * bmpinspect: a shallow embedding of the BMP inspector in Rocq

    The Go program reads a whole BMP file into a byte slice and walks it
    with a mutable context [ctx_type].  Here the context is an explicit
    record threaded through every function, and functions that return a Go
    [error] return a [result].  What the program prints with [fmt.Printf]
    is recorded as a list of events in the field [stdout]; the exact text
    formatting is not modelled, only which fields, numbers and messages are
    printed.

    Go's [int] and [int64] values are modelled as [Z].  Most of the
    arithmetic below works on 16- and 32-bit header fields and cannot wrap
    in 64 bits.  The places where a value can wrap are written out: negating
    the 32-bit height, the 64-bit size [rowStride * imgHeight] of an
    uncompressed image, and the 64-bit file positions that add that size
    ([wrap64]). *)

From Stdlib Require Import ZArith List String Bool Lia.
From Stdlib Require Import Strings.Byte.
Import ListNotations.
Open Scope string_scope.
Open Scope list_scope.
Open Scope Z_scope.

(** ** Results and printed output *)

Inductive result (A : Type) : Type :=
| Ok (a : A)
| Err (msg : string).
Arguments Ok {A} a.
Arguments Err {A} msg.

Definition bind {A B} (r : result A) (f : A -> result B) : result B :=
  match r with
  | Ok a => f a
  | Err m => Err m
  end.

Notation "x <- r ;; f" := (bind r (fun x => f))
  (at level 61, r at next level, right associativity).

(** One printed item.  [EField off name v] is a header field printed by
    [pfxPrintf] at offset [off]; [EText] a fixed message; [ENum] a number
    printed inside a message; [EPixels vs] the values printed for one row
    of an uncompressed image or one color table entry; [EPixel v] one pixel of an RLE row;
    [ERowBytes n] the " [n bytes]" that closes an RLE row. *)
Inductive event : Type :=
| EField (off : Z) (name : string) (v : Z)
| EText (s : string)
| ENum (v : Z)
| EPixels (vs : list Z)
| EPixel (v : Z)
| ERowBytes (n : Z).

(** ** The context *)

Record ctx_type := mkCtx {
  data : list byte;
  fileSize : Z;
  pos : Z;
  printPixels : bool;
  fileType : string;
  bmpVerID : string;
  bmpVerName : string;
  bitCount : Z;
  imgWidth : Z;
  imgHeight : Z;
  bfOffBits : Z;
  infoHeaderSize : Z;
  sizeImage : Z;
  compressionCode : Z;
  compressionType : string;
  palNumEntries : Z;
  palBytesPerEntry : Z;
  palSizeInBytes : Z;
  hasBitfieldsSegment : bool;
  bitfieldsSegmentSize : Z;
  hasProfile : bool;
  profileIsLinked : bool;
  profileOffset : Z;
  profileSize : Z;
  isCompressed : bool;
  topDown : bool;
  rowStride : Z;
  calculatedSize : Z;
  actualBitsSize : Z;
  fieldNamePrefix : string;
  badColorFlag : bool;
  badColorWarned : bool;
  badColorIndex : Z;
  badColor_X : Z;
  badColor_Y : Z;
  stdout : list event
}.

Definition set_data (v : list byte) (c : ctx_type) : ctx_type :=
  mkCtx v (fileSize c) (pos c) (printPixels c) (fileType c) (bmpVerID c)
    (bmpVerName c) (bitCount c) (imgWidth c) (imgHeight c) (bfOffBits c) (infoHeaderSize c)
    (sizeImage c) (compressionCode c) (compressionType c) (palNumEntries c) (palBytesPerEntry c) (palSizeInBytes c)
    (hasBitfieldsSegment c) (bitfieldsSegmentSize c) (hasProfile c) (profileIsLinked c) (profileOffset c) (profileSize c)
    (isCompressed c) (topDown c) (rowStride c) (calculatedSize c) (actualBitsSize c) (fieldNamePrefix c)
    (badColorFlag c) (badColorWarned c) (badColorIndex c) (badColor_X c) (badColor_Y c) (stdout c).
Definition set_fileSize (v : Z) (c : ctx_type) : ctx_type :=
  mkCtx (data c) v (pos c) (printPixels c) (fileType c) (bmpVerID c)
    (bmpVerName c) (bitCount c) (imgWidth c) (imgHeight c) (bfOffBits c) (infoHeaderSize c)
    (sizeImage c) (compressionCode c) (compressionType c) (palNumEntries c) (palBytesPerEntry c) (palSizeInBytes c)
    (hasBitfieldsSegment c) (bitfieldsSegmentSize c) (hasProfile c) (profileIsLinked c) (profileOffset c) (profileSize c)
    (isCompressed c) (topDown c) (rowStride c) (calculatedSize c) (actualBitsSize c) (fieldNamePrefix c)
    (badColorFlag c) (badColorWarned c) (badColorIndex c) (badColor_X c) (badColor_Y c) (stdout c).
Definition set_pos (v : Z) (c : ctx_type) : ctx_type :=
  mkCtx (data c) (fileSize c) v (printPixels c) (fileType c) (bmpVerID c)
    (bmpVerName c) (bitCount c) (imgWidth c) (imgHeight c) (bfOffBits c) (infoHeaderSize c)
    (sizeImage c) (compressionCode c) (compressionType c) (palNumEntries c) (palBytesPerEntry c) (palSizeInBytes c)
    (hasBitfieldsSegment c) (bitfieldsSegmentSize c) (hasProfile c) (profileIsLinked c) (profileOffset c) (profileSize c)
    (isCompressed c) (topDown c) (rowStride c) (calculatedSize c) (actualBitsSize c) (fieldNamePrefix c)
    (badColorFlag c) (badColorWarned c) (badColorIndex c) (badColor_X c) (badColor_Y c) (stdout c).
Definition set_printPixels (v : bool) (c : ctx_type) : ctx_type :=
  mkCtx (data c) (fileSize c) (pos c) v (fileType c) (bmpVerID c)
    (bmpVerName c) (bitCount c) (imgWidth c) (imgHeight c) (bfOffBits c) (infoHeaderSize c)
    (sizeImage c) (compressionCode c) (compressionType c) (palNumEntries c) (palBytesPerEntry c) (palSizeInBytes c)
    (hasBitfieldsSegment c) (bitfieldsSegmentSize c) (hasProfile c) (profileIsLinked c) (profileOffset c) (profileSize c)
    (isCompressed c) (topDown c) (rowStride c) (calculatedSize c) (actualBitsSize c) (fieldNamePrefix c)
    (badColorFlag c) (badColorWarned c) (badColorIndex c) (badColor_X c) (badColor_Y c) (stdout c).
Definition set_fileType (v : string) (c : ctx_type) : ctx_type :=
  mkCtx (data c) (fileSize c) (pos c) (printPixels c) v (bmpVerID c)
    (bmpVerName c) (bitCount c) (imgWidth c) (imgHeight c) (bfOffBits c) (infoHeaderSize c)
    (sizeImage c) (compressionCode c) (compressionType c) (palNumEntries c) (palBytesPerEntry c) (palSizeInBytes c)
    (hasBitfieldsSegment c) (bitfieldsSegmentSize c) (hasProfile c) (profileIsLinked c) (profileOffset c) (profileSize c)
    (isCompressed c) (topDown c) (rowStride c) (calculatedSize c) (actualBitsSize c) (fieldNamePrefix c)
    (badColorFlag c) (badColorWarned c) (badColorIndex c) (badColor_X c) (badColor_Y c) (stdout c).
Definition set_bmpVerID (v : string) (c : ctx_type) : ctx_type :=
  mkCtx (data c) (fileSize c) (pos c) (printPixels c) (fileType c) v
    (bmpVerName c) (bitCount c) (imgWidth c) (imgHeight c) (bfOffBits c) (infoHeaderSize c)
    (sizeImage c) (compressionCode c) (compressionType c) (palNumEntries c) (palBytesPerEntry c) (palSizeInBytes c)
    (hasBitfieldsSegment c) (bitfieldsSegmentSize c) (hasProfile c) (profileIsLinked c) (profileOffset c) (profileSize c)
    (isCompressed c) (topDown c) (rowStride c) (calculatedSize c) (actualBitsSize c) (fieldNamePrefix c)
    (badColorFlag c) (badColorWarned c) (badColorIndex c) (badColor_X c) (badColor_Y c) (stdout c).
Definition set_bmpVerName (v : string) (c : ctx_type) : ctx_type :=
  mkCtx (data c) (fileSize c) (pos c) (printPixels c) (fileType c) (bmpVerID c)
    v (bitCount c) (imgWidth c) (imgHeight c) (bfOffBits c) (infoHeaderSize c)
    (sizeImage c) (compressionCode c) (compressionType c) (palNumEntries c) (palBytesPerEntry c) (palSizeInBytes c)
    (hasBitfieldsSegment c) (bitfieldsSegmentSize c) (hasProfile c) (profileIsLinked c) (profileOffset c) (profileSize c)
    (isCompressed c) (topDown c) (rowStride c) (calculatedSize c) (actualBitsSize c) (fieldNamePrefix c)
    (badColorFlag c) (badColorWarned c) (badColorIndex c) (badColor_X c) (badColor_Y c) (stdout c).
Definition set_bitCount (v : Z) (c : ctx_type) : ctx_type :=
  mkCtx (data c) (fileSize c) (pos c) (printPixels c) (fileType c) (bmpVerID c)
    (bmpVerName c) v (imgWidth c) (imgHeight c) (bfOffBits c) (infoHeaderSize c)
    (sizeImage c) (compressionCode c) (compressionType c) (palNumEntries c) (palBytesPerEntry c) (palSizeInBytes c)
    (hasBitfieldsSegment c) (bitfieldsSegmentSize c) (hasProfile c) (profileIsLinked c) (profileOffset c) (profileSize c)
    (isCompressed c) (topDown c) (rowStride c) (calculatedSize c) (actualBitsSize c) (fieldNamePrefix c)
    (badColorFlag c) (badColorWarned c) (badColorIndex c) (badColor_X c) (badColor_Y c) (stdout c).
Definition set_imgWidth (v : Z) (c : ctx_type) : ctx_type :=
  mkCtx (data c) (fileSize c) (pos c) (printPixels c) (fileType c) (bmpVerID c)
    (bmpVerName c) (bitCount c) v (imgHeight c) (bfOffBits c) (infoHeaderSize c)
    (sizeImage c) (compressionCode c) (compressionType c) (palNumEntries c) (palBytesPerEntry c) (palSizeInBytes c)
    (hasBitfieldsSegment c) (bitfieldsSegmentSize c) (hasProfile c) (profileIsLinked c) (profileOffset c) (profileSize c)
    (isCompressed c) (topDown c) (rowStride c) (calculatedSize c) (actualBitsSize c) (fieldNamePrefix c)
    (badColorFlag c) (badColorWarned c) (badColorIndex c) (badColor_X c) (badColor_Y c) (stdout c).
Definition set_imgHeight (v : Z) (c : ctx_type) : ctx_type :=
  mkCtx (data c) (fileSize c) (pos c) (printPixels c) (fileType c) (bmpVerID c)
    (bmpVerName c) (bitCount c) (imgWidth c) v (bfOffBits c) (infoHeaderSize c)
    (sizeImage c) (compressionCode c) (compressionType c) (palNumEntries c) (palBytesPerEntry c) (palSizeInBytes c)
    (hasBitfieldsSegment c) (bitfieldsSegmentSize c) (hasProfile c) (profileIsLinked c) (profileOffset c) (profileSize c)
    (isCompressed c) (topDown c) (rowStride c) (calculatedSize c) (actualBitsSize c) (fieldNamePrefix c)
    (badColorFlag c) (badColorWarned c) (badColorIndex c) (badColor_X c) (badColor_Y c) (stdout c).
Definition set_bfOffBits (v : Z) (c : ctx_type) : ctx_type :=
  mkCtx (data c) (fileSize c) (pos c) (printPixels c) (fileType c) (bmpVerID c)
    (bmpVerName c) (bitCount c) (imgWidth c) (imgHeight c) v (infoHeaderSize c)
    (sizeImage c) (compressionCode c) (compressionType c) (palNumEntries c) (palBytesPerEntry c) (palSizeInBytes c)
    (hasBitfieldsSegment c) (bitfieldsSegmentSize c) (hasProfile c) (profileIsLinked c) (profileOffset c) (profileSize c)
    (isCompressed c) (topDown c) (rowStride c) (calculatedSize c) (actualBitsSize c) (fieldNamePrefix c)
    (badColorFlag c) (badColorWarned c) (badColorIndex c) (badColor_X c) (badColor_Y c) (stdout c).
Definition set_infoHeaderSize (v : Z) (c : ctx_type) : ctx_type :=
  mkCtx (data c) (fileSize c) (pos c) (printPixels c) (fileType c) (bmpVerID c)
    (bmpVerName c) (bitCount c) (imgWidth c) (imgHeight c) (bfOffBits c) v
    (sizeImage c) (compressionCode c) (compressionType c) (palNumEntries c) (palBytesPerEntry c) (palSizeInBytes c)
    (hasBitfieldsSegment c) (bitfieldsSegmentSize c) (hasProfile c) (profileIsLinked c) (profileOffset c) (profileSize c)
    (isCompressed c) (topDown c) (rowStride c) (calculatedSize c) (actualBitsSize c) (fieldNamePrefix c)
    (badColorFlag c) (badColorWarned c) (badColorIndex c) (badColor_X c) (badColor_Y c) (stdout c).
Definition set_sizeImage (v : Z) (c : ctx_type) : ctx_type :=
  mkCtx (data c) (fileSize c) (pos c) (printPixels c) (fileType c) (bmpVerID c)
    (bmpVerName c) (bitCount c) (imgWidth c) (imgHeight c) (bfOffBits c) (infoHeaderSize c)
    v (compressionCode c) (compressionType c) (palNumEntries c) (palBytesPerEntry c) (palSizeInBytes c)
    (hasBitfieldsSegment c) (bitfieldsSegmentSize c) (hasProfile c) (profileIsLinked c) (profileOffset c) (profileSize c)
    (isCompressed c) (topDown c) (rowStride c) (calculatedSize c) (actualBitsSize c) (fieldNamePrefix c)
    (badColorFlag c) (badColorWarned c) (badColorIndex c) (badColor_X c) (badColor_Y c) (stdout c).
Definition set_compressionCode (v : Z) (c : ctx_type) : ctx_type :=
  mkCtx (data c) (fileSize c) (pos c) (printPixels c) (fileType c) (bmpVerID c)
    (bmpVerName c) (bitCount c) (imgWidth c) (imgHeight c) (bfOffBits c) (infoHeaderSize c)
    (sizeImage c) v (compressionType c) (palNumEntries c) (palBytesPerEntry c) (palSizeInBytes c)
    (hasBitfieldsSegment c) (bitfieldsSegmentSize c) (hasProfile c) (profileIsLinked c) (profileOffset c) (profileSize c)
    (isCompressed c) (topDown c) (rowStride c) (calculatedSize c) (actualBitsSize c) (fieldNamePrefix c)
    (badColorFlag c) (badColorWarned c) (badColorIndex c) (badColor_X c) (badColor_Y c) (stdout c).
Definition set_compressionType (v : string) (c : ctx_type) : ctx_type :=
  mkCtx (data c) (fileSize c) (pos c) (printPixels c) (fileType c) (bmpVerID c)
    (bmpVerName c) (bitCount c) (imgWidth c) (imgHeight c) (bfOffBits c) (infoHeaderSize c)
    (sizeImage c) (compressionCode c) v (palNumEntries c) (palBytesPerEntry c) (palSizeInBytes c)
    (hasBitfieldsSegment c) (bitfieldsSegmentSize c) (hasProfile c) (profileIsLinked c) (profileOffset c) (profileSize c)
    (isCompressed c) (topDown c) (rowStride c) (calculatedSize c) (actualBitsSize c) (fieldNamePrefix c)
    (badColorFlag c) (badColorWarned c) (badColorIndex c) (badColor_X c) (badColor_Y c) (stdout c).
Definition set_palNumEntries (v : Z) (c : ctx_type) : ctx_type :=
  mkCtx (data c) (fileSize c) (pos c) (printPixels c) (fileType c) (bmpVerID c)
    (bmpVerName c) (bitCount c) (imgWidth c) (imgHeight c) (bfOffBits c) (infoHeaderSize c)
    (sizeImage c) (compressionCode c) (compressionType c) v (palBytesPerEntry c) (palSizeInBytes c)
    (hasBitfieldsSegment c) (bitfieldsSegmentSize c) (hasProfile c) (profileIsLinked c) (profileOffset c) (profileSize c)
    (isCompressed c) (topDown c) (rowStride c) (calculatedSize c) (actualBitsSize c) (fieldNamePrefix c)
    (badColorFlag c) (badColorWarned c) (badColorIndex c) (badColor_X c) (badColor_Y c) (stdout c).
Definition set_palBytesPerEntry (v : Z) (c : ctx_type) : ctx_type :=
  mkCtx (data c) (fileSize c) (pos c) (printPixels c) (fileType c) (bmpVerID c)
    (bmpVerName c) (bitCount c) (imgWidth c) (imgHeight c) (bfOffBits c) (infoHeaderSize c)
    (sizeImage c) (compressionCode c) (compressionType c) (palNumEntries c) v (palSizeInBytes c)
    (hasBitfieldsSegment c) (bitfieldsSegmentSize c) (hasProfile c) (profileIsLinked c) (profileOffset c) (profileSize c)
    (isCompressed c) (topDown c) (rowStride c) (calculatedSize c) (actualBitsSize c) (fieldNamePrefix c)
    (badColorFlag c) (badColorWarned c) (badColorIndex c) (badColor_X c) (badColor_Y c) (stdout c).
Definition set_palSizeInBytes (v : Z) (c : ctx_type) : ctx_type :=
  mkCtx (data c) (fileSize c) (pos c) (printPixels c) (fileType c) (bmpVerID c)
    (bmpVerName c) (bitCount c) (imgWidth c) (imgHeight c) (bfOffBits c) (infoHeaderSize c)
    (sizeImage c) (compressionCode c) (compressionType c) (palNumEntries c) (palBytesPerEntry c) v
    (hasBitfieldsSegment c) (bitfieldsSegmentSize c) (hasProfile c) (profileIsLinked c) (profileOffset c) (profileSize c)
    (isCompressed c) (topDown c) (rowStride c) (calculatedSize c) (actualBitsSize c) (fieldNamePrefix c)
    (badColorFlag c) (badColorWarned c) (badColorIndex c) (badColor_X c) (badColor_Y c) (stdout c).
Definition set_hasBitfieldsSegment (v : bool) (c : ctx_type) : ctx_type :=
  mkCtx (data c) (fileSize c) (pos c) (printPixels c) (fileType c) (bmpVerID c)
    (bmpVerName c) (bitCount c) (imgWidth c) (imgHeight c) (bfOffBits c) (infoHeaderSize c)
    (sizeImage c) (compressionCode c) (compressionType c) (palNumEntries c) (palBytesPerEntry c) (palSizeInBytes c)
    v (bitfieldsSegmentSize c) (hasProfile c) (profileIsLinked c) (profileOffset c) (profileSize c)
    (isCompressed c) (topDown c) (rowStride c) (calculatedSize c) (actualBitsSize c) (fieldNamePrefix c)
    (badColorFlag c) (badColorWarned c) (badColorIndex c) (badColor_X c) (badColor_Y c) (stdout c).
Definition set_bitfieldsSegmentSize (v : Z) (c : ctx_type) : ctx_type :=
  mkCtx (data c) (fileSize c) (pos c) (printPixels c) (fileType c) (bmpVerID c)
    (bmpVerName c) (bitCount c) (imgWidth c) (imgHeight c) (bfOffBits c) (infoHeaderSize c)
    (sizeImage c) (compressionCode c) (compressionType c) (palNumEntries c) (palBytesPerEntry c) (palSizeInBytes c)
    (hasBitfieldsSegment c) v (hasProfile c) (profileIsLinked c) (profileOffset c) (profileSize c)
    (isCompressed c) (topDown c) (rowStride c) (calculatedSize c) (actualBitsSize c) (fieldNamePrefix c)
    (badColorFlag c) (badColorWarned c) (badColorIndex c) (badColor_X c) (badColor_Y c) (stdout c).
Definition set_hasProfile (v : bool) (c : ctx_type) : ctx_type :=
  mkCtx (data c) (fileSize c) (pos c) (printPixels c) (fileType c) (bmpVerID c)
    (bmpVerName c) (bitCount c) (imgWidth c) (imgHeight c) (bfOffBits c) (infoHeaderSize c)
    (sizeImage c) (compressionCode c) (compressionType c) (palNumEntries c) (palBytesPerEntry c) (palSizeInBytes c)
    (hasBitfieldsSegment c) (bitfieldsSegmentSize c) v (profileIsLinked c) (profileOffset c) (profileSize c)
    (isCompressed c) (topDown c) (rowStride c) (calculatedSize c) (actualBitsSize c) (fieldNamePrefix c)
    (badColorFlag c) (badColorWarned c) (badColorIndex c) (badColor_X c) (badColor_Y c) (stdout c).
Definition set_profileIsLinked (v : bool) (c : ctx_type) : ctx_type :=
  mkCtx (data c) (fileSize c) (pos c) (printPixels c) (fileType c) (bmpVerID c)
    (bmpVerName c) (bitCount c) (imgWidth c) (imgHeight c) (bfOffBits c) (infoHeaderSize c)
    (sizeImage c) (compressionCode c) (compressionType c) (palNumEntries c) (palBytesPerEntry c) (palSizeInBytes c)
    (hasBitfieldsSegment c) (bitfieldsSegmentSize c) (hasProfile c) v (profileOffset c) (profileSize c)
    (isCompressed c) (topDown c) (rowStride c) (calculatedSize c) (actualBitsSize c) (fieldNamePrefix c)
    (badColorFlag c) (badColorWarned c) (badColorIndex c) (badColor_X c) (badColor_Y c) (stdout c).
Definition set_profileOffset (v : Z) (c : ctx_type) : ctx_type :=
  mkCtx (data c) (fileSize c) (pos c) (printPixels c) (fileType c) (bmpVerID c)
    (bmpVerName c) (bitCount c) (imgWidth c) (imgHeight c) (bfOffBits c) (infoHeaderSize c)
    (sizeImage c) (compressionCode c) (compressionType c) (palNumEntries c) (palBytesPerEntry c) (palSizeInBytes c)
    (hasBitfieldsSegment c) (bitfieldsSegmentSize c) (hasProfile c) (profileIsLinked c) v (profileSize c)
    (isCompressed c) (topDown c) (rowStride c) (calculatedSize c) (actualBitsSize c) (fieldNamePrefix c)
    (badColorFlag c) (badColorWarned c) (badColorIndex c) (badColor_X c) (badColor_Y c) (stdout c).
Definition set_profileSize (v : Z) (c : ctx_type) : ctx_type :=
  mkCtx (data c) (fileSize c) (pos c) (printPixels c) (fileType c) (bmpVerID c)
    (bmpVerName c) (bitCount c) (imgWidth c) (imgHeight c) (bfOffBits c) (infoHeaderSize c)
    (sizeImage c) (compressionCode c) (compressionType c) (palNumEntries c) (palBytesPerEntry c) (palSizeInBytes c)
    (hasBitfieldsSegment c) (bitfieldsSegmentSize c) (hasProfile c) (profileIsLinked c) (profileOffset c) v
    (isCompressed c) (topDown c) (rowStride c) (calculatedSize c) (actualBitsSize c) (fieldNamePrefix c)
    (badColorFlag c) (badColorWarned c) (badColorIndex c) (badColor_X c) (badColor_Y c) (stdout c).
Definition set_isCompressed (v : bool) (c : ctx_type) : ctx_type :=
  mkCtx (data c) (fileSize c) (pos c) (printPixels c) (fileType c) (bmpVerID c)
    (bmpVerName c) (bitCount c) (imgWidth c) (imgHeight c) (bfOffBits c) (infoHeaderSize c)
    (sizeImage c) (compressionCode c) (compressionType c) (palNumEntries c) (palBytesPerEntry c) (palSizeInBytes c)
    (hasBitfieldsSegment c) (bitfieldsSegmentSize c) (hasProfile c) (profileIsLinked c) (profileOffset c) (profileSize c)
    v (topDown c) (rowStride c) (calculatedSize c) (actualBitsSize c) (fieldNamePrefix c)
    (badColorFlag c) (badColorWarned c) (badColorIndex c) (badColor_X c) (badColor_Y c) (stdout c).
Definition set_topDown (v : bool) (c : ctx_type) : ctx_type :=
  mkCtx (data c) (fileSize c) (pos c) (printPixels c) (fileType c) (bmpVerID c)
    (bmpVerName c) (bitCount c) (imgWidth c) (imgHeight c) (bfOffBits c) (infoHeaderSize c)
    (sizeImage c) (compressionCode c) (compressionType c) (palNumEntries c) (palBytesPerEntry c) (palSizeInBytes c)
    (hasBitfieldsSegment c) (bitfieldsSegmentSize c) (hasProfile c) (profileIsLinked c) (profileOffset c) (profileSize c)
    (isCompressed c) v (rowStride c) (calculatedSize c) (actualBitsSize c) (fieldNamePrefix c)
    (badColorFlag c) (badColorWarned c) (badColorIndex c) (badColor_X c) (badColor_Y c) (stdout c).
Definition set_rowStride (v : Z) (c : ctx_type) : ctx_type :=
  mkCtx (data c) (fileSize c) (pos c) (printPixels c) (fileType c) (bmpVerID c)
    (bmpVerName c) (bitCount c) (imgWidth c) (imgHeight c) (bfOffBits c) (infoHeaderSize c)
    (sizeImage c) (compressionCode c) (compressionType c) (palNumEntries c) (palBytesPerEntry c) (palSizeInBytes c)
    (hasBitfieldsSegment c) (bitfieldsSegmentSize c) (hasProfile c) (profileIsLinked c) (profileOffset c) (profileSize c)
    (isCompressed c) (topDown c) v (calculatedSize c) (actualBitsSize c) (fieldNamePrefix c)
    (badColorFlag c) (badColorWarned c) (badColorIndex c) (badColor_X c) (badColor_Y c) (stdout c).
Definition set_calculatedSize (v : Z) (c : ctx_type) : ctx_type :=
  mkCtx (data c) (fileSize c) (pos c) (printPixels c) (fileType c) (bmpVerID c)
    (bmpVerName c) (bitCount c) (imgWidth c) (imgHeight c) (bfOffBits c) (infoHeaderSize c)
    (sizeImage c) (compressionCode c) (compressionType c) (palNumEntries c) (palBytesPerEntry c) (palSizeInBytes c)
    (hasBitfieldsSegment c) (bitfieldsSegmentSize c) (hasProfile c) (profileIsLinked c) (profileOffset c) (profileSize c)
    (isCompressed c) (topDown c) (rowStride c) v (actualBitsSize c) (fieldNamePrefix c)
    (badColorFlag c) (badColorWarned c) (badColorIndex c) (badColor_X c) (badColor_Y c) (stdout c).
Definition set_actualBitsSize (v : Z) (c : ctx_type) : ctx_type :=
  mkCtx (data c) (fileSize c) (pos c) (printPixels c) (fileType c) (bmpVerID c)
    (bmpVerName c) (bitCount c) (imgWidth c) (imgHeight c) (bfOffBits c) (infoHeaderSize c)
    (sizeImage c) (compressionCode c) (compressionType c) (palNumEntries c) (palBytesPerEntry c) (palSizeInBytes c)
    (hasBitfieldsSegment c) (bitfieldsSegmentSize c) (hasProfile c) (profileIsLinked c) (profileOffset c) (profileSize c)
    (isCompressed c) (topDown c) (rowStride c) (calculatedSize c) v (fieldNamePrefix c)
    (badColorFlag c) (badColorWarned c) (badColorIndex c) (badColor_X c) (badColor_Y c) (stdout c).
Definition set_fieldNamePrefix (v : string) (c : ctx_type) : ctx_type :=
  mkCtx (data c) (fileSize c) (pos c) (printPixels c) (fileType c) (bmpVerID c)
    (bmpVerName c) (bitCount c) (imgWidth c) (imgHeight c) (bfOffBits c) (infoHeaderSize c)
    (sizeImage c) (compressionCode c) (compressionType c) (palNumEntries c) (palBytesPerEntry c) (palSizeInBytes c)
    (hasBitfieldsSegment c) (bitfieldsSegmentSize c) (hasProfile c) (profileIsLinked c) (profileOffset c) (profileSize c)
    (isCompressed c) (topDown c) (rowStride c) (calculatedSize c) (actualBitsSize c) v
    (badColorFlag c) (badColorWarned c) (badColorIndex c) (badColor_X c) (badColor_Y c) (stdout c).
Definition set_badColorFlag (v : bool) (c : ctx_type) : ctx_type :=
  mkCtx (data c) (fileSize c) (pos c) (printPixels c) (fileType c) (bmpVerID c)
    (bmpVerName c) (bitCount c) (imgWidth c) (imgHeight c) (bfOffBits c) (infoHeaderSize c)
    (sizeImage c) (compressionCode c) (compressionType c) (palNumEntries c) (palBytesPerEntry c) (palSizeInBytes c)
    (hasBitfieldsSegment c) (bitfieldsSegmentSize c) (hasProfile c) (profileIsLinked c) (profileOffset c) (profileSize c)
    (isCompressed c) (topDown c) (rowStride c) (calculatedSize c) (actualBitsSize c) (fieldNamePrefix c)
    v (badColorWarned c) (badColorIndex c) (badColor_X c) (badColor_Y c) (stdout c).
Definition set_badColorWarned (v : bool) (c : ctx_type) : ctx_type :=
  mkCtx (data c) (fileSize c) (pos c) (printPixels c) (fileType c) (bmpVerID c)
    (bmpVerName c) (bitCount c) (imgWidth c) (imgHeight c) (bfOffBits c) (infoHeaderSize c)
    (sizeImage c) (compressionCode c) (compressionType c) (palNumEntries c) (palBytesPerEntry c) (palSizeInBytes c)
    (hasBitfieldsSegment c) (bitfieldsSegmentSize c) (hasProfile c) (profileIsLinked c) (profileOffset c) (profileSize c)
    (isCompressed c) (topDown c) (rowStride c) (calculatedSize c) (actualBitsSize c) (fieldNamePrefix c)
    (badColorFlag c) v (badColorIndex c) (badColor_X c) (badColor_Y c) (stdout c).
Definition set_badColorIndex (v : Z) (c : ctx_type) : ctx_type :=
  mkCtx (data c) (fileSize c) (pos c) (printPixels c) (fileType c) (bmpVerID c)
    (bmpVerName c) (bitCount c) (imgWidth c) (imgHeight c) (bfOffBits c) (infoHeaderSize c)
    (sizeImage c) (compressionCode c) (compressionType c) (palNumEntries c) (palBytesPerEntry c) (palSizeInBytes c)
    (hasBitfieldsSegment c) (bitfieldsSegmentSize c) (hasProfile c) (profileIsLinked c) (profileOffset c) (profileSize c)
    (isCompressed c) (topDown c) (rowStride c) (calculatedSize c) (actualBitsSize c) (fieldNamePrefix c)
    (badColorFlag c) (badColorWarned c) v (badColor_X c) (badColor_Y c) (stdout c).
Definition set_badColor_X (v : Z) (c : ctx_type) : ctx_type :=
  mkCtx (data c) (fileSize c) (pos c) (printPixels c) (fileType c) (bmpVerID c)
    (bmpVerName c) (bitCount c) (imgWidth c) (imgHeight c) (bfOffBits c) (infoHeaderSize c)
    (sizeImage c) (compressionCode c) (compressionType c) (palNumEntries c) (palBytesPerEntry c) (palSizeInBytes c)
    (hasBitfieldsSegment c) (bitfieldsSegmentSize c) (hasProfile c) (profileIsLinked c) (profileOffset c) (profileSize c)
    (isCompressed c) (topDown c) (rowStride c) (calculatedSize c) (actualBitsSize c) (fieldNamePrefix c)
    (badColorFlag c) (badColorWarned c) (badColorIndex c) v (badColor_Y c) (stdout c).
Definition set_badColor_Y (v : Z) (c : ctx_type) : ctx_type :=
  mkCtx (data c) (fileSize c) (pos c) (printPixels c) (fileType c) (bmpVerID c)
    (bmpVerName c) (bitCount c) (imgWidth c) (imgHeight c) (bfOffBits c) (infoHeaderSize c)
    (sizeImage c) (compressionCode c) (compressionType c) (palNumEntries c) (palBytesPerEntry c) (palSizeInBytes c)
    (hasBitfieldsSegment c) (bitfieldsSegmentSize c) (hasProfile c) (profileIsLinked c) (profileOffset c) (profileSize c)
    (isCompressed c) (topDown c) (rowStride c) (calculatedSize c) (actualBitsSize c) (fieldNamePrefix c)
    (badColorFlag c) (badColorWarned c) (badColorIndex c) (badColor_X c) v (stdout c).
Definition set_stdout (v : list event) (c : ctx_type) : ctx_type :=
  mkCtx (data c) (fileSize c) (pos c) (printPixels c) (fileType c) (bmpVerID c)
    (bmpVerName c) (bitCount c) (imgWidth c) (imgHeight c) (bfOffBits c) (infoHeaderSize c)
    (sizeImage c) (compressionCode c) (compressionType c) (palNumEntries c) (palBytesPerEntry c) (palSizeInBytes c)
    (hasBitfieldsSegment c) (bitfieldsSegmentSize c) (hasProfile c) (profileIsLinked c) (profileOffset c) (profileSize c)
    (isCompressed c) (topDown c) (rowStride c) (calculatedSize c) (actualBitsSize c) (fieldNamePrefix c)
    (badColorFlag c) (badColorWarned c) (badColorIndex c) (badColor_X c) (badColor_Y c) v.

(** ** Constant tables *)

Definition bI_RGB := 0.
Definition bI_RLE8 := 1.
Definition bI_RLE4 := 2.
Definition bI_BITFIELDS := 3.
Definition bI_HUFFMAN1D := 3.
Definition bI_JPEG := 4.
Definition bI_RLE24 := 4.
Definition bI_PNG := 5.
Definition bI_ALPHABITFIELDS := 6.

Definition lCS_CALIBRATED_RGB := 0.
Definition lCS_sRGB := 1934772034.
Definition lCS_WINDOWS_COLOR_SPACE := 1466527264.
Definition pROFILE_LINKED := 1279872587.
Definition pROFILE_EMBEDDED := 1296188740.

(** The map [fileTypeNames]; a missing key reads as "". *)
Definition fileTypeNames (s : string) : string :=
  if String.eqb s "BA" then "Bitmap Array"
  else if String.eqb s "BM" then "Bitmap"
  else if String.eqb s "CI" then "Color Icon"
  else if String.eqb s "CP" then "Color Pointer"
  else if String.eqb s "IC" then "Icon"
  else if String.eqb s "PT" then "Pointer"
  else "".

(** The map [versionIDToName]; a missing key reads as "". *)
Definition versionIDToName (s : string) : string :=
  if String.eqb s "os2v1" then "OS/2 BMP v1"
  else if String.eqb s "os2v2" then "OS/2 BMP v2"
  else if String.eqb s "winv2" then "Windows BMP v2"
  else if String.eqb s "winv3" then "Windows BMP v3"
  else if String.eqb s "52" then "BITMAPV2INFOHEADER"
  else if String.eqb s "56" then "BITMAPV3INFOHEADER"
  else if String.eqb s "winv4" then "Windows BMP v4"
  else if String.eqb s "winv5" then "Windows BMP v5"
  else if String.eqb s "unknown" then "Unknown"
  else "".

Definition print (e : event) (c : ctx_type) : ctx_type :=
  set_stdout (stdout c ++ [e]) c.

Definition pfxPrintf (off : Z) (name : string) (v : Z) (c : ctx_type) : ctx_type :=
  print (EField off name v) c.

(** The context of [main2] right after the file has been read. *)
Definition newCtx (d : list byte) : ctx_type :=
  mkCtx d (Z.of_nat (List.length d)) 0 true "" "" ""
    0 0 0 0 0 0
    0 "none" 0 0 0
    false 0 false false 0 0
    false false 0 0 0 ""
    false false 0 0 0 [].

(** ** Reading little-endian integers *)

Definition bval (b : byte) : Z := Z.of_N (Byte.to_N b).

(** [d[i]]; the program only indexes inside the slice. *)
Definition at_ (d : list byte) (i : Z) : Z :=
  match nth_error d (Z.to_nat i) with
  | Some b => bval b
  | None => 0
  end.

Definition len (d : list byte) : Z := Z.of_nat (List.length d).

(** The Go slice [d[lo:hi]]. *)
Definition slice (d : list byte) (lo hi : Z) : list byte :=
  firstn (Z.to_nat (hi - lo)) (skipn (Z.to_nat lo) d).

(** DWORD: unsigned 32-bit little-endian integer of [d[0:4]]. *)
Definition getDWORD (d : list byte) : Z :=
  at_ d 0 + at_ d 1 * 256 + at_ d 2 * 65536 + at_ d 3 * 16777216.

(** WORD: unsigned 16-bit little-endian integer of [d[0:2]]. *)
Definition getWORD (d : list byte) : Z :=
  at_ d 0 + at_ d 1 * 256.

(** Go's conversion [int32(x)] of a value [0 <= x < 2^32]. *)
Definition int32_of (x : Z) : Z :=
  if x <? 2147483648 then x else x - 4294967296.

(** LONG: signed 32-bit little-endian integer. *)
Definition getLONG (d : list byte) : Z := int32_of (getDWORD d).

(** ** Version detection *)

Definition detectVersion (c : ctx_type) (d : list byte) : ctx_type :=
  if len d <? 18 then c else
  let fsize := getDWORD (slice (data c) (pos c + 2) (pos c + 6)) in
  let infoHeaderSize := getDWORD (slice (data c) (pos c + 14) (pos c + 18)) in
  let bitCount := if len d >=? 30
                  then getWORD (slice (data c) (pos c + 28) (pos c + 30)) else 0 in
  let compression := if len d >=? 34
                     then getDWORD (slice (data c) (pos c + 30) (pos c + 34)) else 0 in
  let os2CmprFlag := ((compression =? 3) && (bitCount =? 1))
                     || ((compression =? 4) && (bitCount =? 24)) in
  let '(verID, verName) :=
    if (infoHeaderSize =? 12) && (fsize =? (14 + infoHeaderSize) mod 4294967296) then ("os2v1", bmpVerName c)
    else if infoHeaderSize =? 12 then ("winv2", bmpVerName c)
    else if (os2CmprFlag || (fsize =? (14 + infoHeaderSize) mod 4294967296))
            && (16 <=? infoHeaderSize) && (infoHeaderSize <=? 64) then ("os2v2", bmpVerName c)
    else if infoHeaderSize =? 40 then
      ("winv3", if bitCount =? 2 then "Windows CE BMP" else bmpVerName c)
    else if infoHeaderSize =? 52 then ("52", bmpVerName c)
    else if infoHeaderSize =? 56 then ("56", bmpVerName c)
    else if (16 <=? infoHeaderSize) && (infoHeaderSize <=? 64) then ("os2v2", bmpVerName c)
    else if infoHeaderSize =? 108 then ("winv4", bmpVerName c)
    else if infoHeaderSize =? 124 then ("winv5", bmpVerName c)
    else ("unknown", bmpVerName c) in
  let c := set_bmpVerID verID c in
  (* Set bmpVerName based on the ID, if it's not already set. *)
  if String.eqb verName "" then set_bmpVerName (versionIDToName verID) c
  else set_bmpVerName verName c.

(** ** The file header *)

(** Go's [string(d[0:2])]. *)
Definition string_of_bytes (d : list byte) : string :=
  fold_right (fun b s => String (Ascii.ascii_of_byte b) s) EmptyString d.

Definition inspectFileheader (c : ctx_type) (d : list byte) : result ctx_type :=
  let c := print (EText "----- FILEHEADER -----") c in
  let c := set_fileType (string_of_bytes (slice d 0 2)) c in
  let c := pfxPrintf 0 "bfType" (getWORD (slice d 0 2)) c in
  let fileTypeName := fileTypeNames (fileType c) in
  if String.eqb fileTypeName "" then Err "Not a BMP file" else
  let c := print (EText fileTypeName) c in
  if negb (String.eqb (fileType c) "BM") then Err "File type not supported" else
  let c := detectVersion c (data c) in
  let c := print (EText (bmpVerName c)) c in
  let bfSize := getDWORD (slice d 2 6) in
  let c := pfxPrintf 2 "bfSize" bfSize c in
  (* The Size field is usually is set to the file size. But in OS/2 BMPs
     it can be set to the fileHeader size + infoHeader size. *)
  let c := if negb (bfSize =? fileSize c)
              && negb (bfSize =? (14 + infoHeaderSize c) mod 4294967296)
           then print (EText "Warning: Reported file size does not equal actual file size") c
           else c in
  let c := pfxPrintf 6 "bfReserved1" (getWORD (slice d 6 8)) c in
  let c := pfxPrintf 8 "bfReserved2" (getWORD (slice d 8 10)) c in
  let c := set_bfOffBits (getDWORD (slice d 10 14)) c in
  let c := pfxPrintf 10 "bfOffBits" (bfOffBits c) c in
  Ok c.

(** ** The info header decoders *)

Definition inspectInfoheaderOS2 (c : ctx_type) (d : list byte) : result ctx_type :=
  let bcWidth := getWORD (slice d 4 6) in
  let c := pfxPrintf 4 "Width" bcWidth c in
  let c := set_imgWidth bcWidth c in
  let bcHeight := getWORD (slice d 6 8) in
  let c := pfxPrintf 6 "Height" bcHeight c in
  let c := set_imgHeight bcHeight c in
  let bcPlanes := getWORD (slice d 8 10) in
  let c := pfxPrintf 8 "Planes" bcPlanes c in
  let bcBitCount := getWORD (slice d 10 12) in
  let c := pfxPrintf 10 "BitCount" bcBitCount c in
  let c := set_bitCount bcBitCount c in
  let c := set_palBytesPerEntry 3 c in
  if bcBitCount <=? 8 then
    let c := set_palNumEntries (Z.shiftl 1 bcBitCount) c in
    let bytesAvailableForPalette := bfOffBits c - (14 + infoHeaderSize c) in
    if (bytesAvailableForPalette >=? 3)
       && (bytesAvailableForPalette <? 3 * palNumEntries c) then
      let c := set_palNumEntries (Z.quot bytesAvailableForPalette 3) c in
      Ok (print (EText "Warning: Bitmap overlaps color table. Assuming there are only N colors in color table") c)
    else Ok c
  else Ok c.

Definition printDotsPerMeter (n : Z) (c : ctx_type) : ctx_type := print (ENum n) c.

(** Based on the compressionCode and BMP version, the description of the
    compressionCode, and the compression algorithm. *)
Definition getCompressionCodeInfo (c : ctx_type) : string * string :=
  let cc := compressionCode c in
  if cc =? bI_RGB then ("BI_RGB (uncompressed)", "none")
  else if cc =? bI_RLE8 then ("BI_RLE8", "rle8")
  else if cc =? bI_RLE4 then ("BI_RLE4", "rle4")
  else if cc =? 3 then
    if String.eqb (bmpVerID c) "os2v2" then ("Huffman 1D", "huffman1d")
    else ("BI_BITFIELDS (uncompressed)", "none")
  else if cc =? 4 then
    if String.eqb (bmpVerID c) "os2v2" then ("RLE24", "rle24")
    else ("BI_JPEG", "jpeg")
  else if cc =? bI_PNG then ("BI_PNG", "png")
  else if cc =? bI_ALPHABITFIELDS then ("BI_ALPHABITFIELDS (uncompressed)", "none")
  else ("(unrecognized)", "unknown").

(** Go's [int64] arithmetic: a result is taken modulo 2^64 into
    [-2^63, 2^63). *)
Definition wrap64 (x : Z) : Z := (x + 9223372036854775808) mod 18446744073709551616 - 9223372036854775808.

(** Go's [int(-biHeight)] for an [int32] [biHeight]: the negation wraps. *)
Definition neg_int32 (x : Z) : Z := int32_of ((- x) mod 4294967296).

(** [inspectInfoheaderV3] is written as the sequence of its blocks, one
    definition per block of the Go function. *)

(** [biWidth] (lines 405-411). *)
Definition v3_width (d : list byte) (c : ctx_type) : ctx_type :=
  let biWidth := getLONG (slice d 4 8) in
  let c := pfxPrintf 4 "Width" biWidth c in
  let c := set_imgWidth biWidth c in
  if imgWidth c <? 1 then set_printPixels false (print (EText "Warning: Bad width") c) else c.

(** [biHeight] (lines 413-426). *)
Definition v3_height (d : list byte) (c : ctx_type) : ctx_type :=
  let biHeight := getLONG (slice d 8 12) in
  let c := pfxPrintf 8 "Height" biHeight c in
  let c := if biHeight <? 0
           then set_imgHeight (neg_int32 biHeight) (set_topDown true c)
           else set_imgHeight biHeight c in
  if imgHeight c <? 1 then set_printPixels false (print (EText "Warning: Bad height") c) else c.

(** [biPlanes] (lines 428-432). *)
Definition v3_planes (d : list byte) (c : ctx_type) : ctx_type :=
  let biPlanes := getWORD (slice d 12 14) in
  let c := pfxPrintf 12 "Planes" biPlanes c in
  if negb (biPlanes =? 1) then print (EText "Warning: Planes is required to be 1") c else c.

(** [biBitCount] (lines 434-436). *)
Definition v3_biBitCount (d : list byte) : Z := getWORD (slice d 14 16).

Definition v3_bitCount (d : list byte) (c : ctx_type) : ctx_type :=
  set_bitCount (v3_biBitCount d) (pfxPrintf 14 "BitCount" (v3_biBitCount d) c).

(** [biCompression] (lines 438-463). *)
Definition v3_compression (d : list byte) (c : ctx_type) : ctx_type :=
  if len d >=? 20 then
    let c := set_compressionCode (getDWORD (slice d 16 20)) c in
    let '(compressionCodeDescr, ctype) := getCompressionCodeInfo c in
    let c := set_compressionType ctype c in
    let c := pfxPrintf 16 "Compression" (compressionCode c) c in
    let c := print (EText compressionCodeDescr) c in
    let c := set_isCompressed (negb (String.eqb (compressionType c) "none")) c in
    let c := if isCompressed c && negb (String.eqb (compressionType c) "unknown")
                && topDown c
             then set_printPixels false
                    (print (EText "Warning: Compressed images may not be top-down") c)
             else c in
    if (compressionCode c =? bI_BITFIELDS) && String.eqb (bmpVerID c) "winv3" then
      set_bitfieldsSegmentSize 12 (set_hasBitfieldsSegment true c)
    else if (compressionCode c =? bI_ALPHABITFIELDS) && String.eqb (bmpVerID c) "winv3" then
      set_bitfieldsSegmentSize 16 (set_hasBitfieldsSegment true c)
    else c
  else c.

(** [biSizeImage] (lines 465-472). *)
Definition v3_sizeImage (d : list byte) (c : ctx_type) : ctx_type :=
  let c := if len d >=? 24
           then let c := set_sizeImage (getDWORD (slice d 20 24)) c in
                pfxPrintf 20 "SizeImage" (sizeImage c) c
           else c in
  if (sizeImage c =? 0) && isCompressed c
  then print (EText "Warning: SizeImage is required for compressed images") c
  else c.

(** [biXPelsPerMeter], [biYPelsPerMeter] (lines 474-484). *)
Definition v3_pelsPerMeter (d : list byte) (c : ctx_type) : ctx_type :=
  let c := if len d >=? 28
           then printDotsPerMeter (getLONG (slice d 24 28))
                  (pfxPrintf 24 "XPelsPerMeter" (getLONG (slice d 24 28)) c)
           else c in
  if len d >=? 32
  then printDotsPerMeter (getLONG (slice d 28 32))
         (pfxPrintf 28 "YPelsPerMeter" (getLONG (slice d 28 32)) c)
  else c.

(** The local [biClrUsed]: 0 unless the field is present. *)
Definition v3_biClrUsed (d : list byte) : Z :=
  if len d >=? 36 then getDWORD (slice d 32 36) else 0.

(** [biClrUsed] (lines 486-493). *)
Definition v3_clrUsed (d : list byte) (c : ctx_type) : result ctx_type :=
  if len d >=? 36 then
    let c := pfxPrintf 32 "ClrUsed" (v3_biClrUsed d) c in
    if v3_biClrUsed d >? 100000 then Err "Unreasonable color table size" else Ok c
  else Ok c.

(** [biClrImportant] (lines 495-498). *)
Definition v3_clrImportant (d : list byte) (c : ctx_type) : ctx_type :=
  if len d >=? 40 then pfxPrintf 36 "ClrImportant" (getDWORD (slice d 36 40)) c else c.

(** The palette size (lines 500-510). *)
Definition v3_palette (d : list byte) (c : ctx_type) : ctx_type :=
  let biBitCount := v3_biBitCount d in
  let biClrUsed := v3_biClrUsed d in
  let c := set_palBytesPerEntry 4 c in
  if (biBitCount >? 0) && (biBitCount <=? 8) then
    if biClrUsed =? 0 then set_palNumEntries (Z.shiftl 1 biBitCount) c
    else set_palNumEntries biClrUsed c
  else set_palNumEntries biClrUsed c.

(** len(d) is assumed to be at least 16. *)
Definition inspectInfoheaderV3 (c : ctx_type) (d : list byte) : result ctx_type :=
  c <- v3_clrUsed d (v3_pelsPerMeter d (v3_sizeImage d (v3_compression d
         (v3_bitCount d (v3_planes d (v3_height d (v3_width d c))))))) ;;
  Ok (v3_palette d (v3_clrImportant d c)).

Definition csTypeIsValid (c : ctx_type) (csType : Z) : bool :=
  if String.eqb (bmpVerID c) "winv4" then csType =? lCS_CALIBRATED_RGB
  else if String.eqb (bmpVerID c) "winv5" then
    existsb (Z.eqb csType) [lCS_CALIBRATED_RGB; lCS_sRGB; lCS_WINDOWS_COLOR_SPACE;
                            pROFILE_LINKED; pROFILE_EMBEDDED]
  else false.

(** The three CIEXYZ endpoints; the 2.30 fixed-point coordinates are printed
    as floats by the program, recorded here by their raw X coordinate. *)
Definition inspectCIEXYZTRIPLE (c : ctx_type) (d : list byte) (off : Z) : ctx_type :=
  let c := pfxPrintf off "Endpoints" (getDWORD (slice d 0 4)) c in
  let c := pfxPrintf (off + 12) "Endpoints" (getDWORD (slice d 12 16)) c in
  pfxPrintf (off + 24) "Endpoints" (getDWORD (slice d 24 28)) c.

Definition inspectInfoheaderOS2V2 (c : ctx_type) (d : list byte) : result ctx_type :=
  c <- inspectInfoheaderV3 c d ;;
  if len d <? 42 then Ok c else
  let c := pfxPrintf 40 "Units" (getWORD (slice d 40 42)) c in
  if len d <? 44 then Ok c else
  let c := pfxPrintf 42 "Reserved" (getWORD (slice d 42 44)) c in
  if len d <? 46 then Ok c else
  let c := pfxPrintf 44 "Recording" (getWORD (slice d 44 46)) c in
  if len d <? 48 then Ok c else
  let c := pfxPrintf 46 "Rendering" (getWORD (slice d 46 48)) c in
  if len d <? 52 then Ok c else
  let c := pfxPrintf 48 "Size1" (getDWORD (slice d 48 52)) c in
  if len d <? 56 then Ok c else
  let c := pfxPrintf 52 "Size2" (getDWORD (slice d 52 56)) c in
  if len d <? 60 then Ok c else
  let c := pfxPrintf 56 "ColorEncoding" (getDWORD (slice d 56 60)) c in
  if len d <? 64 then Ok c else
  let c := pfxPrintf 60 "Identifier" (getDWORD (slice d 60 64)) c in
  Ok c.

(** The gamma values are 16.16 fixed point, printed as floats by the
    program, recorded here by their raw DWORD. *)
Definition inspectInfoheaderV4 (c : ctx_type) (d : list byte) : result ctx_type :=
  c <- inspectInfoheaderV3 c (slice d 0 40) ;;
  let c := pfxPrintf 40 "RedMask" (getDWORD (slice d 40 44)) c in
  let c := pfxPrintf 44 "GreenMask" (getDWORD (slice d 44 48)) c in
  let c := pfxPrintf 48 "BlueMask" (getDWORD (slice d 48 52)) c in
  if len d <? 56 then Ok c else
  let c := pfxPrintf 52 "AlphaMask" (getDWORD (slice d 52 56)) c in
  if len d <? 108 then Ok c else
  let csType := getDWORD (slice d 56 60) in
  let c := pfxPrintf 56 "CSType" csType c in
  let c := if csTypeIsValid c csType then c else print (EText " (invalid?)") c in
  let c := if csType =? pROFILE_LINKED then set_profileIsLinked true (set_hasProfile true c)
           else if csType =? pROFILE_EMBEDDED then set_hasProfile true c
           else c in
  let c := inspectCIEXYZTRIPLE c (slice d 60 96) 60 in
  let c := pfxPrintf 96 "GammaRed" (getDWORD (slice d 96 100)) c in
  let c := pfxPrintf 100 "GammaGreen" (getDWORD (slice d 100 104)) c in
  let c := pfxPrintf 104 "GammaBlue" (getDWORD (slice d 104 108)) c in
  Ok c.

Definition inspectInfoheaderV5 (c : ctx_type) (d : list byte) : result ctx_type :=
  c <- inspectInfoheaderV4 c (slice d 0 108) ;;
  let c := pfxPrintf 108 "Intent" (getDWORD (slice d 108 112)) c in
  let profileData := getDWORD (slice d 112 116) in
  let c := pfxPrintf 112 "ProfileData" profileData c in
  let profileSize := getDWORD (slice d 116 120) in
  let c := pfxPrintf 116 "ProfileSize" profileSize c in
  let c := if hasProfile c
           then set_profileSize profileSize (set_profileOffset (14 + profileData) c)
           else c in
  let c := pfxPrintf 120 "Reserved" (getDWORD (slice d 120 124)) c in
  Ok c.

(** Information about the different BMP versions: the map [versionInfo],
    giving the field-name prefix and the info header decoder. *)
Definition versionInfo (id : string)
  : option (string * (ctx_type -> list byte -> result ctx_type)) :=
  if String.eqb id "os2v1" then Some ("", inspectInfoheaderOS2)
  else if String.eqb id "os2v2" then Some ("", inspectInfoheaderOS2V2)
  else if String.eqb id "winv2" then Some ("bc", inspectInfoheaderOS2)
  else if String.eqb id "winv3" then Some ("bi", inspectInfoheaderV3)
  else if String.eqb id "52" then Some ("bi", inspectInfoheaderV4)
  else if String.eqb id "56" then Some ("bi", inspectInfoheaderV4)
  else if String.eqb id "winv4" then Some ("bV4", inspectInfoheaderV4)
  else if String.eqb id "winv5" then Some ("bV5", inspectInfoheaderV5)
  else None.

(** [checkBitCount]: [None] is Go's [nil]. *)
Definition checkBitCount (c : ctx_type) : option string :=
  let id := bmpVerID c in
  let ok :=
    match bitCount c with
    | 0 => (String.eqb id "winv4" || String.eqb id "winv5")
           && ((compressionCode c =? bI_JPEG) || (compressionCode c =? bI_PNG))
    | 1 | 4 | 8 | 24 => true
    | 2 => String.eqb id "winv3"
    | 16 | 32 => String.eqb id "winv3" || String.eqb id "52" || String.eqb id "56"
                 || String.eqb id "winv4" || String.eqb id "winv5"
    | _ => false
    end in
  if ok then None else Some "Invalid BitCount".

Definition readInfoheader (c : ctx_type) : result ctx_type :=
  if fileSize c - pos c <? 4 then Err "Unexpected end of file" else
  let c := print (EText "----- INFOHEADER -----") c in
  let c := print (ENum (infoHeaderSize c)) c in
  let vi := versionInfo (bmpVerID c) in
  if fileSize c - pos c <? infoHeaderSize c then Err "Unexpected end of file" else
  match vi with
  | None => Err "Unknown BMP version"
  | Some (prefix, inspectInfoheaderFunc) =>
      let c := set_fieldNamePrefix prefix c in
      c <- inspectInfoheaderFunc c (slice (data c) (pos c) (pos c + infoHeaderSize c)) ;;
      match checkBitCount c with
      | Some e => Err e
      | None =>
          let c := set_palSizeInBytes (palBytesPerEntry c * palNumEntries c) c in
          Ok (set_pos (pos c + infoHeaderSize c) c)
      end
  end.

(** ** Uncompressed pixels *)

(** Record information about a bad palette index. *)
Definition badColor (c : ctx_type) (n xpos : Z) : ctx_type :=
  if negb (badColorFlag c) then
    set_badColorFlag true (set_badColor_X xpos (set_badColorIndex n c))
  else c.

(** [0, 1, ..., n-1], the values of a Go loop counter [for i = 0; i < n; i++]. *)
Definition zseq (n : Z) : list Z := map Z.of_nat (seq 0 (Z.to_nat n)).

(** The pixel [i] of a row, as each [printRow_*] function extracts it. *)
Definition pixel_1 (d : list byte) (i : Z) : Z :=
  if Z.land (at_ d (i / 8)) (Z.shiftl 1 (7 - i mod 8)) =? 0 then 0 else 1.
Definition pixel_2 (d : list byte) (i : Z) : Z :=
  Z.land (Z.shiftr (at_ d (i / 4)) (2 * (3 - i mod 4))) 3.
Definition pixel_4 (d : list byte) (i : Z) : Z :=
  if i mod 2 =? 0 then Z.shiftr (at_ d (i / 2)) 4 else Z.land (at_ d (i / 2)) 15.
Definition pixel_8 (d : list byte) (i : Z) : Z := at_ d i.
Definition pixel_16 (d : list byte) (i : Z) : Z := getWORD (slice d (i * 2) (i * 2 + 2)).
Definition pixel_24 (d : list byte) (i : Z) : Z :=
  Z.lor (Z.shiftl (at_ d (i * 3 + 2)) 16)
        (Z.lor (Z.shiftl (at_ d (i * 3 + 1)) 8) (at_ d (i * 3))).
Definition pixel_32 (d : list byte) (i : Z) : Z := getDWORD (slice d (i * 4) (i * 4 + 4)).

(** The body shared by [printRow_1], [printRow_2], [printRow_4] and
    [printRow_8]: print every pixel and check it against the palette. *)
Definition printRowIndexed (px : list byte -> Z -> Z) (c : ctx_type) (d : list byte)
  : ctx_type :=
  let is := zseq (imgWidth c) in
  let c := fold_left (fun c i =>
             let n := px d i in
             if n >=? palNumEntries c then badColor c n i else c) is c in
  print (EPixels (map (px d) is)) c.

(** The body shared by [printRow_16], [printRow_24] and [printRow_32]. *)
Definition printRowDirect (px : list byte -> Z -> Z) (c : ctx_type) (d : list byte)
  : ctx_type :=
  print (EPixels (map (px d) (zseq (imgWidth c)))) c.

Definition printRow_1 := printRowIndexed pixel_1.
Definition printRow_2 := printRowIndexed pixel_2.
Definition printRow_4 := printRowIndexed pixel_4.
Definition printRow_8 := printRowIndexed pixel_8.
Definition printRow_16 := printRowDirect pixel_16.
Definition printRow_24 := printRowDirect pixel_24.
Definition printRow_32 := printRowDirect pixel_32.

(** The map [printRowFuncs]. *)
Definition printRowFuncs (bitCount : Z) : option (ctx_type -> list byte -> ctx_type) :=
  match bitCount with
  | 1 => Some printRow_1
  | 2 => Some printRow_2
  | 4 => Some printRow_4
  | 8 => Some printRow_8
  | 16 => Some printRow_16
  | 24 => Some printRow_24
  | 32 => Some printRow_32
  | _ => None
  end.

Definition printUncompressedPixels (c : ctx_type) (d : list byte) : ctx_type :=
  match printRowFuncs (bitCount c) with
  | None => c
  | Some pR =>
      fold_left (fun c rowPhysical =>
        let rowLogical := if topDown c then rowPhysical
                          else imgHeight c - 1 - rowPhysical in
        let offset := rowPhysical * rowStride c in
        let c := print (ENum rowLogical) c in
        let c := pR c (slice d offset (offset + rowStride c)) in
        (* At the end of the row, display any pending warning. *)
        if badColorFlag c && negb (badColorWarned c) then
          set_badColorWarned true
            (print (ENum rowLogical) (print (ENum (badColor_X c))
              (print (ENum (badColorIndex c))
                (print (EText "Warning: Bad palette index") c))))
        else c) (zseq (imgHeight c)) c
  end.

(** ** RLE-compressed pixels *)

Record rlectx_type := mkRlectx {
  bytesInThisRow : Z;
  rowHeaderPrinted : bool;
  xpos : Z;
  ypos : Z;
  badPosFlag : bool;
  badPosWarned : bool;
  badPos_X : Z;
  badPos_Y : Z
}.

Definition set_bytesInThisRow (v : Z) (s : rlectx_type) : rlectx_type :=
  mkRlectx v (rowHeaderPrinted s) (xpos s) (ypos s)
    (badPosFlag s) (badPosWarned s) (badPos_X s) (badPos_Y s).
Definition set_rowHeaderPrinted (v : bool) (s : rlectx_type) : rlectx_type :=
  mkRlectx (bytesInThisRow s) v (xpos s) (ypos s)
    (badPosFlag s) (badPosWarned s) (badPos_X s) (badPos_Y s).
Definition set_xpos (v : Z) (s : rlectx_type) : rlectx_type :=
  mkRlectx (bytesInThisRow s) (rowHeaderPrinted s) v (ypos s)
    (badPosFlag s) (badPosWarned s) (badPos_X s) (badPos_Y s).
Definition set_ypos (v : Z) (s : rlectx_type) : rlectx_type :=
  mkRlectx (bytesInThisRow s) (rowHeaderPrinted s) (xpos s) v
    (badPosFlag s) (badPosWarned s) (badPos_X s) (badPos_Y s).
Definition set_badPosFlag (v : bool) (s : rlectx_type) : rlectx_type :=
  mkRlectx (bytesInThisRow s) (rowHeaderPrinted s) (xpos s) (ypos s)
    v (badPosWarned s) (badPos_X s) (badPos_Y s).
Definition set_badPosWarned (v : bool) (s : rlectx_type) : rlectx_type :=
  mkRlectx (bytesInThisRow s) (rowHeaderPrinted s) (xpos s) (ypos s)
    (badPosFlag s) v (badPos_X s) (badPos_Y s).
Definition set_badPos_X (v : Z) (s : rlectx_type) : rlectx_type :=
  mkRlectx (bytesInThisRow s) (rowHeaderPrinted s) (xpos s) (ypos s)
    (badPosFlag s) (badPosWarned s) v (badPos_Y s).
Definition set_badPos_Y (v : Z) (s : rlectx_type) : rlectx_type :=
  mkRlectx (bytesInThisRow s) (rowHeaderPrinted s) (xpos s) (ypos s)
    (badPosFlag s) (badPosWarned s) (badPos_X s) v.

(** The local variables of the decoding loop of [printRLECompressedPixels]. *)
Record rle_locals := mkLocals {
  lpos : Z;
  unc_pixels_left : Z;
  deltaFlag : bool;
  rle24pendingFlag : bool;
  clr24bytes : list Z;
  clr24bytes_used : Z
}.

Definition set_lpos (v : Z) (s : rle_locals) : rle_locals :=
  mkLocals v (unc_pixels_left s) (deltaFlag s) (rle24pendingFlag s)
    (clr24bytes s) (clr24bytes_used s).
Definition set_unc_pixels_left (v : Z) (s : rle_locals) : rle_locals :=
  mkLocals (lpos s) v (deltaFlag s) (rle24pendingFlag s)
    (clr24bytes s) (clr24bytes_used s).
Definition set_deltaFlag (v : bool) (s : rle_locals) : rle_locals :=
  mkLocals (lpos s) (unc_pixels_left s) v (rle24pendingFlag s)
    (clr24bytes s) (clr24bytes_used s).
Definition set_rle24pendingFlag (v : bool) (s : rle_locals) : rle_locals :=
  mkLocals (lpos s) (unc_pixels_left s) (deltaFlag s) v
    (clr24bytes s) (clr24bytes_used s).
Definition set_clr24bytes (v : list Z) (s : rle_locals) : rle_locals :=
  mkLocals (lpos s) (unc_pixels_left s) (deltaFlag s) (rle24pendingFlag s)
    v (clr24bytes_used s).
Definition set_clr24bytes_used (v : Z) (s : rle_locals) : rle_locals :=
  mkLocals (lpos s) (unc_pixels_left s) (deltaFlag s) (rle24pendingFlag s)
    (clr24bytes s) v.

(** How the decoding loop was left: at an end-of-bitmap code, or because
    fewer than two bytes were left (the two [break]s of the loop). *)
Inductive rle_exit : Type := ExitEOBMP | ExitTruncated.

(** Do some things that need to be done at the end of every row. *)
Definition endRLERow (c : ctx_type) (r : rlectx_type) : ctx_type * rlectx_type :=
  let '(c, r) :=
    if rowHeaderPrinted r then
      (print (ERowBytes (bytesInThisRow r)) c,
       set_rowHeaderPrinted false (set_bytesInThisRow 0 r))
    else (c, r) in
  (* Print pending warnings. *)
  let '(c, r) :=
    if badPosFlag r && negb (badPosWarned r) then
      (print (ENum (badPos_Y r)) (print (ENum (badPos_X r))
         (print (EText "Warning: Out of bounds pixel") c)),
       set_badPosWarned true r)
    else (c, r) in
  let c :=
    if badColorFlag c && negb (badColorWarned c) then
      set_badColorWarned true
        (print (ENum (badColor_Y c)) (print (ENum (badColor_X c))
          (print (ENum (badColorIndex c)) (print (EText "Warning: Bad palette index") c))))
    else c in
  (c, r).

Definition checkRLEPosAndColor (c : ctx_type) (r : rlectx_type) (n : Z)
  : ctx_type * rlectx_type :=
  let r := if ((xpos r >=? imgWidth c) || (ypos r <? 0)) && negb (badPosFlag r)
           then set_badPos_Y (ypos r) (set_badPos_X (xpos r) (set_badPosFlag true r))
           else r in
  if compressionCode c =? bI_RLE24 then (c, r) else
  let c := if (n >=? palNumEntries c) && negb (badColorFlag c)
           then set_badColorFlag true (set_badColor_Y (ypos r) (set_badColor_X (xpos r)
                  (set_badColorIndex n c)))
           else c in
  (c, r).

(** [printRLE4Pixel] and [printRLE8Pixel]. *)
Definition printRLEPixel (c : ctx_type) (r : rlectx_type) (n : Z) : ctx_type * rlectx_type :=
  checkRLEPosAndColor (print (EPixel n) c) r n.

Definition printRLE24Pixel (c : ctx_type) (r : rlectx_type) (clr : list Z)
  : ctx_type * rlectx_type :=
  let v := Z.lor (Z.shiftl (nth 2 clr 0) 16) (Z.lor (Z.shiftl (nth 1 clr 0) 8) (nth 0 clr 0)) in
  checkRLEPosAndColor (print (EPixel v) c) r 0.

Definition incx (k : Z) (r : rlectx_type) : rlectx_type := set_xpos (xpos r + k) r.

(** [clr24bytes[i] = v] for the 4-byte array [clr24bytes]. *)
Fixpoint upd (l : list Z) (i : nat) (v : Z) : list Z :=
  match l, i with
  | [], _ => []
  | _ :: t, O => v :: t
  | h :: t, S i => h :: upd t i v
  end.

(** One pixel of an uncompressed RLE4/RLE8 run, if any is left:
    [if unc_pixels_left > 0 { printRLE4Pixel(...); xpos++; unc_pixels_left-- }]. *)
Definition litPixel (n : Z) (st : ctx_type * rlectx_type * Z) : ctx_type * rlectx_type * Z :=
  let '(c, r, nleft) := st in
  if nleft >? 0 then
    let '(c, r) := printRLEPixel c r n in (c, incx 1 r, nleft - 1)
  else st.

(** One iteration of the decoding loop after the two bytes [b1], [b2] have
    been read (the row header is printed by [rle_loop]).  The boolean is
    [true] at the [break] of an end-of-bitmap code. *)
Definition rle_step (c : ctx_type) (r : rlectx_type) (s : rle_locals) (b1 b2 : Z)
  : ctx_type * rlectx_type * rle_locals * bool :=
  let s := set_lpos (lpos s + 2) s in
  let r := set_bytesInThisRow (bytesInThisRow r + 2) r in
  if unc_pixels_left s >? 0 then
    let '(c, r, s) :=
      if compressionCode c =? bI_RLE24 then
        (* Append these 2 bytes to our color buffer *)
        let s := set_clr24bytes (upd (clr24bytes s) (Z.to_nat (clr24bytes_used s)) b1) s in
        let s := set_clr24bytes_used (clr24bytes_used s + 1) s in
        let s := set_clr24bytes (upd (clr24bytes s) (Z.to_nat (clr24bytes_used s)) b2) s in
        let s := set_clr24bytes_used (clr24bytes_used s + 1) s in
        let '(c, r, s) :=
          if clr24bytes_used s >=? 3 then
            (* We've accumulated enough bytes for a pixel *)
            let '(c, r) := printRLE24Pixel c r (firstn 3 (clr24bytes s)) in
            let r := incx 1 r in
            let s := set_unc_pixels_left (unc_pixels_left s - 1) s in
            let c := if unc_pixels_left s >? 0 then print (EText " ") c else c in
            (* If there was a leftover byte, move it to the beginning *)
            let s := if clr24bytes_used s =? 4
                     then set_clr24bytes (upd (clr24bytes s) 0 (nth 3 (clr24bytes s) 0)) s
                     else s in
            (c, r, set_clr24bytes_used (clr24bytes_used s - 3) s)
          else (c, r, s) in
        let s := if unc_pixels_left s <? 1 then set_clr24bytes_used 0 s else s in
        (c, r, s)
      else if compressionCode c =? bI_RLE4 then
        (* The two bytes we read store up to 4 uncompressed pixels. *)
        let '(c, r) := printRLEPixel c r (Z.shiftr b1 4) in
        let r := incx 1 r in
        let st := (c, r, unc_pixels_left s - 1) in
        let st := litPixel (Z.land b1 15) st in
        let st := litPixel (Z.shiftr b2 4) st in
        let '(c, r, nleft) := litPixel (Z.land b2 15) st in
        (c, r, set_unc_pixels_left nleft s)
      else (* RLE8 *)
        let '(c, r) := printRLEPixel c r b1 in
        let r := incx 1 r in
        let s := set_unc_pixels_left (unc_pixels_left s - 1) s in
        let '(c, r, s) :=
          if unc_pixels_left s >? 0 then
            let '(c, r) := printRLEPixel (print (EText " ") c) r b2 in
            (c, incx 1 r, set_unc_pixels_left (unc_pixels_left s - 1) s)
          else (c, r, s) in
        let c := if unc_pixels_left s >? 0 then print (EText " ") c else c in
        (c, r, s) in
    let c := if unc_pixels_left s =? 0 then print (EText "}") c else c in
    (c, r, s, false)
  else if deltaFlag s then
    let c := print (ENum b2) (print (ENum b1) c) in
    let r := set_ypos (ypos r - b2) (incx b1 r) in
    (* A nonzero y delta moves us to a different row, so end the current row. *)
    let '(c, r) := if b2 >? 0 then endRLERow c r else (c, r) in
    (c, r, set_deltaFlag false s, false)
  else if rle24pendingFlag s then
    (* the last 2 bytes of a 4-byte RLE code *)
    let s := set_clr24bytes (upd (upd (clr24bytes s) 2 b1) 3 b2) s in
    let '(c, r) := printRLE24Pixel c r (skipn 1 (clr24bytes s)) in
    let c := print (EText "}") c in
    let r := incx (nth 0 (clr24bytes s) 0 - 1) r in
    let '(c, r) := checkRLEPosAndColor c r 0 in
    let r := incx 1 r in
    (c, r, set_clr24bytes_used 0 (set_rle24pendingFlag false s), false)
  else if b1 =? 0 then
    if b2 =? 0 then
      let '(c, r) := endRLERow (print (EText " EOL") c) r in
      (c, set_xpos 0 (set_ypos (ypos r - 1) r), s, false)
    else if b2 =? 1 then
      let '(c, r) := endRLERow (print (EText " EOBMP") c) r in
      (c, r, s, true)
    else if b2 =? 2 then
      (print (EText " DELTA") c, r, set_deltaFlag true s, false)
    else
      (* An upcoming uncompressed run of b2 pixels *)
      (print (ENum b2) (print (EText " u") c), r, set_unc_pixels_left b2 s, false)
  else (* Compressed pixels *)
    if compressionCode c =? bI_RLE24 then
      let c := print (ENum b1) c in
      let '(c, r) := checkRLEPosAndColor c r 0 in
      let s := set_clr24bytes (upd (upd (clr24bytes s) 0 b1) 1 b2) s in
      (c, r, set_rle24pendingFlag true (set_clr24bytes_used 2 s), false)
    else if compressionCode c =? bI_RLE4 then
      let n1 := Z.shiftr (Z.land b2 240) 4 in
      let n2 := Z.land b2 15 in
      let c := print (ENum b1) c in
      let c := if (b1 =? 1) || (n1 =? n2) then print (EPixel n1) c
               else print (EPixel n2) (print (EPixel n1) c) in
      (* Check the first pixel of this run for valid color and position. *)
      let '(c, r) := checkRLEPosAndColor c r n1 in
      let r := incx 1 r in
      let '(c, r) :=
        if b1 >? 1 then
          (* Check the second pixel. *)
          let '(c, r) := checkRLEPosAndColor c r n2 in
          let r := incx 1 r in
          if b1 >? 2 then
            (* Check the last pixel's position. *)
            let r := incx (b1 - 3) r in
            let '(c, r) := checkRLEPosAndColor c r 0 in
            (c, incx 1 r)
          else (c, r)
        else (c, r) in
      (c, r, s, false)
    else (* RLE8 *)
      let c := print (EPixel b2) (print (ENum b1) c) in
      (* Check the first and last pixel of this run. *)
      let '(c, r) := checkRLEPosAndColor c r b2 in
      let r := incx (b1 - 1) r in
      let '(c, r) := checkRLEPosAndColor c r b2 in
      (c, incx 1 r, s, false).

(** The loop [for { ... }] over the bytes [rest] not read yet. *)
Fixpoint rle_loop (c : ctx_type) (r : rlectx_type) (s : rle_locals) (rest : list byte)
  : ctx_type * rlectx_type * rle_locals * rle_exit :=
  match rest with
  | b1 :: b2 :: rest' =>
      let '(c, r) :=
        if negb (rowHeaderPrinted r) then
          ((if ypos r >=? 0 then print (ENum (ypos r)) c else print (EText "row n/a:") c),
           set_rowHeaderPrinted true r)
        else (c, r) in
      let '(c, r, s, brk) := rle_step c r s (bval b1) (bval b2) in
      if brk then (c, r, s, ExitEOBMP) else rle_loop c r s rest'
  | _ =>
      (* Compressed data ended without an EOBMP code. *)
      let '(c, r) := endRLERow c r in (c, r, s, ExitTruncated)
  end.

Definition rlectx0 (c : ctx_type) : rlectx_type :=
  (* RLE-compressed BMPs are not allowed to be top-down. *)
  mkRlectx 0 false 0 (imgHeight c - 1) false false 0 0.

Definition rle_locals0 : rle_locals := mkLocals 0 0 false false [0; 0; 0; 0] 0.

(** The decoding, with how its loop was left. *)
Definition printRLECompressedPixels_run (c : ctx_type) (d : list byte)
  : option (ctx_type * rlectx_type * rle_locals * rle_exit) :=
  if negb ((bitCount c =? 4) || (bitCount c =? 8) || (bitCount c =? 24)) then None
  else if (bitCount c =? 4) && negb (compressionCode c =? bI_RLE4) then None
  else if (bitCount c =? 8) && negb (compressionCode c =? bI_RLE8) then None
  else if (bitCount c =? 24) && negb (compressionCode c =? bI_RLE24) then None
  else Some (rle_loop c (rlectx0 c) rle_locals0 d).

Definition printRLECompressedPixels (c : ctx_type) (d : list byte) : ctx_type :=
  match printRLECompressedPixels_run c d with
  | None => c
  | Some (c, r, s, _) =>
      let c := set_actualBitsSize (lpos s) c in
      print (ENum (calculatedSize c)) (print (ENum (actualBitsSize c)) c)
  end.

(** ** The bitmap bits *)

(** [inspectBits] is written as the sequence of its blocks. *)

(** Lines 1266-1274. *)
Definition bits_header (c : ctx_type) : ctx_type :=
  let c := print (EText "----- Bitmap bits -----") c in
  if sizeImage c =? 0 then print (EText "n/a") c else print (ENum (sizeImage c)) c.

(** Lines 1276-1277: the row stride and the size of the uncompressed image.
    The width is an [int32] and the bit count a [uint16], so the stride
    cannot wrap; the product with the height is an [int64] product that
    can. *)
Definition bits_stride (c : ctx_type) : ctx_type :=
  let c := set_rowStride (Z.quot (imgWidth c * bitCount c + 31) 32 * 4) c in
  set_calculatedSize (wrap64 (rowStride c * imgHeight c)) c.

(** Lines 1278-1287. *)
Definition bits_calculated (c : ctx_type) : ctx_type :=
  if isCompressed c
  then (* Can't predict the size of compressed images. *)
       print (EText "n/a") c
  else (* An uncompressed image *)
       let c := set_actualBitsSize (calculatedSize c) c in
       print (ENum (calculatedSize c)) c.

(** Lines 1289-1296. *)
Definition bits_implied (d : list byte) (c : ctx_type) : ctx_type :=
  if hasProfile c then print (EText "n/a") c else print (ENum (len d)) c.

(** Lines 1298-1305. *)
Definition bits_check (d : list byte) (c : ctx_type) : ctx_type :=
  if negb (isCompressed c) then
    if (rowStride c <? 1) || (rowStride c >? 1000000) then set_printPixels false c
    else if len d <? calculatedSize c then
      set_printPixels false (print (EText "Warning: Unexpected end of file") c)
    else c
  else c.

(** Lines 1307-1317. *)
Definition bits_pixels (d : list byte) (c : ctx_type) : ctx_type :=
  if printPixels c then
    let t := compressionType c in
    if String.eqb t "none" then printUncompressedPixels c d
    else if String.eqb t "rle8" || String.eqb t "rle4" || String.eqb t "rle24" then
      printRLECompressedPixels c d
    else print (EText "(Don't know how to decode this type of bitmap.)") c
  else c.

Definition inspectBits (c : ctx_type) (d : list byte) : result ctx_type :=
  Ok (bits_pixels d (bits_check d (bits_implied d (bits_calculated (bits_stride
        (bits_header c)))))).

(** ** Bitfields, color table and color profile *)

Definition inspectBitfields (c : ctx_type) (d : list byte) : result ctx_type :=
  let c := print (EText "----- BITFIELDS -----") c in
  let c := fold_left (fun c '(i, v) =>
             if i * 4 >=? len d then c
             else pfxPrintf (i * 4) v (getDWORD (slice d (i * 4) (i * 4 + 4))) c)
           [(0, "Red:  "); (1, "Green:"); (2, "Blue: "); (3, "Alpha:")] c in
  Ok c.

Definition inspectColorTable (c : ctx_type) (d : list byte) : result ctx_type :=
  let c := print (EText "----- Color table -----") c in
  let c := print (ENum (palNumEntries c)) c in
  let c :=
    if String.eqb (bmpVerID c) "os2v2" then
      let bytesAvailableForPalette := bfOffBits c - (14 + infoHeaderSize c) in
      if bytesAvailableForPalette =? 3 * palNumEntries c then
        let c := print (EText "Warning: Bitmap overlaps color table. Assuming there are three bytes per color table entry, instead of four") c in
        let c := set_palBytesPerEntry 3 c in
        set_palSizeInBytes (palNumEntries c * palBytesPerEntry c) c
      else c
    else c in
  let k := palBytesPerEntry c in
  let c := fold_left (fun c i =>
             let b := at_ d (i * k) in
             let g := at_ d (i * k + 1) in
             let r := at_ d (i * k + 2) in
             if k =? 4 then print (EPixels [r; g; b; at_ d (i * k + 3)]) c
             else print (EPixels [r; g; b]) c) (zseq (palNumEntries c)) c in
  Ok c.

Definition inspectProfile (c : ctx_type) (d : list byte) : ctx_type :=
  print (ENum (len d)) (print (EText "----- Color profile -----") c).

(** The file name of a linked profile is printed as an escaped
    Windows-1252 string; recorded here by its bytes. *)
Definition inspectLinkedProfile (c : ctx_type) (d : list byte) : ctx_type :=
  print (EPixels (map bval d)) (print (EText "----- Linked color profile -----") c).

(** ** Reading the whole file *)

(** [readBmp] up to and including the color table. *)
Definition readBmpHeaders (c : ctx_type) : result ctx_type :=
  if fileSize c - pos c <? 18 then Err "File is too small to be a BMP" else
  (* First read the "biSize" field, which tells us the BMP version. *)
  let c := set_infoHeaderSize (getDWORD (slice (data c) (pos c + 14) (pos c + 18))) c in
  c <- inspectFileheader c (slice (data c) (pos c) (pos c + 14)) ;;
  let c := set_pos (pos c + 14) c in
  c <- readInfoheader c ;;
  c <- (if hasBitfieldsSegment c then
          if fileSize c - pos c <? bitfieldsSegmentSize c then Err "Unexpected end of file" else
          c <- inspectBitfields c (slice (data c) (pos c) (pos c + bitfieldsSegmentSize c)) ;;
          Ok (set_pos (pos c + bitfieldsSegmentSize c) c)
        else Ok c) ;;
  if palSizeInBytes c >? 0 then
    if fileSize c - pos c <? palSizeInBytes c then Err "Unexpected end of file" else
    c <- inspectColorTable c (slice (data c) (pos c) (pos c + palSizeInBytes c)) ;;
    Ok (set_pos (pos c + palSizeInBytes c) c)
  else Ok c.

(** Lines 1405-1411: the bytes before [bfOffBits] are skipped. *)
Definition skipUnused (c : ctx_type) : ctx_type :=
  let unusedBytes := bfOffBits c - pos c in
  let c := if unusedBytes >? 0
           then print (EText "unused bytes") (print (ENum unusedBytes) c) else c in
  set_pos (pos c + unusedBytes) c.

(** Lines 1425-1444: the color profile. *)
Definition readProfile (c : ctx_type) : result ctx_type :=
  if hasProfile c then
    let c := if pos c <? profileOffset c
             then set_pos (profileOffset c)
                    (print (EText "unused bytes") (print (ENum (wrap64 (profileOffset c - pos c))) c))
             else c in
    if pos c >? profileOffset c then Err "Invalid color profile location" else
    if pos c + profileSize c >? fileSize c then Err "Invalid color profile size" else
    let pd := slice (data c) (pos c) (pos c + profileSize c) in
    let c := if profileIsLinked c then inspectLinkedProfile c pd else inspectProfile c pd in
    Ok (set_pos (pos c + profileSize c) c)
  else Ok c.

(** The rest of [readBmp], from the check of [bfOffBits] on. *)
Definition readBmpBits (c : ctx_type) : result ctx_type :=
  (* Is the bfOffBits pointer sensible? *)
  if (bfOffBits c <? pos c) || (bfOffBits c >? fileSize c) then Err "Bad bfOffBits value" else
  let c := skipUnused c in
  (* Assume the rest of the file contains the bitmap bits *)
  c <- inspectBits c (slice (data c) (pos c) (fileSize c)) ;;
  if actualBitsSize c <? 1 then Ok c else
  c <- readProfile (set_pos (wrap64 (pos c + actualBitsSize c)) c) ;;
  if pos c <? fileSize c
  then Ok (print (EText "unused bytes") (print (ENum (wrap64 (fileSize c - pos c))) c))
  else Ok c.

Definition readBmp (c : ctx_type) : result ctx_type :=
  c <- readBmpHeaders c ;;
  readBmpBits c.

(** [main2] on the contents of a file. *)
Definition main2 (d : list byte) : result ctx_type := readBmp (newCtx d).

(** ** Building concrete files *)

Definition byte_of (z : Z) : byte :=
  match Byte.of_N (Z.to_N (z mod 256)) with Some b => b | None => x00 end.

Definition le16 (z : Z) : list Z := [z mod 256; (z / 256) mod 256].
Definition le32 (z : Z) : list Z :=
  [z mod 256; (z / 256) mod 256; (z / 65536) mod 256; (z / 16777216) mod 256].

(** A 14-byte file header "BM" with the given bfSize and bfOffBits. *)
Definition fileheader (bfSize bfOffBits : Z) : list Z :=
  [66; 77] ++ le32 bfSize ++ le16 0 ++ le16 0 ++ le32 bfOffBits.

(** A 40-byte BITMAPINFOHEADER. *)
Definition infoheader40 (w h bpp compression clrUsed : Z) : list Z :=
  le32 40 ++ le32 (w mod 4294967296) ++ le32 (h mod 4294967296) ++ le16 1 ++ le16 bpp
  ++ le32 compression ++ le32 0 ++ le32 0 ++ le32 0 ++ le32 clrUsed ++ le32 0.

Definition bytes (l : list Z) : list byte := map byte_of l.

(** Two files that agree on their first 18 bytes: a 40-byte header with
    bfSize 0, bit count 1 and compression 3 (OS/2 Huffman), and the same
    with compression 0. *)
Definition os2_cmpr_file : list byte :=
  bytes (fileheader 0 54 ++ infoheader40 1 1 1 3 0 ++ [0; 0; 0; 0]).
Definition winv3_file : list byte :=
  bytes (fileheader 0 54 ++ infoheader40 1 1 1 0 0 ++ [0; 0; 0; 0]).

(** An OS/2 v1 file: a 12-byte header, bfSize = 14+12, a 1x1 24-bit image. *)
Definition os2v1_file : list byte :=
  bytes (fileheader 26 26 ++ le32 12 ++ le16 1 ++ le16 1 ++ le16 1 ++ le16 24
         ++ [1; 2; 3; 0]).

(** ** Readings of the specification *)

(** The variants the specification calls "v3 and later". *)
Definition v3_and_later : list string := ["winv3"; "52"; "56"; "winv4"; "winv5"].

(** The legal depth/variant/compression combinations, in the words of the
    specification. *)
Definition bitCountLegal_spec (depth : Z) (variant : string) (cmpr : Z) : Prop :=
  (depth = 0 /\ (variant = "winv4" \/ variant = "winv5") /\ (cmpr = bI_JPEG \/ cmpr = bI_PNG))
  \/ In depth [1; 4; 8; 24]
  \/ (depth = 2 /\ variant = "winv3")
  \/ ((depth = 16 \/ depth = 32) /\ In variant v3_and_later).

(** ** Auxiliary definitions for the pixel decoders *)

(** The fields of the context that the pixel decoders never change, and,
    once it is set, the recorded bad color index. *)
Definition frame_inv (rs cc pn w : Z) (L : option (Z * Z * Z)) (c : ctx_type) : Prop :=
  rowStride c = rs /\ compressionCode c = cc /\ palNumEntries c = pn /\ imgWidth c = w /\
  match L with
  | Some (i, x, y) =>
      badColorFlag c = true /\ badColorIndex c = i /\ badColor_X c = x /\ badColor_Y c = y
  | None => True
  end.

(** Concrete inputs: an RLE8 context, a truncated RLE8 stream, and an RLE4
    context with a 16-entry palette. *)
Definition rle8_ctx : ctx_type := set_compressionCode bI_RLE8 (set_bitCount 8 (newCtx [])).
Definition rle8_truncated : list byte := [x02; x05; x00].

(** The bad-color record of the context. *)
Definition latch (c : ctx_type) : bool * Z * Z * Z :=
  (badColorFlag c, badColorIndex c, badColor_X c, badColor_Y c).

Definition rle4_ctx : ctx_type :=
  set_palNumEntries 16 (set_compressionCode bI_RLE4 (set_bitCount 4 (newCtx []))).

Definition rle8_pal_ctx : ctx_type := set_palNumEntries 4 rle8_ctx.

(** A 24-bit image two pixels wide. *)
Definition ctx_w2_bc24 : ctx_type := set_imgWidth 2 (set_bitCount 24 (newCtx [])).

(** The header fields set by the info header decoders. *)
Definition hkey (c : ctx_type) :=
  (imgWidth c, bitCount c, compressionCode c, compressionType c, isCompressed c,
   sizeImage c, palNumEntries c, palBytesPerEntry c).

(** A 44-byte OS/2 v2 info header (a 2x2 8-bit image) with the
    given declared size and ClrUsed field. *)
Definition os2v2_header (hdrSize clrUsed : Z) : list Z :=
  le32 hdrSize ++ le32 2 ++ le32 2 ++ le16 1 ++ le16 8 ++ le32 0 ++ le32 0 ++ le32 0
  ++ le32 0 ++ le32 clrUsed ++ le32 0 ++ le16 0 ++ le16 0.

(** An OS/2 v1 file with an 8-bit image whose bfOffBits leaves room for
    only two 3-byte palette entries. *)
Definition os2v1_overlap_file : list byte :=
  bytes (fileheader 26 32 ++ le32 12 ++ le16 1 ++ le16 1 ++ le16 1 ++ le16 8
         ++ [0; 0; 0; 255; 255; 255] ++ [1; 0; 0; 0]).

(** The context of a successful step, or a fresh one. *)
Definition ok_of (r : result ctx_type) : ctx_type :=
  match r with Ok c => c | Err _ => newCtx [] end.

(** A 24-bit Windows v3 file whose pixels start right after the header,
    and the same with four unused bytes in between. *)
Definition v3_24bit_file : list byte :=
  bytes (fileheader 58 54 ++ infoheader40 1 1 24 0 0 ++ [1; 2; 3; 0]).
Definition v3_24bit_gap_file : list byte :=
  bytes (fileheader 62 58 ++ infoheader40 1 1 24 0 0 ++ [9; 9; 9; 9] ++ [1; 2; 3; 0]).

(** A Windows v5 info header for a JPEG image with an embedded profile. *)
Definition infoheader124_jpeg (profileData profileSize : Z) : list Z :=
  le32 124 ++ le32 1 ++ le32 1 ++ le16 1 ++ le16 0 ++ le32 bI_JPEG
  ++ le32 0 ++ le32 0 ++ le32 0 ++ le32 0 ++ le32 0
  ++ le32 0 ++ le32 0 ++ le32 0 ++ le32 0
  ++ le32 pROFILE_EMBEDDED ++ repeat 0 36%nat ++ le32 0 ++ le32 0 ++ le32 0
  ++ le32 0 ++ le32 profileData ++ le32 profileSize ++ le32 0.
Definition v5_jpeg_file : list byte := bytes (fileheader 138 138 ++ infoheader124_jpeg 0 0).

(** ** Escaped strings *)

(** A digit of Go's [%02x] verb (lower case). *)
Definition hexDigit (n : Z) : Ascii.ascii :=
  Ascii.ascii_of_N (Z.to_N (if n <? 10 then 48 + n else 87 + n)).

(** The text printed for one byte [d[i]] by the loop of
    [printWindows1252String] (lines 1330-1345). *)
Definition printWindows1252Char (b : byte) : string :=
  let v := bval b in
  (if (v =? 92) || (v =? 34) then "\" else EmptyString) ++
  (if (32 <=? v) && (v <=? 126) then String (Ascii.ascii_of_byte b) EmptyString
   else "\x" ++ String (hexDigit (v / 16)) (String (hexDigit (v mod 16)) EmptyString)).

(** [printWindows1252String]: the text printed for [d], byte by byte. *)
Fixpoint printWindows1252String (d : list byte) : string :=
  match d with
  | [] => EmptyString
  | b :: d' => printWindows1252Char b ++ printWindows1252String d'
  end.

(** The value of a hexadecimal digit, and the reading of one escaped byte
    back from the printed text, used to show that the printing loses nothing. *)
Definition hexVal (a : Ascii.ascii) : Z :=
  let n := Z.of_N (Ascii.N_of_ascii a) in if n <? 58 then n - 48 else n - 87.

Definition unescape1 (s : string) : option (byte * string) :=
  match s with
  | String a rest =>
      if Ascii.eqb a (Ascii.ascii_of_nat 92) then
        match rest with
        | String a2 rest2 =>
            if Ascii.eqb a2 (Ascii.ascii_of_nat 120) then
              match rest2 with
              | String h1 (String h2 r) => Some (byte_of (hexVal h1 * 16 + hexVal h2), r)
              | _ => None
              end
            else Some (Ascii.byte_of_ascii a2, rest2)
        | EmptyString => None
        end
      else Some (Ascii.byte_of_ascii a, rest)
  | EmptyString => None
  end.

(** A printable ASCII character. *)
Definition printableb (a : Ascii.ascii) : bool :=
  (32 <=? Ascii.N_of_ascii a)%N && (Ascii.N_of_ascii a <=? 126)%N.

(** The number of printed events with the text [s]. *)
Definition countText (s : string) (l : list event) : nat :=
  List.length (filter (fun e => match e with EText t => String.eqb t s | _ => false end) l).

(** The color profile fields of the context, with the fields the info
    header decoders and the pixel decoders never change. *)
Definition pkey (c : ctx_type) :=
  (hasProfile c, profileIsLinked c, profileOffset c, profileSize c,
   bfOffBits c, bmpVerID c, pos c, fileSize c, infoHeaderSize c).

(** The fields that every info header decoder keeps. *)
Definition okey (c : ctx_type) := (bfOffBits c, bmpVerID c).

(** The fields that decide whether the pixels are printed. *)
Definition vkey (c : ctx_type) :=
  (printPixels c, imgWidth c, imgHeight c, isCompressed c, compressionType c, topDown c).


(** Concrete inputs: the first 18 bytes of a file with a 108-byte info
    header, and a Windows v3 info header with height -1. *)
Definition v4_prefix : list byte := bytes (fileheader 0 0 ++ le32 108).
Definition v3_neg_height_header : list byte := bytes (infoheader40 1 (-1) 24 0 0).

(** A Windows v4 file of width 0 whose CSType declares a linked profile. *)
Definition v4_linked_file : list byte :=
  bytes (fileheader 122 122 ++ le32 108 ++ le32 0 ++ le32 1 ++ le16 1 ++ le16 24
         ++ le32 0 ++ le32 0 ++ le32 0 ++ le32 0 ++ le32 0 ++ le32 0
         ++ le32 0 ++ le32 0 ++ le32 0 ++ le32 0
         ++ le32 pROFILE_LINKED ++ repeat 0 48%nat).

(** A 122-byte Windows v4 file, 2^30+1 by 2^31-2 pixels at 32 bits, with an
    embedded profile and no bits: the uncompressed size is 2^63-8. *)
Definition v4_wrap_file : list byte :=
  bytes (fileheader 122 122 ++ le32 108 ++ le32 1073741825 ++ le32 2147483646 ++ le16 1
         ++ le16 32 ++ le32 0 ++ le32 0 ++ le32 0 ++ le32 0 ++ le32 0 ++ le32 0
         ++ le32 0 ++ le32 0 ++ le32 0 ++ le32 0
         ++ le32 pROFILE_EMBEDDED ++ repeat 0 48%nat).

(** A 138-byte Windows v5 file, 2^31-1 pixels wide with the height field
    -2^31, at 32 bits, with an embedded profile at offset 138. *)
Definition v5_wrap_file : list byte :=
  bytes (fileheader 138 138 ++ le32 124 ++ le32 2147483647 ++ le32 2147483648 ++ le16 1
         ++ le16 32 ++ le32 0 ++ le32 0 ++ le32 0 ++ le32 0 ++ le32 0 ++ le32 0
         ++ le32 0 ++ le32 0 ++ le32 0 ++ le32 0
         ++ le32 pROFILE_EMBEDDED ++ repeat 0 36%nat ++ le32 0 ++ le32 0 ++ le32 0
         ++ le32 0 ++ le32 124 ++ le32 0 ++ le32 0).

(** * Proofs *)

(** ** Lists and slices *)

Lemma slice_firstn (n : nat) (d : list byte) (lo hi : Z) :
  0 <= lo <= hi -> hi <= Z.of_nat n -> slice (firstn n d) lo hi = slice d lo hi.
Proof.
  intros H1 H2. unfold slice.
  rewrite skipn_firstn_comm, firstn_firstn.
  f_equal. lia.
Qed.

Lemma len_firstn (n : nat) (d : list byte) : len (firstn n d) = Z.min (Z.of_nat n) (len d).
Proof. unfold len. rewrite length_firstn. lia. Qed.

Lemma ltb_len_firstn (n : nat) (d : list byte) (k : Z) :
  k <= Z.of_nat n -> (len d <? k) = (len (firstn n d) <? k).
Proof.
  intros H. rewrite len_firstn.
  destruct (Z.ltb_spec (len d) k), (Z.ltb_spec (Z.min (Z.of_nat n) (len d)) k); lia.
Qed.

Lemma geb_len_firstn (n : nat) (d : list byte) (k : Z) :
  k <= Z.of_nat n -> (len d >=? k) = (len (firstn n d) >=? k).
Proof.
  intros H. rewrite len_firstn, !Z.geb_leb.
  destruct (Z.leb_spec k (len d)), (Z.leb_spec k (Z.min (Z.of_nat n) (len d))); lia.
Qed.

(** Case analysis on every boolean test left in the goal. *)
Ltac split_ifs :=
  repeat match goal with
         | |- context [if ?b then _ else _] => destruct b
         end.

(** ** Version detection *)


(** C1 (corrected): the classification made by [detectVersion] is a
    function of the first 34 bytes of the file (the size fields at offsets
    2 and 14, and the bit count and compression fields at offsets 28 and
    30), for a context positioned at the start of the file as the program's
    is; the first 18 bytes alone do not determine it. *)
Theorem detectVersion_prefix34 (c1 c2 : ctx_type) :
  pos c1 = 0 -> pos c2 = 0 -> firstn 34 (data c1) = firstn 34 (data c2) ->
  bmpVerID c1 = bmpVerID c2 ->
  bmpVerID (detectVersion c1 (data c1)) = bmpVerID (detectVersion c2 (data c2)).
Proof.
  intros Hp1 Hp2 Hd Hid. unfold detectVersion. rewrite Hp1, Hp2. cbn [Z.add].
  rewrite <- !(slice_firstn 34 (data c1)) by lia.
  rewrite <- !(slice_firstn 34 (data c2)) by lia.
  rewrite !(ltb_len_firstn 34 (data c1)), !(geb_len_firstn 34 (data c1)) by lia.
  rewrite !(ltb_len_firstn 34 (data c2)), !(geb_len_firstn 34 (data c2)) by lia.
  rewrite Hd.
  split_ifs; cbn; split_ifs; reflexivity || assumption.
Qed.

Lemma detectVersion_prefix34_witness :
  firstn 34 os2_cmpr_file = firstn 34 (os2_cmpr_file ++ [x01; x02]) /\
  bmpVerID (detectVersion (newCtx os2_cmpr_file) os2_cmpr_file)
  = bmpVerID (detectVersion (newCtx (os2_cmpr_file ++ [x01; x02]))
                (os2_cmpr_file ++ [x01; x02])).
Proof.
  split; [vm_compute; reflexivity|].
  apply (detectVersion_prefix34 (newCtx os2_cmpr_file) (newCtx (os2_cmpr_file ++ [x01; x02])));
    vm_compute; reflexivity.
Defined.

(** C1, as stated, fails: the two files agree on their first 18 bytes, yet
    the first is classified OS/2 v2 and the second Windows v3. *)
Lemma detectVersion_not_18_bytes :
  ~ (forall d1 d2 : list byte, firstn 18 d1 = firstn 18 d2 ->
       bmpVerID (detectVersion (newCtx d1) d1) = bmpVerID (detectVersion (newCtx d2) d2)).
Proof.
  intros H. specialize (H os2_cmpr_file winv3_file).
  vm_compute in H. discriminate (H eq_refl).
Qed.

(** C6: a header size field of 12 gives OS/2 v1 when bfSize is 14+12 and
    Windows v2 otherwise. *)
Theorem detectVersion_size12 (c : ctx_type) :
  pos c = 0 -> 18 <= len (data c) -> getDWORD (slice (data c) 14 18) = 12 ->
  bmpVerID (detectVersion c (data c))
  = if getDWORD (slice (data c) 2 6) =? 26 then "os2v1" else "winv2".
Proof.
  intros Hp Hl H12. unfold detectVersion. cbv zeta. rewrite Hp. cbn [Z.add].
  replace (len (data c) <? 18) with false by (symmetry; apply Z.ltb_ge; lia).
  rewrite H12. cbn -[getDWORD getWORD slice len].
  destruct (getDWORD (slice (data c) 2 6) =? 26); cbn; split_ifs; reflexivity.
Qed.

Lemma detectVersion_size12_witness :
  pos (newCtx os2v1_file) = 0 /\ 18 <= len (data (newCtx os2v1_file))
  /\ getDWORD (slice (data (newCtx os2v1_file)) 14 18) = 12
  /\ bmpVerID (detectVersion (newCtx os2v1_file) (data (newCtx os2v1_file)))
     = (if getDWORD (slice (data (newCtx os2v1_file)) 2 6) =? 26 then "os2v1" else "winv2").
Proof.
  assert (H1 : pos (newCtx os2v1_file) = 0) by reflexivity.
  assert (H2 : 18 <= len (data (newCtx os2v1_file))) by (vm_compute; congruence).
  assert (H3 : getDWORD (slice (data (newCtx os2v1_file)) 14 18) = 12) by (vm_compute; reflexivity).
  exact (conj H1 (conj H2 (conj H3 (detectVersion_size12 (newCtx os2v1_file) H1 H2 H3)))).
Defined.

(** ** Bit depths *)

Lemma fold_left_pres {A : Type} (P : ctx_type -> Prop) (f : ctx_type -> A -> ctx_type)
  (l : list A) (c : ctx_type) :
  P c -> (forall c x, P c -> P (f c x)) -> P (fold_left f l c).
Proof. revert c; induction l as [|x l IH]; simpl; auto. Qed.

Lemma checkBitCount_legal (c : ctx_type) :
  checkBitCount c = None <-> bitCountLegal_spec (bitCount c) (bmpVerID c) (compressionCode c).
Proof.
  unfold checkBitCount, bitCountLegal_spec, v3_and_later, bI_JPEG, bI_PNG.
  generalize (bmpVerID c) as id; generalize (compressionCode c) as cc; intros cc id.
  split.
  - destruct (bitCount c) as [|p|p];
      do 6 (try destruct p as [p|p|]); cbn -[String.eqb];
      intros H; try discriminate;
      repeat match type of H with
             | context [if ?b then _ else _] => destruct b eqn:?; try discriminate
             end;
      repeat match goal with
             | E : (_ || _) = true |- _ => apply orb_true_iff in E; destruct E as [E|E]
             | E : (_ && _) = true |- _ => apply andb_true_iff in E; destruct E as [E E']
             | E : String.eqb _ _ = true |- _ => apply String.eqb_eq in E; subst
             | E : Z.eqb _ _ = true |- _ => apply Z.eqb_eq in E; subst
             end;
      simpl; intuition.
  - intros [[H0 [Hv Hc]] | [H1 | [[H2 Hv] | [Hd Hv]]]].
    + rewrite H0. destruct Hv as [-> | ->]; destruct Hc as [-> | ->]; reflexivity.
    + simpl in H1. destruct H1 as [<- | [<- | [<- | [<- | []]]]]; reflexivity.
    + rewrite H2, Hv. reflexivity.
    + simpl in Hv.
      destruct Hd as [-> | ->];
        destruct Hv as [<- | [<- | [<- | [<- | [<- | []]]]]]; reflexivity.
Qed.

Lemma checkBitCount_error (c : ctx_type) :
  checkBitCount c = None \/ checkBitCount c = Some "Invalid BitCount".
Proof.
  unfold checkBitCount. cbv zeta.
  match goal with |- context [if ?b then _ else _] => destruct b end; auto.
Qed.

Lemma readInfoheader_checked (c c' : ctx_type) :
  readInfoheader c = Ok c' -> checkBitCount c' = None.
Proof.
  unfold readInfoheader. cbv zeta. intros H.
  destruct (_ <? 4); [discriminate|].
  destruct (_ <? _); [discriminate|].
  destruct (versionInfo _) as [[prefix f]|]; [|discriminate].
  destruct (f _ _) as [c1|]; cbn [bind] in H; [|discriminate].
  destruct (checkBitCount c1) eqn:E; [discriminate|].
  injection H as <-. exact E.
Qed.

Lemma inspectBitfields_checkBitCount (c c' : ctx_type) (d : list byte) :
  inspectBitfields c d = Ok c' -> checkBitCount c' = checkBitCount c.
Proof.
  unfold inspectBitfields. intros H. injection H as <-.
  split_ifs; reflexivity.
Qed.

Lemma inspectColorTable_checkBitCount (c c' : ctx_type) (d : list byte) :
  inspectColorTable c d = Ok c' -> checkBitCount c' = checkBitCount c.
Proof.
  unfold inspectColorTable. cbv zeta. intros H. injection H as <-.
  apply (fold_left_pres (fun c' => checkBitCount c' = checkBitCount c)).
  - split_ifs; reflexivity.
  - intros c1 i E. destruct (_ =? 4); exact E.
Qed.

Lemma readBmpHeaders_checked (c c' : ctx_type) :
  readBmpHeaders c = Ok c' -> checkBitCount c' = None.
Proof.
  unfold readBmpHeaders. cbv zeta. intros H.
  destruct (_ <? 18); [discriminate|].
  destruct (inspectFileheader _ _) as [c1|]; cbn [bind] in H; [|discriminate].
  destruct (readInfoheader _) as [c2|] eqn:E2; cbn [bind] in H; [|discriminate].
  apply readInfoheader_checked in E2.
  assert (E3 : forall c3, (if hasBitfieldsSegment c2 then
          if fileSize c2 - pos c2 <? bitfieldsSegmentSize c2 then Err "Unexpected end of file" else
          c <- inspectBitfields c2 (slice (data c2) (pos c2) (pos c2 + bitfieldsSegmentSize c2)) ;;
          Ok (set_pos (pos c + bitfieldsSegmentSize c) c)
        else Ok c2) = Ok c3 -> checkBitCount c3 = None).
  { intros c3 H3. destruct (hasBitfieldsSegment c2); [|injection H3 as <-; exact E2].
    destruct (_ <? _); [discriminate|].
    destruct (inspectBitfields _ _) as [c4|] eqn:E4; cbn [bind] in H3; [|discriminate].
    injection H3 as <-. apply inspectBitfields_checkBitCount in E4.
    change (checkBitCount c4 = None). congruence. }
  destruct (if hasBitfieldsSegment c2 then _ else _) as [c3|] eqn:Eb; cbn [bind] in H;
    [|discriminate].
  specialize (E3 c3 eq_refl). clear Eb.
  destruct (_ >? 0); [|injection H as <-; exact E3].
  destruct (_ <? _); [discriminate|].
  destruct (inspectColorTable _ _) as [c5|] eqn:E5; cbn [bind] in H; [|discriminate].
  injection H as <-. apply inspectColorTable_checkBitCount in E5.
  change (checkBitCount c5 = None). congruence.
Qed.

Lemma readBmp_headers_first (c c2 : ctx_type) :
  readBmp c = Ok c2 -> exists c1, readBmpHeaders c = Ok c1 /\ readBmpBits c1 = Ok c2.
Proof.
  unfold readBmp. destruct (readBmpHeaders c) as [c1|]; cbn [bind]; [|discriminate].
  intros H. exists c1. auto.
Qed.

(** C5: [checkBitCount] accepts exactly the combinations of
    [bitCountLegal_spec] (depth 0 for Windows v4/v5 with JPEG or PNG; 1, 4,
    8, 24 always; 2 for Windows v3; 16 and 32 for Windows v3 and later), any
    other combination gives the error "Invalid BitCount", and the pixel
    decoding of [readBmp] (in [readBmpBits]) is only reached with a legal
    combination: [readInfoheader] and [readBmpHeaders] fail otherwise. *)
Theorem checkBitCount_accepts (c : ctx_type) :
  (checkBitCount c = None <-> bitCountLegal_spec (bitCount c) (bmpVerID c) (compressionCode c))
  /\ (~ bitCountLegal_spec (bitCount c) (bmpVerID c) (compressionCode c) ->
      checkBitCount c = Some "Invalid BitCount")
  /\ (forall c1, readInfoheader c = Ok c1 ->
        bitCountLegal_spec (bitCount c1) (bmpVerID c1) (compressionCode c1))
  /\ (forall c2, readBmp c = Ok c2 ->
        exists c1, readBmpHeaders c = Ok c1
          /\ bitCountLegal_spec (bitCount c1) (bmpVerID c1) (compressionCode c1)
          /\ readBmpBits c1 = Ok c2).
Proof.
  split; [apply checkBitCount_legal|].
  split; [|split].
  - intros Hn. destruct (checkBitCount_error c) as [E|E]; [|exact E].
    exfalso. apply Hn, checkBitCount_legal, E.
  - intros c1 H. apply checkBitCount_legal, readInfoheader_checked with (c := c), H.
  - intros c2 H. destruct (readBmp_headers_first c c2 H) as [c1 [H1 H2]].
    exists c1. split; [exact H1|]. split; [|exact H2].
    apply checkBitCount_legal, readBmpHeaders_checked with (c := c), H1.
Qed.

(** ** The pixel decoders *)


Lemma F_print rs cc pn w L e c :
  frame_inv rs cc pn w L c -> frame_inv rs cc pn w L (print e c).
Proof. unfold frame_inv; destruct L as [[[? ?] ?]|]; cbn; tauto. Qed.

Lemma F_warned rs cc pn w L b c :
  frame_inv rs cc pn w L c -> frame_inv rs cc pn w L (set_badColorWarned b c).
Proof. unfold frame_inv; destruct L as [[[? ?] ?]|]; cbn; tauto. Qed.

Ltac frame_solve0 :=
  repeat match goal with
         | |- frame_inv _ _ _ _ _ (print _ _) => apply F_print
         | |- frame_inv _ _ _ _ _ (set_badColorWarned _ _) => apply F_warned
         end; assumption.

Section Frame.
Variables (rs cc pn w : Z) (L : option (Z * Z * Z)).
Local Abbreviation F := (frame_inv rs cc pn w L).


Lemma F_check c r n c' r' : checkRLEPosAndColor c r n = (c', r') -> F c -> F c'.
Proof.
  unfold checkRLEPosAndColor. cbv zeta. intros E.
  destruct (compressionCode c =? bI_RLE24); [injection E as <- _; auto|].
  destruct ((n >=? palNumEntries c) && negb (badColorFlag c)) eqn:B;
    injection E as <- _; [|auto].
  unfold frame_inv; destruct L as [[[? ?] ?]|]; cbn; [|tauto].
  apply andb_true_iff in B. destruct B as [_ B].
  intros (? & ? & ? & ? & Hf & _). rewrite Hf in B. discriminate.
Qed.

Lemma F_pixel c r n c' r' : printRLEPixel c r n = (c', r') -> F c -> F c'.
Proof. unfold printRLEPixel. intros E H. eapply F_check; [exact E|]. frame_solve0. Qed.

Lemma F_pixel24 c r l c' r' : printRLE24Pixel c r l = (c', r') -> F c -> F c'.
Proof. unfold printRLE24Pixel. intros E H. eapply F_check; [exact E|]. frame_solve0. Qed.

Lemma F_endRow c r c' r' : endRLERow c r = (c', r') -> F c -> F c'.
Proof.
  unfold endRLERow. intros E H.
  destruct (rowHeaderPrinted r); cbn in E;
    destruct (badPosFlag _ && negb (badPosWarned _)); cbn in E;
    destruct (badColorFlag _ && negb (badColorWarned _)); injection E as <- _;
    frame_solve0.
Qed.

Lemma F_litPixel n st c' r' k' : litPixel n st = (c', r', k') -> F (fst (fst st)) -> F c'.
Proof.
  destruct st as [[c r] k]. unfold litPixel. cbn [fst]. destruct (k >? 0).
  - destruct (printRLEPixel c r n) as [c1 r1] eqn:E. intros H. injection H as <- _ _.
    eapply F_pixel, E.
  - intros H. injection H as <- _ _. auto.
Qed.

Lemma F_litPixel_fst n st : F (fst (fst st)) -> F (fst (fst (litPixel n st))).
Proof.
  destruct (litPixel n st) as [[c' r'] k'] eqn:E. cbn [fst]. eapply F_litPixel, E.
Qed.

End Frame.

Ltac frame_solve :=
  match goal with
  | |- frame_inv _ _ _ _ _ (print _ _) => apply F_print; frame_solve
  | |- frame_inv _ _ _ _ _ (set_badColorWarned _ _) => apply F_warned; frame_solve
  | |- frame_inv _ _ _ _ _ (fst (fst (litPixel _ _))) => apply F_litPixel_fst; frame_solve
  | |- frame_inv _ _ _ _ _ (fst (fst (_, _, _))) => cbn [fst]; frame_solve
  | H : frame_inv ?a ?b ?c ?d ?e ?x |- frame_inv ?a ?b ?c ?d ?e ?x => exact H
  | Hn : frame_inv ?a ?b ?c ?d ?e _ -> frame_inv ?a ?b ?c ?d ?e ?x
    |- frame_inv ?a ?b ?c ?d ?e ?x => apply Hn; frame_solve
  end.


Ltac fwd_with lem E :=
  let E' := fresh "Fw" in pose proof lem as E'; clear E.

Ltac frame_fwd :=
  match goal with
  | H : frame_inv ?rs ?cc ?pn ?w ?L _ |- _ =>
    repeat match goal with
    | E : checkRLEPosAndColor _ _ _ = (_, _) |- _ => fwd_with (F_check rs cc pn w L _ _ _ _ _ E) E
    | E : printRLEPixel _ _ _ = (_, _) |- _ => fwd_with (F_pixel rs cc pn w L _ _ _ _ _ E) E
    | E : printRLE24Pixel _ _ _ = (_, _) |- _ => fwd_with (F_pixel24 rs cc pn w L _ _ _ _ _ E) E
    | E : endRLERow _ _ = (_, _) |- _ => fwd_with (F_endRow rs cc pn w L _ _ _ _ E) E
    | E : litPixel _ _ = (_, _, _) |- _ => fwd_with (F_litPixel rs cc pn w L _ _ _ _ _ E) E
    end
  end.

Ltac destr_lets :=
  repeat match goal with
  | |- context [match ?e with (_, _) => _ end] =>
      let x := fresh "x" in let y := fresh "y" in
      first
        [ is_var e; destruct e as [x y]
        | lazymatch e with
          | context [if _ then _ else _] => fail
          | context [match _ with (_, _) => _ end] => fail
          | _ => let E := fresh "E" in destruct e as [x y] eqn:E
          end ]
  | |- context [if ?b then _ else _] =>
      lazymatch b with
      | context [if _ then _ else _] => fail
      | context [match _ with (_, _) => _ end] => fail
      | _ => destruct b
      end
  end.

Lemma F_step rs cc pn w L c r s b1 b2 c' r' s' brk :
  rle_step c r s b1 b2 = (c', r', s', brk) ->
  frame_inv rs cc pn w L c -> frame_inv rs cc pn w L c'.
Proof.
  intros E H. revert E. unfold rle_step. cbv zeta.
  destr_lets; intros E'; injection E' as <- _ _ _.
  all: frame_fwd; frame_solve.
Qed.

Lemma F_loop rs cc pn w L (l : list byte) :
  forall c r s, frame_inv rs cc pn w L c ->
  frame_inv rs cc pn w L (fst (fst (fst (rle_loop c r s l)))).
Proof.
  assert (Hend : forall (c : ctx_type) (r : rlectx_type) (s : rle_locals), frame_inv rs cc pn w L c ->
            frame_inv rs cc pn w L (fst (fst (fst (let '(c, r) := endRLERow c r in
                                                     (c, r, s, ExitTruncated)))))).
  { intros c r s H. destruct (endRLERow c r) as [c1 r1] eqn:E. cbn [fst].
    eapply F_endRow; eassumption. }
  enough (G : forall c r s, frame_inv rs cc pn w L c ->
            frame_inv rs cc pn w L (fst (fst (fst (rle_loop c r s l))))
            /\ forall b, frame_inv rs cc pn w L (fst (fst (fst (rle_loop c r s (b :: l))))))
    by (intros c r s H; apply (G c r s H)).
  induction l as [|b2 l IH]; intros c r s H.
  - split; [apply Hend, H|]. intros b. apply Hend, H.
  - split; [apply (IH c r s H)|]. intros b1. cbn [rle_loop].
    destruct (if negb (rowHeaderPrinted r) then _ else _) as [c1 r1] eqn:E1.
    assert (H1 : frame_inv rs cc pn w L c1).
    { destruct (negb (rowHeaderPrinted r)); [destruct (ypos r >=? 0)|];
        injection E1 as <- _; frame_solve. }
    destruct (rle_step c1 r1 s (bval b1) (bval b2)) as [[[c2 r2] s2] brk] eqn:E2.
    apply (F_step rs cc pn w L) in E2; [|exact H1].
    destruct brk; [exact E2|]. apply (IH c2 r2 s2 E2).
Qed.

Lemma F_actualBitsSize rs cc pn w L c v :
  frame_inv rs cc pn w L c -> frame_inv rs cc pn w L (set_actualBitsSize v c).
Proof. unfold frame_inv; destruct L as [[[? ?] ?]|]; cbn; tauto. Qed.

Lemma F_printPixels rs cc pn w L c b :
  frame_inv rs cc pn w L c -> frame_inv rs cc pn w L (set_printPixels b c).
Proof. unfold frame_inv; destruct L as [[[? ?] ?]|]; cbn; tauto. Qed.

Lemma F_badColor rs cc pn w L c n x :
  frame_inv rs cc pn w L c -> frame_inv rs cc pn w L (badColor c n x).
Proof.
  unfold badColor. destruct (badColorFlag c) eqn:Ef; cbn [negb]; [auto|].
  unfold frame_inv; destruct L as [[[? ?] ?]|]; cbn; [|tauto].
  intros (_ & _ & _ & _ & Hf & _). congruence.
Qed.

Lemma F_printRow rs cc pn w L bc pR c d :
  printRowFuncs bc = Some pR ->
  frame_inv rs cc pn w L c -> frame_inv rs cc pn w L (pR c d).
Proof.
  intros E H.
  assert (HI : forall px, frame_inv rs cc pn w L (printRowIndexed px c d)).
  { intros px. unfold printRowIndexed. apply F_print.
    apply (fold_left_pres (frame_inv rs cc pn w L)); [exact H|].
    intros c1 i H1. destruct (_ >=? _); [apply F_badColor|]; exact H1. }
  assert (HD : forall px, frame_inv rs cc pn w L (printRowDirect px c d)).
  { intros px. unfold printRowDirect. apply F_print, H. }
  destruct bc as [|p|p]; try discriminate;
    do 6 (try destruct p as [p|p|]); try discriminate;
    injection E as <-; first [apply HI | apply HD].
Qed.

Lemma F_printUncompressedPixels rs cc pn w L c d :
  frame_inv rs cc pn w L c -> frame_inv rs cc pn w L (printUncompressedPixels c d).
Proof.
  intros H. unfold printUncompressedPixels.
  destruct (printRowFuncs (bitCount c)) as [pR|] eqn:E; [|exact H].
  apply (fold_left_pres (frame_inv rs cc pn w L)); [exact H|].
  intros c1 i H1. cbv zeta.
  assert (H2 := F_printRow rs cc pn w L _ pR
                  (print (ENum (if topDown c1 then i else imgHeight c1 - 1 - i)) c1)
                  (slice d (i * rowStride c1) (i * rowStride c1 + rowStride c1)) E
                  (F_print _ _ _ _ _ _ _ H1)).
  destruct (_ && _); [|exact H2]. frame_solve.
Qed.

Lemma printRLECompressedPixels_run_Some c d t :
  printRLECompressedPixels_run c d = Some t -> t = rle_loop c (rlectx0 c) rle_locals0 d.
Proof. unfold printRLECompressedPixels_run. split_ifs; congruence. Qed.

Lemma F_printRLECompressedPixels rs cc pn w L c d :
  frame_inv rs cc pn w L c -> frame_inv rs cc pn w L (printRLECompressedPixels c d).
Proof.
  intros H. unfold printRLECompressedPixels.
  destruct (printRLECompressedPixels_run c d) as [[[[c1 r1] s1] x]|] eqn:E; [|exact H].
  apply printRLECompressedPixels_run_Some in E.
  assert (H1 := F_loop rs cc pn w L d c (rlectx0 c) rle_locals0 H).
  rewrite <- E in H1. cbn [fst] in H1.
  apply F_print, F_print, F_actualBitsSize, H1.
Qed.

Lemma F_bits_tail rs cc pn w L c d :
  frame_inv rs cc pn w L c ->
  frame_inv rs cc pn w L (bits_pixels d (bits_check d (bits_implied d (bits_calculated c)))).
Proof.
  intros H.
  assert (H1 : frame_inv rs cc pn w L (bits_calculated c)).
  { unfold bits_calculated. destruct (isCompressed c); [frame_solve|].
    apply F_print, F_actualBitsSize, H. }
  assert (H2 : frame_inv rs cc pn w L (bits_implied d (bits_calculated c))).
  { unfold bits_implied. destruct (hasProfile _); apply F_print, H1. }
  assert (H3 : frame_inv rs cc pn w L (bits_check d (bits_implied d (bits_calculated c)))).
  { unfold bits_check. split_ifs; try apply F_printPixels; try apply F_print; exact H2. }
  unfold bits_pixels. split_ifs; try apply F_print;
    try apply F_printUncompressedPixels; try apply F_printRLECompressedPixels; exact H3.
Qed.

Lemma bits_header_frame c :
  bitCount (bits_header c) = bitCount c /\ imgWidth (bits_header c) = imgWidth c.
Proof. unfold bits_header. destruct (sizeImage _ =? 0); split; reflexivity. Qed.

(** C2: for a bit depth of 1, 2, 4, 8, 16, 24 or 32 and a width of at least
    1, [inspectBits] succeeds with the row stride ((w*d+31)/32)*4, which is
    positive and a multiple of 4. *)
Theorem inspectBits_rowStride (c : ctx_type) (d : list byte) :
  In (bitCount c) [1; 2; 4; 8; 16; 24; 32] -> 1 <= imgWidth c ->
  exists c', inspectBits c d = Ok c'
    /\ rowStride c' = (imgWidth c * bitCount c + 31) / 32 * 4
    /\ 0 < rowStride c' /\ rowStride c' mod 4 = 0.
Proof.
  intros Hd Hw. eexists. split; [reflexivity|].
  set (c0 := bits_stride (bits_header c)).
  assert (Hs : rowStride c0 = (imgWidth c * bitCount c + 31) / 32 * 4).
  { subst c0. unfold bits_stride. cbn [rowStride set_calculatedSize set_rowStride].
    destruct (bits_header_frame c) as [-> ->].
    rewrite Z.quot_div_nonneg; [reflexivity| |lia].
    assert (0 <= bitCount c) by (simpl in Hd; lia). nia. }
  assert (H := F_bits_tail (rowStride c0) (compressionCode c0) (palNumEntries c0)
                 (imgWidth c0) None c0 d ltac:(unfold frame_inv; tauto)).
  destruct H as [-> _]. rewrite Hs.
  assert (0 < bitCount c) by (simpl in Hd; lia).
  assert (32 <= imgWidth c * bitCount c + 31) by nia.
  split; [reflexivity|]. split; [|rewrite Z.mul_comm, Z.mul_mod, Z.mod_same by lia; reflexivity].
  assert (1 <= (imgWidth c * bitCount c + 31) / 32) by (apply Z.div_le_lower_bound; lia).
  lia.
Qed.

Lemma inspectBits_rowStride_witness :
  exists c', inspectBits ctx_w2_bc24 [] = Ok c'
    /\ rowStride c' = (2 * 24 + 31) / 32 * 4 /\ 0 < rowStride c' /\ rowStride c' mod 4 = 0.
Proof.
  apply (inspectBits_rowStride ctx_w2_bc24 []); cbn; [tauto | lia].
Defined.

Ltac destr_goal :=
  repeat (cbv beta iota;
  match goal with
  | |- context [match ?e with (_, _) => _ end] =>
      let x := fresh "x" in let y := fresh "y" in
      first
        [ is_var e; destruct e as [x y]
        | lazymatch e with
          | context [if _ then _ else _] => fail
          | context [match _ with (_, _) => _ end] => fail
          | _ => let E := fresh "E" in destruct e as [x y] eqn:E
          end ]
  | |- context [if ?b then _ else _] =>
      lazymatch b with
      | context [if _ then _ else _] => fail
      | context [match _ with (_, _) => _ end] => fail
      | _ => destruct b
      end
  end).

Lemma rle_step_lpos c r s b1 b2 :
  lpos (snd (fst (rle_step c r s b1 b2))) = lpos s + 2.
Proof. unfold rle_step. cbv zeta. destr_goal; reflexivity. Qed.

Lemma endRLERow_closes c r c' r' :
  endRLERow c r = (c', r') -> rowHeaderPrinted r' = false.
Proof.
  unfold endRLERow. destruct (rowHeaderPrinted r) eqn:Eh; cbn;
    destruct (_ && _); cbn; destruct (_ && _); intros E; injection E as _ <-;
    cbn; auto.
Qed.

Lemma rle_loop_truncated (l : list byte) :
  forall c r s c' r' s',
  rle_loop c r s l = (c', r', s', ExitTruncated) ->
  (exists c0 r0, endRLERow c0 r0 = (c', r')) /\
  exists k, (k = 0 \/ k = 1) /\ lpos s' + k = lpos s + len l.
Proof.
  enough (G : forall c r s c' r' s',
    (rle_loop c r s l = (c', r', s', ExitTruncated) ->
     (exists c0 r0, endRLERow c0 r0 = (c', r')) /\
     exists k, (k = 0 \/ k = 1) /\ lpos s' + k = lpos s + len l)
    /\ forall b, (rle_loop c r s (b :: l) = (c', r', s', ExitTruncated) ->
     (exists c0 r0, endRLERow c0 r0 = (c', r')) /\
     exists k, (k = 0 \/ k = 1) /\ lpos s' + k = lpos s + len (b :: l)))
    by (intros c r s c' r' s' H; exact (proj1 (G c r s c' r' s') H)).
  induction l as [|b2 l IH]; intros c r s c' r' s'.
  - split.
    + cbn [rle_loop]. destruct (endRLERow c r) as [c1 r1] eqn:E. intros H.
      injection H as <- <- <-. split; [eauto|]. exists 0. unfold len. cbn. lia.
    + intros b. cbn [rle_loop]. destruct (endRLERow c r) as [c1 r1] eqn:E. intros H.
      injection H as <- <- <-. split; [eauto|]. exists 1. unfold len. cbn. lia.
  - split; [apply IH|]. intros b1. cbn [rle_loop].
    destruct (if negb (rowHeaderPrinted r) then _ else _) as [c1 r1].
    destruct (rle_step c1 r1 s (bval b1) (bval b2)) as [[[c2 r2] s2] brk] eqn:E2.
    assert (Hl : lpos s2 = lpos s + 2)
      by (rewrite <- (rle_step_lpos c1 r1 s (bval b1) (bval b2)), E2; reflexivity).
    destruct brk; [discriminate|].
    intros H. destruct (proj1 (IH c2 r2 s2 c' r' s') H) as [Hr [k [Hk Hs]]].
    split; [exact Hr|]. exists k. split; [exact Hk|].
    unfold len in *. cbn [List.length] in *. lia.
Qed.

(** C7: when the decoding loop runs out of bytes (fewer than two left)
    without an end-of-bitmap code, the current row is closed by
    [endRLERow], the loop stops, the bytes consumed so far are all but the
    last 0 or 1 bytes, and they are recorded as [actualBitsSize]. *)
Theorem rle_truncated_stream (c : ctx_type) (d : list byte)
  (c' : ctx_type) (r : rlectx_type) (s : rle_locals) :
  printRLECompressedPixels_run c d = Some (c', r, s, ExitTruncated) ->
  (exists c0 r0, endRLERow c0 r0 = (c', r)) /\ rowHeaderPrinted r = false
  /\ 0 <= len d - lpos s < 2
  /\ actualBitsSize (printRLECompressedPixels c d) = lpos s.
Proof.
  intros H.
  assert (Hl := printRLECompressedPixels_run_Some _ _ _ H).
  destruct (rle_loop_truncated d c (rlectx0 c) rle_locals0 c' r s (eq_sym Hl))
    as [[c0 [r0 Hr]] [k [Hk Hs]]].
  split; [eauto|]. split; [eapply endRLERow_closes; exact Hr|].
  split; [cbn [lpos rle_locals0] in Hs; lia|].
  unfold printRLECompressedPixels. rewrite H. reflexivity.
Qed.


Lemma rle_truncated_stream_witness :
  let t := rle_loop rle8_ctx (rlectx0 rle8_ctx) rle_locals0 rle8_truncated in
  printRLECompressedPixels_run rle8_ctx rle8_truncated
    = Some (fst (fst (fst t)), snd (fst (fst t)), snd (fst t), ExitTruncated)
  /\ (exists c0 r0, endRLERow c0 r0 = (fst (fst (fst t)), snd (fst (fst t))))
  /\ rowHeaderPrinted (snd (fst (fst t))) = false
  /\ 0 <= len rle8_truncated - lpos (snd (fst t)) < 2
  /\ actualBitsSize (printRLECompressedPixels rle8_ctx rle8_truncated) = lpos (snd (fst t)).
Proof.
  intros t.
  assert (H : printRLECompressedPixels_run rle8_ctx rle8_truncated
    = Some (fst (fst (fst t)), snd (fst (fst t)), snd (fst t), ExitTruncated))
    by (vm_compute; reflexivity).
  exact (conj H (rle_truncated_stream _ _ _ _ _ H)).
Defined.

Lemma check_color c r n c' r' :
  checkRLEPosAndColor c r n = (c', r') ->
  xpos r' = xpos r /\ ypos r' = ypos r /\
  palNumEntries c' = palNumEntries c /\ compressionCode c' = compressionCode c /\
  (compressionCode c <> bI_RLE24 ->
   badColorFlag c' = (badColorFlag c || (n >=? palNumEntries c)) /\
   (badColorFlag c = false -> (n >=? palNumEntries c) = true ->
      badColorIndex c' = n /\ badColor_X c' = xpos r /\ badColor_Y c' = ypos r)).
Proof.
  unfold checkRLEPosAndColor. cbv zeta.
  destruct (_ && negb (badPosFlag r)); cbn;
  (destruct (compressionCode c =? bI_RLE24) eqn:Ecc;
   [intros E; injection E as <- <-; cbn;
    refine (conj eq_refl (conj eq_refl (conj eq_refl (conj eq_refl _))));
    intros Hn; apply Z.eqb_eq in Ecc; contradiction|]);
  destruct (n >=? palNumEntries c) eqn:En, (badColorFlag c) eqn:Ef; cbn;
  intros E; injection E as <- <-; cbn;
  refine (conj eq_refl (conj eq_refl (conj eq_refl (conj eq_refl _))));
  intros _; split; auto; intros; discriminate.
Qed.


Lemma check_latch c r n c' r' :
  compressionCode c <> bI_RLE24 ->
  checkRLEPosAndColor c r n = (c', r') ->
  latch c' = (if badColorFlag c then latch c
              else if n >=? palNumEntries c then (true, n, xpos r, ypos r) else latch c)
  /\ xpos r' = xpos r /\ ypos r' = ypos r
  /\ palNumEntries c' = palNumEntries c /\ compressionCode c' = compressionCode c.
Proof.
  intros Hc. unfold checkRLEPosAndColor. cbv zeta.
  destruct (compressionCode c =? bI_RLE24) eqn:Ecc; [apply Z.eqb_eq in Ecc; contradiction|].
  destruct (_ && negb (badPosFlag r)); cbn;
  destruct (n >=? palNumEntries c) eqn:En, (badColorFlag c) eqn:Ef; cbn;
  intros E; injection E as <- <-; unfold latch; cbn; rewrite ?Ef; auto.
Qed.

Lemma rle4_run c r s b1 b2 :
  unc_pixels_left s <= 0 -> deltaFlag s = false -> rle24pendingFlag s = false -> b1 <> 0 ->
  compressionCode c = bI_RLE4 -> badColorFlag c = false ->
  let N := palNumEntries c in
  let n1 := Z.shiftr (Z.land b2 240) 4 in
  let n2 := Z.land b2 15 in
  latch (fst (fst (fst (rle_step c r s b1 b2))))
  = if n1 >=? N then (true, n1, xpos r, ypos r)
    else if (b1 >? 1) && (n2 >=? N) then (true, n2, xpos r + 1, ypos r)
    else if (b1 >? 2) && (0 >=? N) then (true, 0, xpos r + 1 + 1 + (b1 - 3), ypos r)
    else latch c.
Proof.
  intros Hu Hd Hp Hb Hc Hf N n1 n2. unfold rle_step. cbv zeta.
  cbn [unc_pixels_left deltaFlag rle24pendingFlag set_lpos set_bytesInThisRow].
  assert (Hu' : (unc_pixels_left s >? 0) = false) by (rewrite Z.gtb_ltb; apply Z.ltb_ge; lia).
  assert (Hb' : (b1 =? 0) = false) by (apply Z.eqb_neq, Hb).
  rewrite Hu', Hd, Hp, Hb', Hc. cbn [bI_RLE24 bI_RLE4 bI_RLE8 Z.eqb Pos.eqb].
  fold n1 n2.
  match goal with |- context [checkRLEPosAndColor ?x _ n1] => set (c0 := x) end.
  assert (L0 : latch c0 = latch c /\ palNumEntries c0 = N /\ compressionCode c0 = bI_RLE4)
    by (subst c0; destruct (_ || _); cbn; auto).
  destruct L0 as (L0 & N0 & C0).
  assert (HR : compressionCode c0 <> bI_RLE24) by (rewrite C0; cbv; discriminate).
  destruct (checkRLEPosAndColor c0 _ n1) as [c1 r1] eqn:E1.
  destruct (check_latch _ _ _ _ _ HR E1) as (L1 & X1 & Y1 & N1 & C1).
  assert (HR1 : compressionCode c1 <> bI_RLE24) by (rewrite C1; exact HR).
  assert (F0 : badColorFlag c0 = false) by (change (fst (fst (fst (latch c0))) = false);
                                            rewrite L0; exact Hf).
  rewrite F0, N0, L0 in L1.
  cbn [set_bytesInThisRow xpos ypos] in X1, Y1, L1.
  assert (FL : forall c', badColorFlag c' = fst (fst (fst (latch c')))) by reflexivity.
  assert (Lc : latch c = (false, badColorIndex c, badColor_X c, badColor_Y c))
    by (unfold latch; rewrite Hf; reflexivity).
  destruct (b1 >? 1) eqn:B1.
  - destruct (checkRLEPosAndColor c1 (incx 1 r1) n2) as [c2 r2] eqn:E2.
    destruct (check_latch _ _ _ _ _ HR1 E2) as (L2 & X2 & Y2 & N2 & C2).
    assert (HR2 : compressionCode c2 <> bI_RLE24) by (rewrite C2; exact HR1).
    unfold incx in X2, Y2, L2. cbn [xpos ypos set_xpos] in X2, Y2, L2.
    rewrite FL, L1, N1, N0, X1, Y1 in L2.
    destruct (b1 >? 2) eqn:B2.
    + destruct (checkRLEPosAndColor c2 _ 0) as [c3 r3] eqn:E3.
      destruct (check_latch _ _ _ _ _ HR2 E3) as (L3 & X3 & Y3 & N3 & C3).
      cbn [fst]. rewrite L3, FL, L2, N2, N1, N0. unfold incx. cbn [xpos ypos set_xpos].
      rewrite X2, Y2, X1, Y1.
      destruct (n1 >=? N); [reflexivity|]. rewrite Lc. cbn [fst andb].
      destruct (n2 >=? N); [reflexivity|]. cbn [fst].
      destruct (0 >=? N); reflexivity.
    + cbn [fst]. rewrite L2.
      destruct (n1 >=? N); [reflexivity|]. rewrite Lc. cbn [fst andb].
      destruct (n2 >=? N); reflexivity.
  - assert (B2 : (b1 >? 2) = false)
      by (rewrite Z.gtb_ltb in *; apply Z.ltb_ge; apply Z.ltb_ge in B1; lia).
    cbn [fst]. rewrite L1, B2. destruct (n1 >=? N); reflexivity.
Qed.

Lemma rle8_run c r s b1 b2 :
  unc_pixels_left s <= 0 -> deltaFlag s = false -> rle24pendingFlag s = false -> b1 <> 0 ->
  compressionCode c = bI_RLE8 -> badColorFlag c = false ->
  latch (fst (fst (fst (rle_step c r s b1 b2))))
  = if b2 >=? palNumEntries c then (true, b2, xpos r, ypos r) else latch c.
Proof.
  intros Hu Hd Hp Hb Hc Hf. unfold rle_step. cbv zeta.
  cbn [unc_pixels_left deltaFlag rle24pendingFlag set_lpos set_bytesInThisRow].
  assert (Hu' : (unc_pixels_left s >? 0) = false) by (rewrite Z.gtb_ltb; apply Z.ltb_ge; lia).
  assert (Hb' : (b1 =? 0) = false) by (apply Z.eqb_neq, Hb).
  rewrite Hu', Hd, Hp, Hb', Hc. cbn [bI_RLE24 bI_RLE4 bI_RLE8 Z.eqb Pos.eqb].
  assert (HR : compressionCode (print (EPixel b2) (print (ENum b1) c)) <> bI_RLE24)
    by (cbn; rewrite Hc; cbv; discriminate).
  destruct (checkRLEPosAndColor _ _ b2) as [c1 r1] eqn:E1.
  destruct (check_latch _ _ _ _ _ HR E1) as (L1 & X1 & Y1 & N1 & C1).
  assert (HR1 : compressionCode c1 <> bI_RLE24) by (rewrite C1; exact HR).
  destruct (checkRLEPosAndColor c1 _ b2) as [c2 r2] eqn:E2.
  destruct (check_latch _ _ _ _ _ HR1 E2) as (L2 & _ & _ & N2 & _).
  cbn [print set_stdout badColorFlag palNumEntries xpos ypos set_bytesInThisRow] in L1, N1.
  rewrite Hf in L1. cbn [fst]. rewrite L2, N1.
  replace (badColorFlag c1) with (fst (fst (fst (latch c1)))) by reflexivity.
  rewrite L1. destruct (b2 >=? palNumEntries c); cbn; rewrite ?Hf; reflexivity.
Qed.

Lemma latch_loop c r s l :
  badColorFlag c = true -> latch (fst (fst (fst (rle_loop c r s l)))) = latch c.
Proof.
  intros Hf.
  assert (H := F_loop (rowStride c) (compressionCode c) (palNumEntries c) (imgWidth c)
                 (Some (badColorIndex c, badColor_X c, badColor_Y c)) l c r s
                 ltac:(unfold frame_inv; tauto)).
  destruct H as (_ & _ & _ & _ & F & I & X & Y).
  unfold latch. rewrite F, I, X, Y, Hf. reflexivity.
Qed.

(** C4 (corrected): a compressed run [{b1, b2}] of an RLE8 image sets the
    bad-palette-index flag iff [b2 >= palNumEntries], latching [b2] and the
    position of the run's first pixel; in an RLE4 image the two 4-bit
    values of [b2] are checked instead ([n1] always, [n2] when the run has
    more than one pixel), and the last pixel of a run of more than two
    pixels is checked with the index 0.  Once the flag is set, the
    latched index and position are never changed for the rest of the
    decoding. *)
Theorem rle_badColor_latch :
  (forall c r s b1 b2,
     unc_pixels_left s <= 0 -> deltaFlag s = false -> rle24pendingFlag s = false -> b1 <> 0 ->
     compressionCode c = bI_RLE8 -> badColorFlag c = false ->
     latch (fst (fst (fst (rle_step c r s b1 b2))))
     = if b2 >=? palNumEntries c then (true, b2, xpos r, ypos r) else latch c)
  /\ (forall c r s b1 b2,
     unc_pixels_left s <= 0 -> deltaFlag s = false -> rle24pendingFlag s = false -> b1 <> 0 ->
     compressionCode c = bI_RLE4 -> badColorFlag c = false ->
     let N := palNumEntries c in
     let n1 := Z.shiftr (Z.land b2 240) 4 in
     let n2 := Z.land b2 15 in
     latch (fst (fst (fst (rle_step c r s b1 b2))))
     = if n1 >=? N then (true, n1, xpos r, ypos r)
       else if (b1 >? 1) && (n2 >=? N) then (true, n2, xpos r + 1, ypos r)
       else if (b1 >? 2) && (0 >=? N) then (true, 0, xpos r + 1 + 1 + (b1 - 3), ypos r)
       else latch c)
  /\ (forall c r s l, badColorFlag c = true ->
        latch (fst (fst (fst (rle_loop c r s l)))) = latch c).
Proof.
  split; [exact rle8_run|]. split; [exact rle4_run|]. exact latch_loop.
Qed.


Lemma rle4_value_not_compared :
  (18 >=? palNumEntries rle4_ctx) = true /\
  badColorFlag (fst (fst (fst (rle_step rle4_ctx (rlectx0 rle4_ctx) rle_locals0 2 18)))) = false.
Proof. vm_compute. split; reflexivity. Qed.


Lemma rle_badColor_latch_witness :
  latch (fst (fst (fst (rle_step rle8_pal_ctx (rlectx0 rle8_pal_ctx) rle_locals0 3 7))))
  = (true, 7, 0, -1).
Proof.
  rewrite (proj1 rle_badColor_latch).
  - vm_compute. reflexivity.
  - vm_compute. discriminate.
  - reflexivity.
  - reflexivity.
  - discriminate.
  - reflexivity.
  - reflexivity.
Defined.

(** ** The info header decoders *)

(** Each block of [inspectInfoheaderV3] acts on the header fields [hkey]
    as a sequence of setters. *)
Ltac stage_tac :=
  unfold hkey; cbv zeta; split_ifs; reflexivity.

Lemma K_width d c : hkey (v3_width d c) = hkey (set_imgWidth (getLONG (slice d 4 8)) c).
Proof. unfold v3_width; stage_tac. Qed.
Lemma K_height d c : hkey (v3_height d c) = hkey c.
Proof. unfold v3_height; stage_tac. Qed.
Lemma K_planes d c : hkey (v3_planes d c) = hkey c.
Proof. unfold v3_planes; stage_tac. Qed.
Lemma K_bitCount d c : hkey (v3_bitCount d c) = hkey (set_bitCount (v3_biBitCount d) c).
Proof. reflexivity. Qed.
Lemma K_compression_short d c : len d < 20 -> v3_compression d c = c.
Proof. intros H. unfold v3_compression. destruct (len d >=? 20) eqn:E; [lia|reflexivity]. Qed.
Lemma K_compression d c : 20 <= len d ->
  exists ct ic, hkey (v3_compression d c)
    = hkey (set_isCompressed ic (set_compressionType ct
              (set_compressionCode (getDWORD (slice d 16 20)) c))).
Proof.
  intros H. unfold v3_compression. destruct (len d >=? 20) eqn:E; [|lia].
  cbv zeta. destruct (getCompressionCodeInfo _) as [descr ct].
  exists ct, (negb (String.eqb ct "none")). unfold hkey. split_ifs; reflexivity.
Qed.
Lemma K_sizeImage d c : hkey (v3_sizeImage d c)
  = hkey (if len d >=? 24 then set_sizeImage (getDWORD (slice d 20 24)) c else c).
Proof. unfold v3_sizeImage; cbv zeta. destruct (len d >=? 24); stage_tac. Qed.
Lemma K_pels d c : hkey (v3_pelsPerMeter d c) = hkey c.
Proof. unfold v3_pelsPerMeter; stage_tac. Qed.
Lemma K_clrUsed d c c' : v3_clrUsed d c = Ok c' -> hkey c' = hkey c.
Proof. unfold v3_clrUsed. split_ifs; intros H; try discriminate; injection H as <-; reflexivity. Qed.
Lemma K_clrUsed_err d c e : v3_clrUsed d c = Err e ->
  e = "Unreasonable color table size" /\ 36 <= len d /\ 100000 < v3_biClrUsed d.
Proof.
  unfold v3_clrUsed. destruct (len d >=? 36) eqn:E1; [|discriminate].
  destruct (v3_biClrUsed d >? 100000) eqn:E2; [|discriminate].
  intros H; injection H as <-.
  apply Z.geb_le in E1. apply Z.gtb_lt in E2. auto with zarith.
Qed.
Lemma K_clrUsed_ok d c : 36 <= len d /\ 100000 < v3_biClrUsed d ->
  exists e, v3_clrUsed d c = Err e.
Proof.
  intros [H1 H2]. unfold v3_clrUsed.
  replace (len d >=? 36) with true by (symmetry; apply Z.geb_le; lia).
  replace (v3_biClrUsed d >? 100000) with true by (symmetry; apply Z.gtb_lt; lia).
  eexists; reflexivity.
Qed.
Lemma K_clrImportant d c : hkey (v3_clrImportant d c) = hkey c.
Proof. unfold v3_clrImportant; stage_tac. Qed.
Lemma K_palette d c : hkey (v3_palette d c) = hkey (set_palNumEntries
  (if (v3_biBitCount d >? 0) && (v3_biBitCount d <=? 8) && (v3_biClrUsed d =? 0)
   then Z.shiftl 1 (v3_biBitCount d) else v3_biClrUsed d) (set_palBytesPerEntry 4 c)).
Proof.
  unfold v3_palette; cbv zeta.
  destruct ((v3_biBitCount d >? 0) && (v3_biBitCount d <=? 8)), (v3_biClrUsed d =? 0) eqn:E;
  reflexivity.
Qed.

Lemma os2v2_ok c d c' : inspectInfoheaderOS2V2 c d = Ok c' ->
  exists c0, inspectInfoheaderV3 c d = Ok c0 /\ hkey c' = hkey c0.
Proof.
  unfold inspectInfoheaderOS2V2. destruct (inspectInfoheaderV3 c d) as [c0|e]; cbn [bind];
  [|discriminate]. intros H. exists c0. split; [reflexivity|].
  revert H; cbv zeta; split_ifs; intros H; injection H as <-; reflexivity.
Qed.

Lemma os2v2_err c d e : inspectInfoheaderOS2V2 c d = Err e -> inspectInfoheaderV3 c d = Err e.
Proof.
  unfold inspectInfoheaderOS2V2. destruct (inspectInfoheaderV3 c d) as [c0|e']; cbn [bind];
  [|tauto]. cbv zeta; split_ifs; discriminate.
Qed.

Ltac hkey_simpl :=
  unfold hkey in *;
  cbn [imgWidth bitCount compressionCode compressionType isCompressed sizeImage
       palNumEntries palBytesPerEntry set_imgWidth set_bitCount set_compressionCode
       set_compressionType set_isCompressed set_sizeImage set_palNumEntries
       set_palBytesPerEntry] in *.

(** C3 (corrected): an OS/2 v2 header of 16 to 63 bytes decodes only the
    fields that fit: the width and bit count always, the compression fields
    from 20 bytes on (otherwise left unchanged), SizeImage from 24 bytes on
    (otherwise unchanged), ClrUsed from 36 bytes on (otherwise 0, which gives
    the default palette size), with 4-byte palette entries; it succeeds
    exactly when it does not hold a ClrUsed above 100000, which is the fatal
    error "Unreasonable color table size". Before any decoding the whole
    declared header must be in the file: when fewer bytes than the declared
    size remain, [readInfoheader] fails with "Unexpected end of file". *)
Theorem os2v2_truncated_header (c : ctx_type) (d : list byte) :
  (16 <= len d < 64 ->
  match inspectInfoheaderOS2V2 c d with
  | Err e => e = "Unreasonable color table size" /\ 36 <= len d /\ 100000 < v3_biClrUsed d
  | Ok c' =>
      ~ (36 <= len d /\ 100000 < v3_biClrUsed d) /\
      imgWidth c' = getLONG (slice d 4 8) /\
      bitCount c' = v3_biBitCount d /\
      (len d < 20 -> compressionCode c' = compressionCode c
                     /\ compressionType c' = compressionType c
                     /\ isCompressed c' = isCompressed c) /\
      (20 <= len d -> compressionCode c' = getDWORD (slice d 16 20)) /\
      sizeImage c' = (if len d >=? 24 then getDWORD (slice d 20 24) else sizeImage c) /\
      palBytesPerEntry c' = 4 /\
      palNumEntries c' =
        (if (v3_biBitCount d >? 0) && (v3_biBitCount d <=? 8) && (v3_biClrUsed d =? 0)
         then Z.shiftl 1 (v3_biBitCount d) else v3_biClrUsed d)
  end) /\
  (4 <= fileSize c - pos c < infoHeaderSize c ->
   readInfoheader c = Err "Unexpected end of file").
Proof.
  split.
  2:{ intros [H1 H2]. unfold readInfoheader.
      replace (fileSize c - pos c <? 4) with false by (symmetry; apply Z.ltb_ge; lia).
      cbv zeta. cbn [print set_stdout fileSize pos infoHeaderSize].
      replace (fileSize c - pos c <? infoHeaderSize c) with true
        by (symmetry; apply Z.ltb_lt; lia).
      reflexivity. }
  intros Hl. destruct (inspectInfoheaderOS2V2 c d) as [c'|e] eqn:E.
  2:{ apply os2v2_err in E. unfold inspectInfoheaderV3 in E.
      destruct (v3_clrUsed _ _) eqn:E1; cbn [bind] in E; [discriminate|].
      injection E as <-. exact (K_clrUsed_err _ _ _ E1). }
  destruct (os2v2_ok _ _ _ E) as [c0 [E0 Hk]]. clear E.
  unfold inspectInfoheaderV3 in E0.
  remember (v3_width d c) as s1 eqn:Q1. remember (v3_height d s1) as s2 eqn:Q2.
  remember (v3_planes d s2) as s3 eqn:Q3. remember (v3_bitCount d s3) as s4 eqn:Q4.
  remember (v3_compression d s4) as s5 eqn:Q5. remember (v3_sizeImage d s5) as s6 eqn:Q6.
  remember (v3_pelsPerMeter d s6) as s7 eqn:Q7.
  destruct (v3_clrUsed d s7) as [c1|e] eqn:E1; cbn [bind] in E0; [|discriminate].
  injection E0 as <-.
  split.
  { intros HH. destruct (K_clrUsed_ok d s7 HH) as [e He]. congruence. }
  pose proof (K_width d c) as K1. rewrite <- Q1 in K1.
  pose proof (K_height d s1) as K2. rewrite <- Q2 in K2.
  pose proof (K_planes d s2) as K3. rewrite <- Q3 in K3.
  pose proof (K_bitCount d s3) as K4. rewrite <- Q4 in K4.
  pose proof (K_sizeImage d s5) as K6. rewrite <- Q6 in K6.
  pose proof (K_pels d s6) as K7. rewrite <- Q7 in K7.
  pose proof (K_clrUsed d s7 c1 E1) as K8.
  pose proof (K_clrImportant d c1) as K9.
  pose proof (K_palette d (v3_clrImportant d c1)) as K10.
  destruct (Z_lt_ge_dec (len d) 20) as [Hs|Hs].
  - rewrite K_compression_short in Q5 by exact Hs. subst s5.
    destruct (len d >=? 24) eqn:E24; hkey_simpl;
      repeat split; intros; try congruence; lia.
  - destruct (K_compression d s4 ltac:(lia)) as (ct & ic & K5). rewrite <- Q5 in K5.
    destruct (len d >=? 24) eqn:E24; hkey_simpl;
      repeat split; intros; try congruence; lia.
Qed.
(** A 44-byte OS/2 v2 header with ClrUsed 100001 is rejected, and a file
    whose OS/2 v2 header declares 64 bytes of which only 44 are present fails
    with "Unexpected end of file". *)
Lemma os2v2_truncated_not_ok :
  inspectInfoheaderOS2V2 (newCtx []) (bytes (os2v2_header 44 100001))
    = Err "Unreasonable color table size" /\
  bmpVerID (detectVersion (newCtx (bytes (fileheader 78 78 ++ os2v2_header 64 0)))
                          (bytes (fileheader 78 78 ++ os2v2_header 64 0))) = "os2v2" /\
  main2 (bytes (fileheader 78 78 ++ os2v2_header 64 0)) = Err "Unexpected end of file".
Proof. vm_compute. split; [reflexivity|]. split; reflexivity. Qed.

Lemma os2v2_truncated_header_witness :
  exists c', inspectInfoheaderOS2V2 (newCtx []) (bytes (os2v2_header 44 16)) = Ok c'
             /\ palNumEntries c' = 16.
Proof.
  pose proof (proj1 (os2v2_truncated_header (newCtx []) (bytes (os2v2_header 44 16)))
                ltac:(split; [apply Z.leb_le | apply Z.ltb_lt]; vm_compute; reflexivity)) as H.
  destruct (inspectInfoheaderOS2V2 _ _) as [c'|e].
  2:{ destruct H as (_ & _ & H). apply Z.ltb_lt in H. vm_compute in H. discriminate H. }
  exists c'. split; [reflexivity|].
  destruct H as (_ & _ & _ & _ & _ & _ & _ & ->). vm_compute. reflexivity.
Defined.

(** C8 (corrected): for a bit depth from 1 to 8, the Windows v3 decoder
    (also used for OS/2 v2 and, on the first 40 bytes, for v4 and v5) sets
    4-byte palette entries and 2^depth entries when ClrUsed is 0 or absent,
    ClrUsed entries otherwise, and fails when a present ClrUsed exceeds
    100000; the OS/2 decoder (OS/2 v1, Windows v2) sets 3-byte entries and
    2^depth entries, reduced to (bfOffBits - 14 - header size) / 3 when at
    least 3 but fewer than 3 * 2^depth bytes lie between the header and
    bfOffBits. *)
Theorem palette_size (c : ctx_type) (d : list byte) :
  (1 <= v3_biBitCount d <= 8 ->
   match inspectInfoheaderV3 c d with
   | Ok c' =>
       palBytesPerEntry c' = 4 /\
       palNumEntries c' =
         (if v3_biClrUsed d =? 0 then Z.shiftl 1 (v3_biBitCount d) else v3_biClrUsed d) /\
       ~ (36 <= len d /\ 100000 < v3_biClrUsed d)
   | Err e => e = "Unreasonable color table size" /\ 36 <= len d /\ 100000 < v3_biClrUsed d
   end) /\
  (1 <= getWORD (slice d 10 12) <= 8 ->
   exists c', inspectInfoheaderOS2 c d = Ok c' /\
     palBytesPerEntry c' = 3 /\
     palNumEntries c' =
       (let n := Z.shiftl 1 (getWORD (slice d 10 12)) in
        let avail := bfOffBits c - (14 + infoHeaderSize c) in
        if (3 <=? avail) && (avail <? 3 * n) then avail / 3 else n)).
Proof.
  split.
  - intros Hb. unfold inspectInfoheaderV3.
    destruct (v3_clrUsed _ _) as [c1|e] eqn:E1; cbn [bind].
    + unfold v3_palette. cbv zeta.
      replace ((v3_biBitCount d >? 0) && (v3_biBitCount d <=? 8)) with true
        by (symmetry; apply andb_true_iff; split; [apply Z.gtb_lt | apply Z.leb_le]; lia).
      split; [destruct (v3_biClrUsed d =? 0); reflexivity|]. split.
      * destruct (v3_biClrUsed d =? 0); reflexivity.
      * intros HH. match type of E1 with
                   | v3_clrUsed _ ?s = _ => destruct (K_clrUsed_ok d s HH) as [e He]
                   end. congruence.
    + exact (K_clrUsed_err _ _ _ E1).
  - intros Hb. unfold inspectInfoheaderOS2. cbv zeta.
    replace (getWORD (slice d 10 12) <=? 8) with true by (symmetry; apply Z.leb_le; lia).
    cbn [bfOffBits infoHeaderSize palNumEntries set_palNumEntries set_palBytesPerEntry
         set_bitCount set_imgHeight set_imgWidth pfxPrintf print set_stdout].
    set (n := Z.shiftl 1 (getWORD (slice d 10 12))).
    set (avail := bfOffBits c - (14 + infoHeaderSize c)).
    rewrite Z.geb_leb.
    destruct ((3 <=? avail) && (avail <? 3 * n)) eqn:Ea.
    + eexists. split; [reflexivity|]. split; [reflexivity|]. cbn.
      apply andb_true_iff in Ea as [Ea _]. apply Z.leb_le in Ea.
      apply Z.quot_div_nonneg; lia.
    + eexists. split; [reflexivity|]. split; reflexivity.
Qed.

(** C8, as stated, fails for the OS/2 decoder: an 8-bit OS/2 v1 image whose
    bfOffBits leaves 6 bytes for the palette gets 2 entries, not 256. *)
Lemma os2v1_palette_overlap :
  exists c1, readBmpHeaders (newCtx os2v1_overlap_file) = Ok c1 /\
  bmpVerID c1 = "os2v1" /\ bitCount c1 = 8 /\ palNumEntries c1 = 2.
Proof. vm_compute. eexists. split; [reflexivity|]. repeat split. Qed.

(** ** The pixel data offset and the color profile *)

Lemma readProfile_err c e : readProfile c = Err e ->
  e = "Invalid color profile location" \/ e = "Invalid color profile size".
Proof.
  unfold readProfile. cbv zeta. split_ifs; intros H; try discriminate;
  injection H as <-; tauto.
Qed.

Lemma skipUnused_facts c1 :
  (pos c1 <= bfOffBits c1 <= fileSize c1 ->
   pos (skipUnused c1) = bfOffBits c1 /\
   data (skipUnused c1) = data c1 /\ fileSize (skipUnused c1) = fileSize c1 /\
   stdout (skipUnused c1) =
     stdout c1 ++ (if pos c1 <? bfOffBits c1
                   then [ENum (bfOffBits c1 - pos c1); EText "unused bytes"] else [])).
Proof.
  intros Hr. unfold skipUnused. cbv zeta.
  destruct (bfOffBits c1 - pos c1 >? 0) eqn:E1;
    cbn [pos data fileSize stdout set_pos print set_stdout].
  - replace (pos c1 <? bfOffBits c1) with true
      by (symmetry; apply Z.gtb_lt in E1; apply Z.ltb_lt; lia).
    split; [lia|]. split; [reflexivity|]. split; [reflexivity|].
    rewrite <- app_assoc. reflexivity.
  - replace (pos c1 <? bfOffBits c1) with false
      by (symmetry; rewrite Z.gtb_ltb in E1; apply Z.ltb_ge in E1; apply Z.ltb_ge; lia).
    split; [lia|]. split; [reflexivity|]. split; [reflexivity|].
    rewrite app_nil_r. reflexivity.
Qed.

(** C9 (corrected): once the headers, bitfields and palette are read,
    [readBmp] fails with "Bad bfOffBits value" exactly when bfOffBits lies
    outside the closed interval [cursor, file length]: an offset equal to
    the cursor is accepted. Otherwise the cursor moves to bfOffBits, the
    data and file size are unchanged, and a gap is reported as unused bytes
    exactly when it is not empty. *)
Theorem readBmp_bfOffBits (c c1 : ctx_type) :
  readBmpHeaders c = Ok c1 ->
  (readBmp c = Err "Bad bfOffBits value" <->
   bfOffBits c1 < pos c1 \/ fileSize c1 < bfOffBits c1) /\
  (pos c1 <= bfOffBits c1 <= fileSize c1 ->
   pos (skipUnused c1) = bfOffBits c1 /\
   data (skipUnused c1) = data c1 /\ fileSize (skipUnused c1) = fileSize c1 /\
   stdout (skipUnused c1) =
     stdout c1 ++ (if pos c1 <? bfOffBits c1
                   then [ENum (bfOffBits c1 - pos c1); EText "unused bytes"] else [])).
Proof.
  intros H. split.
  - unfold readBmp. rewrite H. cbn [bind]. unfold readBmpBits.
    destruct ((bfOffBits c1 <? pos c1) || (bfOffBits c1 >? fileSize c1)) eqn:Eb.
    + split; [intros _|reflexivity].
      apply orb_true_iff in Eb as [E|E]; [left; apply Z.ltb_lt, E | right; apply Z.gtb_lt, E].
    + apply orb_false_iff in Eb as [E1 E2].
      apply Z.ltb_ge in E1. rewrite Z.gtb_ltb in E2. apply Z.ltb_ge in E2.
      split; [|lia]. intros HE. exfalso.
      cbv zeta in HE.
      destruct (inspectBits _ _) as [c2|e2] eqn:Ei; cbn [bind] in HE; [|discriminate].
      destruct (actualBitsSize c2 <? 1); [discriminate|].
      destruct (readProfile _) as [c3|e] eqn:Ep; cbn [bind] in HE.
      * destruct (_ <? _); discriminate.
      * injection HE as He. subst e. apply readProfile_err in Ep. destruct Ep; discriminate.
  - exact (skipUnused_facts c1).
Qed.

(** C9, as stated, fails: in a 24-bit file whose pixels start right after
    the header, bfOffBits equals the cursor and the file is read. *)
Lemma bfOffBits_at_cursor_accepted :
  bfOffBits (ok_of (readBmpHeaders (newCtx v3_24bit_file)))
    = pos (ok_of (readBmpHeaders (newCtx v3_24bit_file))) /\
  (exists c1, readBmpHeaders (newCtx v3_24bit_file) = Ok c1) /\
  (exists c2, main2 v3_24bit_file = Ok c2).
Proof.
  split; [vm_compute; reflexivity|].
  split; eexists; vm_compute; reflexivity.
Qed.

Lemma readBmp_bfOffBits_witness :
  readBmp (newCtx v3_24bit_gap_file) <> Err "Bad bfOffBits value".
Proof.
  intros H.
  apply (proj1 (proj1 (readBmp_bfOffBits (newCtx v3_24bit_gap_file)
              (ok_of (readBmpHeaders (newCtx v3_24bit_gap_file)))
              ltac:(vm_compute; reflexivity)))) in H.
  revert H. vm_compute. intros [H|H]; discriminate H.
Defined.

(** C10: when the pixel decoder consumes no bytes ([actualBitsSize] below
    1), [readBmp] returns the context left by the pixel decoder: the color
    profile checks are not made, whatever the header says about a profile. *)
Theorem readBmp_no_bits (c c1 c2 : ctx_type) :
  readBmpHeaders c = Ok c1 ->
  pos c1 <= bfOffBits c1 <= fileSize c1 ->
  inspectBits (skipUnused c1) (slice (data c1) (bfOffBits c1) (fileSize c1)) = Ok c2 ->
  actualBitsSize c2 < 1 ->
  readBmp c = Ok c2.
Proof.
  intros H Hr Hi Ha. unfold readBmp. rewrite H. cbn [bind]. unfold readBmpBits.
  replace ((bfOffBits c1 <? pos c1) || (bfOffBits c1 >? fileSize c1)) with false
    by (symmetry; apply orb_false_iff; split;
        [apply Z.ltb_ge | rewrite Z.gtb_ltb; apply Z.ltb_ge]; lia).
  destruct (skipUnused_facts c1 Hr) as (Hp & Hd & Hf & _).
  rewrite Hp, Hd, Hf, Hi. cbn [bind].
  replace (actualBitsSize c2 <? 1) with true by (symmetry; apply Z.ltb_lt; exact Ha).
  reflexivity.
Qed.

Lemma readBmp_no_bits_witness :
  hasProfile (ok_of (readBmpHeaders (newCtx v5_jpeg_file))) = true /\
  readProfile (ok_of (readBmp (newCtx v5_jpeg_file))) = Err "Invalid color profile location" /\
  readBmp (newCtx v5_jpeg_file) =
    Ok (ok_of (inspectBits (skipUnused (ok_of (readBmpHeaders (newCtx v5_jpeg_file))))
                 (slice (data (ok_of (readBmpHeaders (newCtx v5_jpeg_file))))
                        (bfOffBits (ok_of (readBmpHeaders (newCtx v5_jpeg_file))))
                        (fileSize (ok_of (readBmpHeaders (newCtx v5_jpeg_file))))))).
Proof.
  split; [vm_compute; reflexivity|]. split; [vm_compute; reflexivity|].
  apply (readBmp_no_bits (newCtx v5_jpeg_file) (ok_of (readBmpHeaders (newCtx v5_jpeg_file)))).
  - vm_compute. reflexivity.
  - split; apply Z.leb_le; vm_compute; reflexivity.
  - vm_compute. reflexivity.
  - apply Z.ltb_lt. vm_compute. reflexivity.
Defined.

(** The size of an uncompressed image is an [int64] product that wraps: in
    [v5_wrap_file] it is 2^33, so the bits end past the profile, which
    starts where the bits start. *)
Lemma v5_wrap_file_profile_location :
  actualBitsSize (ok_of (inspectBits (skipUnused (ok_of (readBmpHeaders (newCtx v5_wrap_file))))
     (slice v5_wrap_file 138 138))) = 8589934592 /\
  main2 v5_wrap_file = Err "Invalid color profile location".
Proof. split; vm_compute; reflexivity. Qed.

(** * Further properties of the code *)

Lemma bval_range b : 0 <= bval b < 256.
Proof. unfold bval. pose proof (Byte.to_N_bounded b). lia. Qed.

Lemma at_range d i : 0 <= at_ d i < 256.
Proof. unfold at_. destruct (nth_error _ _); [apply bval_range|lia]. Qed.

(** X1: [getDWORD] reads an unsigned 32-bit value and [getWORD] an unsigned
    16-bit value; [getLONG] reads a signed 32-bit value that equals the
    DWORD of the same bytes modulo 2^32. *)
Theorem getInts_range (d : list byte) :
  0 <= getDWORD d < 4294967296 /\ 0 <= getWORD d < 65536 /\
  -2147483648 <= getLONG d < 2147483648 /\
  getLONG d mod 4294967296 = getDWORD d.
Proof.
  assert (R : 0 <= getDWORD d < 4294967296).
  { unfold getDWORD. pose proof (at_range d 0). pose proof (at_range d 1).
    pose proof (at_range d 2). pose proof (at_range d 3). lia. }
  split; [exact R|]. split.
  { unfold getWORD. pose proof (at_range d 0). pose proof (at_range d 1). lia. }
  unfold getLONG, int32_of. destruct (Z.ltb_spec (getDWORD d) 2147483648).
  - split; [lia|]. apply Z.mod_small. lia.
  - split; [lia|]. rewrite <- (Z.mod_add (getDWORD d - 4294967296) 1 4294967296) by lia.
    replace (getDWORD d - 4294967296 + 1 * 4294967296) with (getDWORD d) by lia.
    apply Z.mod_small. lia.
Qed.

(* RLE size *)
Lemma rle_loop_lpos (l : list byte) :
  forall c r s, exists k, lpos (snd (fst (rle_loop c r s l))) = lpos s + 2 * k
                  /\ 0 <= 2 * k <= len l.
Proof.
  induction l as [l IH] using (well_founded_induction
     (well_founded_ltof _ (@List.length byte))).
  intros c r s. destruct l as [|b1 [|b2 rest]].
  - exists 0. cbn [rle_loop]. destruct (endRLERow c r). cbn. unfold len. cbn. lia.
  - exists 0. cbn [rle_loop]. destruct (endRLERow c r). cbn. unfold len. cbn. lia.
  - cbn [rle_loop].
    destruct (if negb (rowHeaderPrinted r) then _ else _) as [c1 r1].
    destruct (rle_step c1 r1 s (bval b1) (bval b2)) as [[[c2 r2] s2] brk] eqn:E2.
    assert (Hl : lpos s2 = lpos s + 2)
      by (rewrite <- (rle_step_lpos c1 r1 s (bval b1) (bval b2)), E2; reflexivity).
    destruct brk.
    + exists 1. cbn. unfold len. cbn [List.length]. lia.
    + destruct (IH rest ltac:(unfold ltof; cbn; lia) c2 r2 s2) as [k [Hk Hb]].
      exists (k + 1). rewrite Hk, Hl. unfold len in *. cbn [List.length]. lia.
Qed.

(** X2: when the RLE decoder runs, the size of the compressed data it
    records ([actualBitsSize]) is even and at most the number of bytes it was
    given: the loop reads whole two-byte codes only. *)
Theorem rle_actualBitsSize (c : ctx_type) (d : list byte) :
  printRLECompressedPixels_run c d <> None ->
  0 <= actualBitsSize (printRLECompressedPixels c d) <= len d /\
  Z.even (actualBitsSize (printRLECompressedPixels c d)) = true.
Proof.
  intros H. unfold printRLECompressedPixels.
  destruct (printRLECompressedPixels_run c d) as [[[[c' r'] s'] e]|] eqn:E;
    [|congruence].
  unfold printRLECompressedPixels_run in E.
  repeat match type of E with
  | (if ?b then _ else _) = _ => destruct b; [discriminate|]
  end.
  injection E as E.
  destruct (rle_loop_lpos d c (rlectx0 c) rle_locals0) as [k [Hk Hb]].
  rewrite E in Hk. cbn [fst snd lpos rle_locals0] in Hk.
  cbn [actualBitsSize set_actualBitsSize print set_stdout]. rewrite Hk. split; [lia|].
  rewrite Z.add_0_l, Z.even_mul. reflexivity.
Qed.

(** X3: for a context with a color profile, [readProfile] fails with
    "Invalid color profile location" when the cursor is past the profile,
    with "Invalid color profile size" when the profile does not end inside
    the file, and otherwise succeeds with the cursor at the end of the
    profile. *)
Theorem readProfile_outcome (c : ctx_type) :
  hasProfile c = true ->
  (profileOffset c < pos c -> readProfile c = Err "Invalid color profile location") /\
  (pos c <= profileOffset c -> fileSize c < profileOffset c + profileSize c ->
     readProfile c = Err "Invalid color profile size") /\
  (pos c <= profileOffset c -> profileOffset c + profileSize c <= fileSize c ->
     exists c', readProfile c = Ok c' /\ pos c' = profileOffset c + profileSize c /\
                fileSize c' = fileSize c).
Proof.
  intros Hp. unfold readProfile. rewrite Hp. cbv zeta. split; [|split].
  - intros H. destruct (Z.ltb_spec (pos c) (profileOffset c)); [lia|].
    replace (pos c >? profileOffset c) with true by (symmetry; apply Z.gtb_lt; lia).
    reflexivity.
  - intros H1 H2. destruct (Z.ltb_spec (pos c) (profileOffset c)).
    + cbn [pos set_pos print set_stdout fileSize profileOffset profileSize].
      rewrite Z.gtb_ltb, (proj2 (Z.ltb_ge _ _) (Z.le_refl _)).
      replace (profileOffset c + profileSize c >? fileSize c) with true
        by (symmetry; apply Z.gtb_lt; lia). reflexivity.
    + replace (pos c >? profileOffset c) with false by (symmetry; rewrite Z.gtb_ltb; apply Z.ltb_ge; lia).
      replace (pos c + profileSize c >? fileSize c) with true
        by (symmetry; apply Z.gtb_lt; lia). reflexivity.
  - intros H1 H2. destruct (Z.ltb_spec (pos c) (profileOffset c)).
    + cbn [pos set_pos print set_stdout fileSize profileOffset profileSize].
      rewrite Z.gtb_ltb, (proj2 (Z.ltb_ge _ _) (Z.le_refl _)).
      replace (profileOffset c + profileSize c >? fileSize c) with false
        by (symmetry; rewrite Z.gtb_ltb; apply Z.ltb_ge; lia).
      eexists; split; [reflexivity|].
      destruct (profileIsLinked _); cbn; auto.
    + replace (pos c >? profileOffset c) with false by (symmetry; rewrite Z.gtb_ltb; apply Z.ltb_ge; lia).
      replace (pos c + profileSize c >? fileSize c) with false
        by (symmetry; rewrite Z.gtb_ltb; apply Z.ltb_ge; lia).
      eexists; split; [reflexivity|].
      destruct (profileIsLinked _); cbn; split; [lia|auto|lia|auto].
Qed.

(** X4: a negative biHeight marks the image top-down; the height becomes
    -biHeight, except for -2^31, whose negation wraps around in 32 bits: the
    height stays -2^31 and the pixels are not printed. *)
Theorem v3_height_negative (d : list byte) (c : ctx_type) :
  getLONG (slice d 8 12) < 0 ->
  topDown (v3_height d c) = true /\
  (getLONG (slice d 8 12) = -2147483648 ->
     imgHeight (v3_height d c) = -2147483648 /\ printPixels (v3_height d c) = false) /\
  (-2147483648 < getLONG (slice d 8 12) ->
     imgHeight (v3_height d c) = - getLONG (slice d 8 12) /\
     printPixels (v3_height d c) = printPixels c).
Proof.
  intros H. unfold v3_height. cbv zeta.
  replace (getLONG (slice d 8 12) <? 0) with true by (symmetry; apply Z.ltb_lt; lia).
  cbn [imgHeight set_imgHeight set_topDown pfxPrintf print set_stdout].
  destruct (Z.eq_dec (getLONG (slice d 8 12)) (-2147483648)) as [E|E].
  - rewrite E. cbn. split; [reflexivity|]. split; [intros _; split; reflexivity|intros; lia].
  - assert (N : neg_int32 (getLONG (slice d 8 12)) = - getLONG (slice d 8 12)).
    { unfold neg_int32, int32_of.
      assert (L : -2147483648 <= getLONG (slice d 8 12)).
      { pose proof (getInts_range (slice d 8 12)). lia. }
      rewrite Z.mod_small by lia.
      replace (- getLONG (slice d 8 12) <? 2147483648) with true
        by (symmetry; apply Z.ltb_lt; lia). reflexivity. }
    rewrite N. replace (- getLONG (slice d 8 12) <? 1) with false
      by (symmetry; apply Z.ltb_ge; lia).
    cbn [topDown imgHeight printPixels set_imgHeight set_topDown set_stdout]. split; [reflexivity|]. split; [intros; lia|auto].
Qed.

Lemma unescape1_char b s : unescape1 (printWindows1252Char b ++ s) = Some (b, s).
Proof. destruct b; reflexivity. Qed.

Lemma printWindows1252Char_nonempty b : printWindows1252Char b <> EmptyString.
Proof. destruct b; discriminate. Qed.

Lemma printWindows1252Char_printable b :
  forallb printableb (list_ascii_of_string (printWindows1252Char b)) = true.
Proof. destruct b; reflexivity. Qed.

Lemma list_ascii_of_string_app s1 s2 :
  list_ascii_of_string (s1 ++ s2) = list_ascii_of_string s1 ++ list_ascii_of_string s2.
Proof. induction s1 as [|a s1 IH]; cbn; [reflexivity|now rewrite IH]. Qed.

(** X5: [printWindows1252String] prints only printable ASCII characters
    (codes 32 to 126). *)
Theorem printWindows1252String_printable (d : list byte) :
  Forall (fun a => (32 <= Ascii.N_of_ascii a <= 126)%N)
         (list_ascii_of_string (printWindows1252String d)).
Proof.
  assert (P : forallb printableb (list_ascii_of_string (printWindows1252String d)) = true).
  { induction d as [|b d IH]; [reflexivity|].
    cbn [printWindows1252String]. rewrite list_ascii_of_string_app, forallb_app,
      printWindows1252Char_printable, IH. reflexivity. }
  apply Forall_forall. intros a Ha.
  rewrite forallb_forall in P. specialize (P a Ha). unfold printableb in P.
  apply andb_prop in P. destruct P as [P1 P2].
  apply N.leb_le in P1. apply N.leb_le in P2. lia.
Qed.

(** X6: [printWindows1252String] is injective: two different byte strings
    are never printed as the same text. *)
Theorem printWindows1252String_injective (d1 d2 : list byte) :
  printWindows1252String d1 = printWindows1252String d2 -> d1 = d2.
Proof.
  revert d2. induction d1 as [|b1 d1 IH]; intros [|b2 d2] H; cbn in H.
  - reflexivity.
  - destruct (printWindows1252Char b2) eqn:E; [now apply printWindows1252Char_nonempty in E|].
    discriminate.
  - destruct (printWindows1252Char b1) eqn:E; [now apply printWindows1252Char_nonempty in E|].
    discriminate.
  - assert (U := f_equal unescape1 H). rewrite !unescape1_char in U.
    injection U as <- U. f_equal. apply IH, U.
Qed.

Lemma detectVersion_id (c : ctx_type) (d : list byte) (v : string) :
  18 <= len d ->
  let fsize := getDWORD (slice (data c) (pos c + 2) (pos c + 6)) in
  let h := getDWORD (slice (data c) (pos c + 14) (pos c + 18)) in
  (h <> 12) ->
  (forall os2 : bool,
     (if (os2 || (fsize =? (14 + h) mod 4294967296)) && (16 <=? h) && (h <=? 64) then "os2v2"
      else if h =? 40 then "winv3" else if h =? 52 then "52" else if h =? 56 then "56"
      else if (16 <=? h) && (h <=? 64) then "os2v2"
      else if h =? 108 then "winv4" else if h =? 124 then "winv5" else "unknown") = v) ->
  bmpVerID (detectVersion c d) = v.
Proof.
  intros Hl fsize h H12 Hv. unfold detectVersion.
  replace (len d <? 18) with false by (symmetry; apply Z.ltb_ge; lia).
  cbv zeta. fold fsize h.
  replace (h =? 12) with false by (symmetry; apply Z.eqb_neq; exact H12).
  cbn [andb].
  match goal with
  | |- context [if (?o || _) && _ && _ then _ else _] => specialize (Hv o)
  end.
  rewrite <- Hv. split_ifs; reflexivity.
Qed.

(** X7: [detectVersion] on at least 18 bytes classifies any info header size
    from 16 to 64 other than 40, 52 and 56 as OS/2 v2, 108 as Windows v4, 124
    as Windows v5, and any size other than 12 outside these as unknown. *)
Theorem detectVersion_sizes (c : ctx_type) (d : list byte) :
  18 <= len d ->
  let h := getDWORD (slice (data c) (pos c + 14) (pos c + 18)) in
  (16 <= h <= 64 -> h <> 40 -> h <> 52 -> h <> 56 -> bmpVerID (detectVersion c d) = "os2v2") /\
  (h = 108 -> bmpVerID (detectVersion c d) = "winv4") /\
  (h = 124 -> bmpVerID (detectVersion c d) = "winv5") /\
  (h <> 12 -> ~ (16 <= h <= 64) -> h <> 108 -> h <> 124 ->
     bmpVerID (detectVersion c d) = "unknown").
Proof.
  intros Hl h. split; [|split; [|split]]; intros.
  - apply detectVersion_id; [lia|fold h; lia|]. intros os2. fold h.
    replace (16 <=? h) with true by (symmetry; apply Z.leb_le; lia).
    replace (h <=? 64) with true by (symmetry; apply Z.leb_le; lia).
    replace (h =? 40) with false by (symmetry; apply Z.eqb_neq; lia).
    replace (h =? 52) with false by (symmetry; apply Z.eqb_neq; lia).
    replace (h =? 56) with false by (symmetry; apply Z.eqb_neq; lia).
    rewrite !andb_true_r. destruct (_ || _); reflexivity.
  - apply detectVersion_id; [lia|fold h; lia|]. intros os2. fold h.
    replace (h <=? 64) with false by (symmetry; apply Z.leb_gt; lia).
    replace (h =? 40) with false by (symmetry; apply Z.eqb_neq; lia).
    replace (h =? 52) with false by (symmetry; apply Z.eqb_neq; lia).
    replace (h =? 56) with false by (symmetry; apply Z.eqb_neq; lia).
    replace (h =? 108) with true by (symmetry; apply Z.eqb_eq; lia).
    rewrite !andb_false_r. reflexivity.
  - apply detectVersion_id; [lia|fold h; lia|]. intros os2. fold h.
    replace (h <=? 64) with false by (symmetry; apply Z.leb_gt; lia).
    replace (h =? 40) with false by (symmetry; apply Z.eqb_neq; lia).
    replace (h =? 52) with false by (symmetry; apply Z.eqb_neq; lia).
    replace (h =? 56) with false by (symmetry; apply Z.eqb_neq; lia).
    replace (h =? 108) with false by (symmetry; apply Z.eqb_neq; lia).
    replace (h =? 124) with true by (symmetry; apply Z.eqb_eq; lia).
    rewrite !andb_false_r. reflexivity.
  - apply detectVersion_id; [lia|fold h; lia|]. intros os2. fold h.
    assert (B : (16 <=? h) = false \/ (h <=? 64) = false).
    { destruct (Z.leb_spec 16 h); [right; apply Z.leb_gt; lia|left; reflexivity]. }
    destruct B as [B|B]; rewrite B; rewrite ?andb_false_r, ?andb_false_l;
    replace (h =? 40) with false by (symmetry; apply Z.eqb_neq; lia);
    replace (h =? 52) with false by (symmetry; apply Z.eqb_neq; lia);
    replace (h =? 56) with false by (symmetry; apply Z.eqb_neq; lia);
    replace (h =? 108) with false by (symmetry; apply Z.eqb_neq; lia);
    replace (h =? 124) with false by (symmetry; apply Z.eqb_neq; lia);
    reflexivity.
Qed.

(** X8: a file of fewer than 18 bytes is rejected with "File is too small
    to be a BMP"; otherwise, a file whose first two bytes are not a known
    file type is rejected with "Not a BMP file", and a known type other than
    "BM" with "File type not supported". *)
Theorem main2_header_errors (d : list byte) :
  (len d < 18 -> main2 d = Err "File is too small to be a BMP") /\
  (18 <= len d -> fileTypeNames (string_of_bytes (firstn 2 d)) = EmptyString ->
     main2 d = Err "Not a BMP file") /\
  (18 <= len d -> fileTypeNames (string_of_bytes (firstn 2 d)) <> EmptyString ->
     string_of_bytes (firstn 2 d) <> "BM" -> main2 d = Err "File type not supported").
Proof.
  unfold main2, readBmp, readBmpHeaders.
  cbn [fileSize pos newCtx set_infoHeaderSize data].
  fold (len d). rewrite Z.sub_0_r.
  assert (S : slice (slice d 0 (0 + 14)) 0 2 = firstn 2 d).
  { unfold slice. cbn [Z.add Z.sub Z.to_nat skipn]. cbn -[firstn].
    rewrite firstn_firstn. reflexivity. }
  split; [|split]; intros Hl.
  - replace (len d <? 18) with true by (symmetry; apply Z.ltb_lt; lia). reflexivity.
  - intros Hn. replace (len d <? 18) with false by (symmetry; apply Z.ltb_ge; lia).
    unfold inspectFileheader. cbv zeta.
    cbn [fileType set_fileType print set_stdout pfxPrintf]. rewrite S, Hn. reflexivity.
  - intros Hn Hb. replace (len d <? 18) with false by (symmetry; apply Z.ltb_ge; lia).
    unfold inspectFileheader. cbv zeta.
    cbn [fileType set_fileType print set_stdout pfxPrintf]. rewrite S.
    apply String.eqb_neq in Hn. rewrite Hn.
    apply String.eqb_neq in Hb. rewrite Hb. reflexivity.
Qed.

Lemma printRowIndexed_fold (px : list byte -> Z -> Z) (d : list byte) (l : list Z) :
  forall c,
  fold_left (fun c i => let n := px d i in
               if n >=? palNumEntries c then badColor c n i else c) l c
  = if badColorFlag c then c else
    match find (fun i => px d i >=? palNumEntries c) l with
    | Some i => set_badColorFlag true (set_badColor_X i (set_badColorIndex (px d i) c))
    | None => c
    end.
Proof.
  induction l as [|i l IH]; intros c; cbn [fold_left find].
  - destruct (badColorFlag c); reflexivity.
  - cbv zeta. destruct (px d i >=? palNumEntries c) eqn:E.
    + unfold badColor. destruct (badColorFlag c) eqn:F; cbn [negb].
      * rewrite IH, F. reflexivity.
      * rewrite IH. reflexivity.
    + rewrite IH. reflexivity.
Qed.

(** X9: a palette-indexed row prints all its pixels, and, if no bad
    palette index was recorded yet, records the first pixel of the row whose
    index is not below the palette size (its index and x position); a
    record made earlier is kept. *)
Theorem printRowIndexed_first_bad (px : list byte -> Z -> Z) (c : ctx_type) (d : list byte) :
  printRowIndexed px c d =
  print (EPixels (map (px d) (zseq (imgWidth c))))
    (if badColorFlag c then c else
     match find (fun i => px d i >=? palNumEntries c) (zseq (imgWidth c)) with
     | Some i => set_badColorFlag true (set_badColor_X i (set_badColorIndex (px d i) c))
     | None => c
     end).
Proof. unfold printRowIndexed. cbv zeta. rewrite printRowIndexed_fold. reflexivity. Qed.

Lemma find_none_lt (f : Z -> Z) (N : Z) (l : list Z) :
  (forall i, f i < N) -> find (fun i => f i >=? N) l = None.
Proof.
  intros H. induction l as [|i l IH]; [reflexivity|]. cbn [find].
  replace (f i >=? N) with false by (symmetry; rewrite Z.geb_leb; apply Z.leb_gt, H).
  exact IH.
Qed.

Lemma pixel_indexed_bounds d i :
  0 <= pixel_1 d i < 2 /\ 0 <= pixel_2 d i < 4 /\ 0 <= pixel_4 d i < 16 /\
  0 <= pixel_8 d i < 256.
Proof.
  pose proof (at_range d (i / 8)). pose proof (at_range d (i / 4)).
  pose proof (at_range d (i / 2)). pose proof (at_range d i).
  split; [unfold pixel_1; destruct (_ =? 0); lia|].
  split; [|split; [|unfold pixel_8; lia]].
  - unfold pixel_2. set (x := Z.shiftr _ _).
    pose proof (Z.land_ones x 2 ltac:(lia)) as L. change (Z.ones 2) with 3 in L.
    change (2 ^ 2) with 4 in L. rewrite L.
    pose proof (Z.mod_pos_bound x 4). lia.
  - unfold pixel_4. destruct (_ =? 0).
    + rewrite Z.shiftr_div_pow2 by lia. change (2 ^ 4) with 16.
      split; [apply Z.div_pos; lia|]. apply Z.div_lt_upper_bound; lia.
    + pose proof (Z.land_ones (at_ d (i / 2)) 4 ltac:(lia)) as L.
      change (Z.ones 4) with 15 in L. change (2 ^ 4) with 16 in L. rewrite L.
      pose proof (Z.mod_pos_bound (at_ d (i / 2)) 16). lia.
Qed.

(** X10: with a palette of at least 2^bitCount entries, the row printer of
    a bit count only prints: it records no bad palette index. *)
Theorem printRow_full_palette (bc : Z) (pR : ctx_type -> list byte -> ctx_type)
  (c : ctx_type) (d : list byte) :
  printRowFuncs bc = Some pR -> Z.shiftl 1 bc <= palNumEntries c ->
  pR c d = set_stdout (stdout (pR c d)) c.
Proof.
  intros E HN.
  assert (HI : forall px, (forall i, px d i < palNumEntries c) ->
                 printRowIndexed px c d = set_stdout (stdout (printRowIndexed px c d)) c).
  { intros px Hpx. rewrite printRowIndexed_first_bad, find_none_lt by exact Hpx.
    destruct (badColorFlag c); reflexivity. }
  destruct bc as [|p|p]; try discriminate;
    do 6 (try destruct p as [p|p|]); try discriminate;
    injection E as <-; cbn in HN;
    try reflexivity; apply HI; intros i; pose proof (pixel_indexed_bounds d i); lia.
Qed.

Lemma printRow_frame (bc : Z) (pR : ctx_type -> list byte -> ctx_type) (c : ctx_type)
  (d : list byte) :
  printRowFuncs bc = Some pR ->
  badColorWarned (pR c d) = badColorWarned c /\
  exists e, stdout (pR c d) = stdout c ++ [EPixels e].
Proof.
  intros E.
  assert (HI : forall px, badColorWarned (printRowIndexed px c d) = badColorWarned c /\
            exists e, stdout (printRowIndexed px c d) = stdout c ++ [EPixels e]).
  { intros px. unfold printRowIndexed. cbv zeta. rewrite printRowIndexed_fold.
    split; destruct (badColorFlag c); try destruct (find _ _); try reflexivity; eexists; reflexivity. }
  destruct bc as [|p|p]; try discriminate;
    do 6 (try destruct p as [p|p|]); try discriminate;
    injection E as <-; first [apply HI | split; [reflexivity | eexists; reflexivity]].
Qed.

Lemma countText_app s l1 l2 : countText s (l1 ++ l2) = (countText s l1 + countText s l2)%nat.
Proof. unfold countText. rewrite filter_app, length_app. reflexivity. Qed.

(** X11: [printUncompressedPixels] prints the warning "Warning: Bad palette
    index" at most once, and never when it was printed before. *)
Theorem printUncompressedPixels_warn_once (c : ctx_type) (d : list byte) :
  (countText "Warning: Bad palette index" (stdout (printUncompressedPixels c d))
   <= countText "Warning: Bad palette index" (stdout c)
      + (if badColorWarned c then 0 else 1))%nat.
Proof.
  set (W := "Warning: Bad palette index").
  set (n0 := countText W (stdout c)).
  set (P := fun c' => (badColorWarned c' = false /\ badColorWarned c = false /\
                       countText W (stdout c') = n0) \/
                      (badColorWarned c' = true /\
                       (countText W (stdout c') <= n0 + (if badColorWarned c then 0 else 1))%nat)).
  enough (H : P (printUncompressedPixels c d)).
  { destruct H as [[_ [_ H]]|[_ H]]; [lia|exact H]. }
  unfold printUncompressedPixels.
  assert (P0 : P c).
  { unfold P. destruct (badColorWarned c) eqn:E; [right|left]; split; auto; lia. }
  destruct (printRowFuncs (bitCount c)) as [pR|] eqn:E; [|exact P0].
  apply (fold_left_pres P); [exact P0|].
  intros c1 i H1. cbv zeta.
  match goal with |- context [pR ?a ?b] =>
    destruct (printRow_frame _ pR a b E) as [Hw [e He]]; revert Hw He;
    generalize (pR a b) as c3
  end.
  intros c3 Hw He. cbn [print set_stdout stdout badColorWarned] in Hw, He.
  assert (Hc : countText W (stdout c3) = countText W (stdout c1)).
  { rewrite He, !countText_app. cbn. lia. }
  destruct (badColorFlag c3 && negb (badColorWarned c3)) eqn:B.
  - apply andb_prop in B. destruct B as [_ B]. rewrite Hw in B.
    destruct H1 as [[H1 [H2 H3]]|[H1 H3]]; [|rewrite H1 in B; discriminate].
    unfold P. right. cbn [set_badColorWarned badColorWarned print set_stdout stdout]. split; [reflexivity|].
    rewrite !countText_app, Hc, H3, H2. cbn. lia.
  - unfold P in H1 |- *. rewrite Hw, Hc. exact H1.
Qed.

(** X12: [inspectBitfields] prints the masks in the order red, green, blue,
    alpha, one for each 4-byte slot that starts inside the segment, and
    changes nothing else. *)
Theorem inspectBitfields_fields (c : ctx_type) (d : list byte) :
  inspectBitfields c d =
  Ok (set_stdout (stdout c ++ EText "----- BITFIELDS -----" ::
        firstn (Z.to_nat ((len d + 3) / 4))
          [EField 0 "Red:  " (getDWORD (slice d 0 4));
           EField 4 "Green:" (getDWORD (slice d 4 8));
           EField 8 "Blue: " (getDWORD (slice d 8 12));
           EField 12 "Alpha:" (getDWORD (slice d 12 16))]) c).
Proof.
  unfold inspectBitfields. cbn [fold_left Z.mul].
  assert (Hn : 0 <= len d) by (unfold len; lia).
  rewrite !Z.geb_leb.
  assert (C : len d = 0 \/ 1 <= len d <= 4 \/ 5 <= len d <= 8 \/ 9 <= len d <= 12 \/
              13 <= len d) by lia.
  destruct C as [C|[C|[C|[C|C]]]];
  [ replace ((len d + 3) / 4) with 0 by (apply Z.div_unique with (len d + 3); lia)
  | replace ((len d + 3) / 4) with 1 by (apply Z.div_unique with (len d + 3 - 4); lia)
  | replace ((len d + 3) / 4) with 2 by (apply Z.div_unique with (len d + 3 - 8); lia)
  | replace ((len d + 3) / 4) with 3 by (apply Z.div_unique with (len d + 3 - 12); lia)
  | assert (Q : 4 <= (len d + 3) / 4) by (apply Z.div_le_lower_bound; lia);
    rewrite firstn_all2 by (cbn [List.length]; lia) ];
  repeat match goal with
  | |- context [?a <=? ?b] =>
      first [ replace (a <=? b) with true by (symmetry; apply Z.leb_le; lia)
            | replace (a <=? b) with false by (symmetry; apply Z.leb_gt; lia) ]
  end; unfold pfxPrintf, print; change (Z.to_nat 0) with 0%nat; change (Z.to_nat 1) with 1%nat;
  change (Z.to_nat 2) with 2%nat; change (Z.to_nat 3) with 3%nat;
  cbn [firstn stdout set_stdout]; rewrite <- ?app_assoc; reflexivity.
Qed.

(** X13: an uncompressed image whose bits are shorter than the size computed
    from its dimensions is not decoded: the pixels are disabled, the size
    recorded is the computed one, and the last line printed is the
    warning "Warning: Unexpected end of file".  The computed size is Go's
    [int64] product of the stride and the height, which for a stride of at
    most 1000000 and an [int32] height is the exact product. *)
Theorem inspectBits_short_uncompressed (c : ctx_type) (d : list byte) (c' : ctx_type) :
  isCompressed c = false ->
  1 <= Z.quot (imgWidth c * bitCount c + 31) 32 * 4 <= 1000000 ->
  len d < wrap64 (Z.quot (imgWidth c * bitCount c + 31) 32 * 4 * imgHeight c) ->
  inspectBits c d = Ok c' ->
  printPixels c' = false /\
  actualBitsSize c' = wrap64 (Z.quot (imgWidth c * bitCount c + 31) 32 * 4 * imgHeight c) /\
  last (stdout c') (ENum 0) = EText "Warning: Unexpected end of file".
Proof.
  intros Hc Hs Hl H. unfold inspectBits in H. injection H as <-.
  assert (HX : forall X, X = bits_implied d (bits_calculated (bits_stride (bits_header c))) ->
            isCompressed X = false /\
            rowStride X = Z.quot (imgWidth c * bitCount c + 31) 32 * 4 /\
            calculatedSize X = wrap64 (Z.quot (imgWidth c * bitCount c + 31) 32 * 4 * imgHeight c) /\
            actualBitsSize X = wrap64 (Z.quot (imgWidth c * bitCount c + 31) 32 * 4 * imgHeight c)).
  { intros X ->.
    assert (E1 : exists s, bits_header c = set_stdout s c).
    { unfold bits_header. destruct (sizeImage _ =? 0); eexists; reflexivity. }
    destruct E1 as [s1 E1]. rewrite E1.
    unfold bits_calculated. cbv zeta.
    change (isCompressed (bits_stride (set_stdout s1 c))) with (isCompressed c). rewrite Hc.
    assert (E2 : forall Y, exists s, bits_implied d Y = set_stdout s Y).
    { intros Y. unfold bits_implied. destruct (hasProfile Y); eexists; reflexivity. }
    match goal with |- context [bits_implied d ?Y] => destruct (E2 Y) as [s2 ->] end.
    split; [exact Hc|]. split; [reflexivity|split; reflexivity]. }
  destruct (HX _ eq_refl) as [H1 [H2 [H3 H4]]]. clear HX. revert H1 H2 H3 H4.
  generalize (bits_implied d (bits_calculated (bits_stride (bits_header c)))) as X.
  intros X H1 H2 H3 H4.
  unfold bits_check, bits_pixels. rewrite H1, H2, H3. cbn [negb].
  replace (_ || _) with false
    by (symmetry; apply orb_false_intro; [apply Z.ltb_ge | rewrite Z.gtb_ltb; apply Z.ltb_ge]; lia).
  replace (len d <? _) with true by (symmetry; apply Z.ltb_lt; lia).
  cbn [print set_stdout stdout printPixels set_printPixels actualBitsSize].
  split; [reflexivity|split; [exact H4|apply last_last]].
Qed.

Lemma V3_pkey c d c' : inspectInfoheaderV3 c d = Ok c' -> pkey c' = pkey c.
Proof.
  unfold inspectInfoheaderV3.
  assert (K1 : forall c, pkey (v3_width d c) = pkey c)
    by (intros c0; unfold v3_width, pkey; cbv zeta; split_ifs; reflexivity).
  assert (K2 : forall c, pkey (v3_height d c) = pkey c)
    by (intros c0; unfold v3_height, pkey; cbv zeta; split_ifs; reflexivity).
  assert (K3 : forall c, pkey (v3_planes d c) = pkey c)
    by (intros c0; unfold v3_planes, pkey; cbv zeta; split_ifs; reflexivity).
  assert (K4 : forall c, pkey (v3_bitCount d c) = pkey c) by reflexivity.
  assert (K5 : forall c, pkey (v3_compression d c) = pkey c).
  { intros c0; unfold v3_compression. destruct (len d >=? 20); [|reflexivity].
    cbv zeta. destruct (getCompressionCodeInfo _) as [x y]. unfold pkey. split_ifs; reflexivity. }
  assert (K6 : forall c, pkey (v3_sizeImage d c) = pkey c)
    by (intros c0; unfold v3_sizeImage, pkey; cbv zeta; split_ifs; reflexivity).
  assert (K7 : forall c, pkey (v3_pelsPerMeter d c) = pkey c)
    by (intros c0; unfold v3_pelsPerMeter, pkey; cbv zeta; split_ifs; reflexivity).
  assert (K8 : forall c c', v3_clrUsed d c = Ok c' -> pkey c' = pkey c).
  { intros c0 c1. unfold v3_clrUsed. split_ifs; intros H; try discriminate;
    injection H as <-; reflexivity. }
  assert (K9 : forall c, pkey (v3_palette d (v3_clrImportant d c)) = pkey c).
  { intros c0. unfold v3_palette, v3_clrImportant, pkey. cbv zeta. split_ifs; reflexivity. }
  destruct (v3_clrUsed _ _) as [c1|e] eqn:E; cbn [bind]; [|discriminate].
  intros H. injection H as <-. rewrite K9, (K8 _ _ E), K7, K6, K5, K4, K3, K2, K1.
  reflexivity.
Qed.

(** X14: the Windows v4 decoder never sets the location or size of a color
    profile; with a full 108-byte header it marks a profile as present when
    CSType is PROFILE_LINKED or PROFILE_EMBEDDED, and as linked for
    PROFILE_LINKED. *)
Theorem inspectInfoheaderV4_profile (c : ctx_type) (d : list byte) (c' : ctx_type) :
  inspectInfoheaderV4 c d = Ok c' ->
  profileOffset c' = profileOffset c /\ profileSize c' = profileSize c /\
  (len d < 108 -> hasProfile c' = hasProfile c /\ profileIsLinked c' = profileIsLinked c) /\
  (108 <= len d ->
     hasProfile c' = hasProfile c || (getDWORD (slice d 56 60) =? pROFILE_LINKED)
                     || (getDWORD (slice d 56 60) =? pROFILE_EMBEDDED) /\
     profileIsLinked c' = profileIsLinked c || (getDWORD (slice d 56 60) =? pROFILE_LINKED)).
Proof.
  unfold inspectInfoheaderV4.
  destruct (inspectInfoheaderV3 c (slice d 0 40)) as [c1|e] eqn:E; cbn [bind]; [|discriminate].
  apply V3_pkey in E. unfold pkey in E. injection E as E1 E2 E3 E4 _ _ _ _ _.
  cbv zeta. destruct (len d <? 56) eqn:L1.
  - intros H. injection H as <-. cbn.
    apply Z.ltb_lt in L1. split; [auto|split; [auto|split; [auto|intros; lia]]].
  - destruct (len d <? 108) eqn:L2.
    + intros H. injection H as <-. cbn.
      apply Z.ltb_lt in L2. split; [auto|split; [auto|split; [auto|intros; lia]]].
    + apply Z.ltb_ge in L2. intros H. injection H as <-.
      unfold inspectCIEXYZTRIPLE.
      set (cs := getDWORD (slice d 56 60)).
      destruct (cs =? pROFILE_LINKED) eqn:A;
      [|destruct (cs =? pROFILE_EMBEDDED) eqn:B];
      destruct (csTypeIsValid _ cs); cbn;
      rewrite ?A, ?B, ?orb_true_r, ?orb_false_r; (split; [auto|split; [auto|split; [intros; lia|auto]]]).
Qed.

(** X15: after the Windows v5 decoder, a context with a profile has its
    offset at 14 + ProfileData and its size ProfileSize; without a profile
    these fields are unchanged. *)
Theorem inspectInfoheaderV5_profile (c : ctx_type) (d : list byte) (c' : ctx_type) :
  inspectInfoheaderV5 c d = Ok c' ->
  (hasProfile c' = true ->
     profileOffset c' = 14 + getDWORD (slice d 112 116) /\
     profileSize c' = getDWORD (slice d 116 120)) /\
  (hasProfile c' = false ->
     profileOffset c' = profileOffset c /\ profileSize c' = profileSize c).
Proof.
  unfold inspectInfoheaderV5.
  destruct (inspectInfoheaderV4 c (slice d 0 108)) as [c1|e] eqn:E; cbn [bind]; [|discriminate].
  intros H. injection H as <-. cbv zeta.
  destruct (hasProfile c1) eqn:Hp; cbn; rewrite Hp.
  - split; [auto|discriminate].
  - split; [discriminate|intros _].
    unfold inspectInfoheaderV4 in E.
    destruct (inspectInfoheaderV3 c (slice (slice d 0 108) 0 40)) as [c0|e] eqn:E0;
      cbn [bind] in E; [|discriminate].
    apply V3_pkey in E0. unfold pkey in E0. injection E0 as E1 E2 E3 E4 _ _ _ _ _.
    revert E; cbv zeta; unfold inspectCIEXYZTRIPLE; split_ifs; intros E; injection E as <-;
      cbn; auto.
Qed.

Lemma fold_print {A : Type} (g : A -> event) (l : list A) :
  forall c, fold_left (fun c i => print (g i) c) l c = set_stdout (stdout c ++ map g l) c.
Proof.
  induction l as [|i l IH]; intros c; cbn [fold_left map].
  - rewrite app_nil_r. destruct c; reflexivity.
  - rewrite IH. cbn. rewrite <- app_assoc. reflexivity.
Qed.

(** X16: [inspectColorTable] prints the number of entries, the overlap
    warning when it switches an OS/2 v2 table to 3-byte entries (exactly
    when the bytes before the bits hold 3 bytes per entry), then one entry
    per palette index, read in BGR(A) order at index times entry size and
    printed as RGB(A). *)
Theorem inspectColorTable_entries (c : ctx_type) (d : list byte) :
  exists c', inspectColorTable c d = Ok c' /\
  palBytesPerEntry c' =
    (if String.eqb (bmpVerID c) "os2v2"
        && (bfOffBits c - (14 + infoHeaderSize c) =? 3 * palNumEntries c)
     then 3 else palBytesPerEntry c) /\
  stdout c' = stdout c ++ [EText "----- Color table -----"; ENum (palNumEntries c)] ++
    (if String.eqb (bmpVerID c) "os2v2"
        && (bfOffBits c - (14 + infoHeaderSize c) =? 3 * palNumEntries c)
     then [EText "Warning: Bitmap overlaps color table. Assuming there are three bytes per color table entry, instead of four"]
     else []) ++
    map (fun i => let k := palBytesPerEntry c' in
                  EPixels (at_ d (i * k + 2) :: at_ d (i * k + 1) :: at_ d (i * k)
                           :: (if k =? 4 then [at_ d (i * k + 3)] else [])))
        (zseq (palNumEntries c)).
Proof.
  unfold inspectColorTable. cbv zeta.
  assert (Hf : forall c0 (k : Z),
    fold_left (fun c i => if k =? 4
        then print (EPixels [at_ d (i * k + 2); at_ d (i * k + 1); at_ d (i * k); at_ d (i * k + 3)]) c
        else print (EPixels [at_ d (i * k + 2); at_ d (i * k + 1); at_ d (i * k)]) c)
      (zseq (palNumEntries c0)) c0 =
    set_stdout (stdout c0 ++ map (fun i => EPixels (at_ d (i * k + 2) :: at_ d (i * k + 1)
        :: at_ d (i * k) :: (if k =? 4 then [at_ d (i * k + 3)] else [])))
        (zseq (palNumEntries c0))) c0).
  { intros c0 k. rewrite <- fold_print. destruct (k =? 4); reflexivity. }
  cbn [bmpVerID print set_stdout stdout palNumEntries bfOffBits infoHeaderSize].
  destruct (String.eqb (bmpVerID c) "os2v2"); cbn [andb];
  [destruct (bfOffBits c - (14 + infoHeaderSize c) =? 3 * palNumEntries c)|].
  all: rewrite Hf; eexists; split; [reflexivity|].
  all: cbn [palBytesPerEntry set_palBytesPerEntry set_palSizeInBytes set_stdout print stdout].
  all: split; [reflexivity|].
  all: cbn [palNumEntries set_palSizeInBytes set_palBytesPerEntry set_stdout stdout];
    rewrite <- !app_assoc; reflexivity.
Qed.

(** ** Concrete instances of the properties above *)

Lemma rle_actualBitsSize_witness :
  0 <= actualBitsSize (printRLECompressedPixels rle8_ctx rle8_truncated) <= len rle8_truncated.
Proof.
  apply (rle_actualBitsSize rle8_ctx rle8_truncated). vm_compute. discriminate.
Defined.

Lemma readProfile_outcome_witness :
  exists c', readProfile (set_profileSize 4 (set_profileOffset 2 (set_hasProfile true
               (newCtx [x00; x01; x02; x03; x04; x05])))) = Ok c' /\ pos c' = 6.
Proof.
  destruct (proj2 (proj2 (readProfile_outcome (set_profileSize 4 (set_profileOffset 2
     (set_hasProfile true (newCtx [x00; x01; x02; x03; x04; x05])))) eq_refl))
     ltac:(vm_compute; discriminate) ltac:(vm_compute; discriminate))
    as [c' [E1 [E2 _]]].
  exists c'. split; [exact E1|]. rewrite E2. reflexivity.
Defined.

Lemma v3_height_negative_witness :
  imgHeight (v3_height v3_neg_height_header (newCtx [])) = 1 /\
  topDown (v3_height v3_neg_height_header (newCtx [])) = true.
Proof.
  assert (H1 : getLONG (slice v3_neg_height_header 8 12) < 0)
    by (apply Z.ltb_lt; vm_compute; reflexivity).
  assert (H2 : -2147483648 < getLONG (slice v3_neg_height_header 8 12))
    by (apply Z.ltb_lt; vm_compute; reflexivity).
  destruct (v3_height_negative v3_neg_height_header (newCtx []) H1) as [T [_ N]].
  destruct (N H2) as [E _]. split; [|exact T]. rewrite E. vm_compute. reflexivity.
Defined.

Lemma printWindows1252String_injective_witness : [x22; x5c] = [x22; x5c].
Proof. apply printWindows1252String_injective. reflexivity. Defined.

Lemma detectVersion_sizes_witness :
  bmpVerID (detectVersion (newCtx v4_prefix) v4_prefix) = "winv4".
Proof.
  apply (proj1 (proj2 (detectVersion_sizes (newCtx v4_prefix) v4_prefix
                        ltac:(apply Z.leb_le; vm_compute; reflexivity)))).
  vm_compute. reflexivity.
Defined.

Lemma printRow_full_palette_witness :
  printRow_8 (set_palNumEntries 256 (set_imgWidth 2 (newCtx []))) [xff; x00]
  = set_stdout (stdout (printRow_8 (set_palNumEntries 256 (set_imgWidth 2 (newCtx []))) [xff; x00]))
      (set_palNumEntries 256 (set_imgWidth 2 (newCtx []))).
Proof.
  apply (printRow_full_palette 8); [reflexivity|].
  apply Z.leb_le. vm_compute. reflexivity.
Defined.

Lemma inspectBits_short_uncompressed_witness :
  printPixels (ok_of (inspectBits (set_imgHeight 1 ctx_w2_bc24) [x00])) = false.
Proof.
  apply (proj1 (inspectBits_short_uncompressed (set_imgHeight 1 ctx_w2_bc24) [x00]
    (ok_of (inspectBits (set_imgHeight 1 ctx_w2_bc24) [x00]))
    ltac:(vm_compute; reflexivity)
    ltac:(split; apply Z.leb_le; vm_compute; reflexivity)
    ltac:(apply Z.ltb_lt; vm_compute; reflexivity)
    ltac:(vm_compute; reflexivity))).
Defined.

Lemma inspectInfoheaderV4_profile_witness :
  profileOffset (ok_of (inspectInfoheaderV4 (newCtx []) (firstn 108 (bytes (infoheader124_jpeg 20 30)))))
  = 0.
Proof.
  apply (proj1 (inspectInfoheaderV4_profile (newCtx []) (firstn 108 (bytes (infoheader124_jpeg 20 30)))
    (ok_of (inspectInfoheaderV4 (newCtx []) (firstn 108 (bytes (infoheader124_jpeg 20 30)))))
    ltac:(vm_compute; reflexivity))).
Defined.

Lemma inspectInfoheaderV5_profile_witness :
  profileOffset (ok_of (inspectInfoheaderV5 (newCtx []) (bytes (infoheader124_jpeg 20 30)))) = 34.
Proof.
  destruct (proj1 (inspectInfoheaderV5_profile (newCtx []) (bytes (infoheader124_jpeg 20 30))
    (ok_of (inspectInfoheaderV5 (newCtx []) (bytes (infoheader124_jpeg 20 30))))
    ltac:(vm_compute; reflexivity)) ltac:(vm_compute; reflexivity)) as [E _].
  rewrite E. vm_compute. reflexivity.
Defined.

Lemma pkey_print e c : pkey (print e c) = pkey c.
Proof. reflexivity. Qed.

Lemma pkey_warned b c : pkey (set_badColorWarned b c) = pkey c.
Proof. reflexivity. Qed.

(** ** The profile fields through the pixel decoders *)

(** The decoders of the bitmap bits never change the fields of [pkey]. *)
Section ProfileFrame.
Variable K : bool * bool * Z * Z * Z * string * Z * Z * Z.

Lemma P_check c r n c' r' : checkRLEPosAndColor c r n = (c', r') -> pkey c = K -> pkey c' = K.
Proof.
  unfold checkRLEPosAndColor. cbv zeta. intros E H.
  destruct (compressionCode c =? bI_RLE24); [injection E as <- _; exact H|].
  destruct (_ && _); injection E as <- _; exact H.
Qed.

Lemma P_pixel c r n c' r' : printRLEPixel c r n = (c', r') -> pkey c = K -> pkey c' = K.
Proof. unfold printRLEPixel. intros E H. exact (P_check _ _ _ _ _ E H). Qed.

Lemma P_pixel24 c r l c' r' : printRLE24Pixel c r l = (c', r') -> pkey c = K -> pkey c' = K.
Proof. unfold printRLE24Pixel. intros E H. exact (P_check _ _ _ _ _ E H). Qed.

Lemma P_endRow c r c' r' : endRLERow c r = (c', r') -> pkey c = K -> pkey c' = K.
Proof.
  unfold endRLERow. intros E H.
  destruct (rowHeaderPrinted r); cbn in E;
    destruct (badPosFlag _ && negb (badPosWarned _)); cbn in E;
    destruct (badColorFlag _ && negb (badColorWarned _)); injection E as <- _; exact H.
Qed.

Lemma P_litPixel n st c' r' k' :
  litPixel n st = (c', r', k') -> pkey (fst (fst st)) = K -> pkey c' = K.
Proof.
  destruct st as [[c r] k]. unfold litPixel. cbn [fst]. destruct (k >? 0).
  - destruct (printRLEPixel c r n) as [c1 r1] eqn:E. intros H. injection H as <- _ _.
    eapply P_pixel, E.
  - intros H. injection H as <- _ _. auto.
Qed.

Lemma P_litPixel_fst n st : pkey (fst (fst st)) = K -> pkey (fst (fst (litPixel n st))) = K.
Proof.
  destruct (litPixel n st) as [[c' r'] k'] eqn:E. cbn [fst]. eapply P_litPixel, E.
Qed.

Ltac pfwd :=
  repeat match goal with
  | E : checkRLEPosAndColor _ _ _ = (_, _) |- _ => pose proof (P_check _ _ _ _ _ E); clear E
  | E : printRLEPixel _ _ _ = (_, _) |- _ => pose proof (P_pixel _ _ _ _ _ E); clear E
  | E : printRLE24Pixel _ _ _ = (_, _) |- _ => pose proof (P_pixel24 _ _ _ _ _ E); clear E
  | E : endRLERow _ _ = (_, _) |- _ => pose proof (P_endRow _ _ _ _ E); clear E
  | E : litPixel _ _ = (_, _, _) |- _ => pose proof (P_litPixel _ _ _ _ _ E); clear E
  end.

Ltac psolve :=
  match goal with
  | |- pkey (fst (fst (litPixel _ _))) = K => apply P_litPixel_fst; psolve
  | |- pkey (fst (fst (_, _, _))) = K => cbn [fst]; psolve
  | |- pkey (print _ ?x) = K => change (pkey x = K); psolve
  | |- pkey (set_badColorWarned _ ?x) = K => change (pkey x = K); psolve
  | H : pkey ?x = K |- pkey ?x = K => exact H
  | Hn : pkey _ = K -> pkey ?x = K |- pkey ?x = K => apply Hn; psolve
  end.

Lemma P_step c r s b1 b2 c' r' s' brk :
  rle_step c r s b1 b2 = (c', r', s', brk) -> pkey c = K -> pkey c' = K.
Proof.
  intros E H. revert E. unfold rle_step. cbv zeta.
  destr_lets; intros E'; injection E' as <- _ _ _.
  all: pfwd; psolve.
Qed.

Lemma P_loop (l : list byte) :
  forall c r s, pkey c = K -> pkey (fst (fst (fst (rle_loop c r s l)))) = K.
Proof.
  assert (Hend : forall (c : ctx_type) (r : rlectx_type) (s : rle_locals), pkey c = K ->
            pkey (fst (fst (fst (let '(c, r) := endRLERow c r in
                                  (c, r, s, ExitTruncated))))) = K).
  { intros c r s H. destruct (endRLERow c r) as [c1 r1] eqn:E. cbn [fst].
    eapply P_endRow; eassumption. }
  enough (G : forall c r s, pkey c = K ->
            pkey (fst (fst (fst (rle_loop c r s l)))) = K
            /\ forall b, pkey (fst (fst (fst (rle_loop c r s (b :: l))))) = K)
    by (intros c r s H; apply (G c r s H)).
  induction l as [|b2 l IH]; intros c r s H.
  - split; [apply Hend, H|]. intros b. apply Hend, H.
  - split; [apply (IH c r s H)|]. intros b1. cbn [rle_loop].
    destruct (if negb (rowHeaderPrinted r) then _ else _) as [c1 r1] eqn:E1.
    assert (H1 : pkey c1 = K).
    { destruct (negb (rowHeaderPrinted r)); [destruct (ypos r >=? 0)|];
        injection E1 as <- _; exact H. }
    destruct (rle_step c1 r1 s (bval b1) (bval b2)) as [[[c2 r2] s2] brk] eqn:E2.
    apply P_step in E2; [|exact H1].
    destruct brk; [exact E2|]. apply (IH c2 r2 s2 E2).
Qed.

Lemma P_printRow bc pR c d :
  printRowFuncs bc = Some pR -> pkey c = K -> pkey (pR c d) = K.
Proof.
  intros E H.
  assert (HI : forall px, pkey (printRowIndexed px c d) = K).
  { intros px. unfold printRowIndexed. change (pkey (fold_left (fun c i =>
      if px d i >=? palNumEntries c then badColor c (px d i) i else c) (zseq (imgWidth c)) c) = K).
    apply (fold_left_pres (fun c => pkey c = K)); [exact H|].
    intros c1 i H1. destruct (_ >=? _); [|exact H1].
    unfold badColor. destruct (negb _); exact H1. }
  assert (HD : forall px, pkey (printRowDirect px c d) = K) by (intros px; exact H).
  destruct bc as [|p|p]; try discriminate;
    do 6 (try destruct p as [p|p|]); try discriminate;
    injection E as <-; first [apply HI | apply HD].
Qed.

Lemma P_printUncompressedPixels c d : pkey c = K -> pkey (printUncompressedPixels c d) = K.
Proof.
  intros H. unfold printUncompressedPixels.
  destruct (printRowFuncs (bitCount c)) as [pR|] eqn:E; [|exact H].
  apply (fold_left_pres (fun c => pkey c = K)); [exact H|].
  intros c1 i H1. cbv zeta.
  destruct (_ && _); rewrite ?pkey_warned, ?pkey_print;
    apply (P_printRow _ pR _ _ E); rewrite pkey_print; exact H1.
Qed.

Lemma P_printRLECompressedPixels c d : pkey c = K -> pkey (printRLECompressedPixels c d) = K.
Proof.
  intros H. unfold printRLECompressedPixels.
  destruct (printRLECompressedPixels_run c d) as [[[[c1 r1] s1] x]|] eqn:E; [|exact H].
  apply printRLECompressedPixels_run_Some in E.
  assert (H1 := P_loop d c (rlectx0 c) rle_locals0 H).
  rewrite <- E in H1. exact H1.
Qed.

End ProfileFrame.

Lemma inspectBits_pkey c d c' : inspectBits c d = Ok c' -> pkey c' = pkey c.
Proof.
  unfold inspectBits. intros E. injection E as <-.
  set (c3 := bits_implied d (bits_calculated (bits_stride (bits_header c)))).
  assert (H3 : pkey c3 = pkey c).
  { subst c3. unfold bits_implied, bits_calculated, bits_stride, bits_header.
    cbv zeta. split_ifs; reflexivity. }
  assert (H4 : pkey (bits_check d c3) = pkey c).
  { unfold bits_check. split_ifs; exact H3. }
  unfold bits_pixels. cbv zeta.
  destruct (printPixels _); [|exact H4].
  destruct (String.eqb _ "none"); [apply P_printUncompressedPixels, H4|].
  destruct (_ || _ || _); [apply P_printRLECompressedPixels, H4|rewrite pkey_print; exact H4].
Qed.


Lemma pkey_pfx o n v c : pkey (pfxPrintf o n v c) = pkey c.
Proof. reflexivity. Qed.

(** ** The profile location through the headers *)

Lemma OS2_pkey c d c' : inspectInfoheaderOS2 c d = Ok c' -> pkey c' = pkey c.
Proof. unfold inspectInfoheaderOS2. cbv zeta. split_ifs; intros H; injection H as <-; reflexivity. Qed.

Lemma OS2V2_pkey c d c' : inspectInfoheaderOS2V2 c d = Ok c' -> pkey c' = pkey c.
Proof.
  unfold inspectInfoheaderOS2V2.
  destruct (inspectInfoheaderV3 c d) as [c1|e] eqn:E; cbn [bind]; [|discriminate].
  apply V3_pkey in E. cbv zeta.
  split_ifs; intros H; injection H as <-; rewrite ?pkey_pfx; exact E.
Qed.

Lemma V4_okey c d c' :
  inspectInfoheaderV4 c d = Ok c' -> okey c' = okey c /\ profileOffset c' = profileOffset c.
Proof.
  unfold inspectInfoheaderV4.
  destruct (inspectInfoheaderV3 c (slice d 0 40)) as [c1|e] eqn:E; cbn [bind]; [|discriminate].
  apply V3_pkey in E. unfold pkey in E. injection E as _ _ E3 _ E5 E6 _ _ _.
  unfold okey. cbv zeta. split_ifs; intros H; injection H as <-; cbn;
    rewrite E3, E5, E6; split; reflexivity.
Qed.

Lemma V5_okey c d c' : inspectInfoheaderV5 c d = Ok c' -> okey c' = okey c.
Proof.
  unfold inspectInfoheaderV5.
  destruct (inspectInfoheaderV4 c (slice d 0 108)) as [c1|e] eqn:E; cbn [bind]; [|discriminate].
  apply V4_okey in E. destruct E as [E _]. cbv zeta. intros H. injection H as <-.
  destruct (hasProfile _); exact E.
Qed.

Lemma versionInfo_okey id prefix f :
  versionInfo id = Some (prefix, f) ->
  forall c d c', f c d = Ok c' ->
  okey c' = okey c /\ (id <> "winv5" -> profileOffset c' = profileOffset c).
Proof.
  assert (HP : forall c c', pkey c' = pkey c ->
            okey c' = okey c /\ profileOffset c' = profileOffset c).
  { intros c c' E. unfold pkey in E. injection E as _ _ E3 _ E5 E6 _ _ _.
    unfold okey. rewrite E3, E5, E6. split; reflexivity. }
  unfold versionInfo.
  destruct (String.eqb id "os2v1"); [intros V; injection V as <- <-; intros c d c' E;
    destruct (HP _ _ (OS2_pkey _ _ _ E)); split; auto|].
  destruct (String.eqb id "os2v2"); [intros V; injection V as <- <-; intros c d c' E;
    destruct (HP _ _ (OS2V2_pkey _ _ _ E)); split; auto|].
  destruct (String.eqb id "winv2"); [intros V; injection V as <- <-; intros c d c' E;
    destruct (HP _ _ (OS2_pkey _ _ _ E)); split; auto|].
  destruct (String.eqb id "winv3"); [intros V; injection V as <- <-; intros c d c' E;
    destruct (HP _ _ (V3_pkey _ _ _ E)); split; auto|].
  destruct (String.eqb id "52"); [intros V; injection V as <- <-; intros c d c' E;
    destruct (V4_okey _ _ _ E); split; auto|].
  destruct (String.eqb id "56"); [intros V; injection V as <- <-; intros c d c' E;
    destruct (V4_okey _ _ _ E); split; auto|].
  destruct (String.eqb id "winv4"); [intros V; injection V as <- <-; intros c d c' E;
    destruct (V4_okey _ _ _ E); split; auto|].
  destruct (String.eqb id "winv5") eqn:V5; [|discriminate].
  apply String.eqb_eq in V5. intros V; injection V as <- <-; intros c d c' E.
  split; [apply (V5_okey _ _ _ E)|]. intros Hn. contradiction.
Qed.

Lemma readInfoheader_okey c c' :
  readInfoheader c = Ok c' ->
  okey c' = okey c /\ (bmpVerID c <> "winv5" -> profileOffset c' = profileOffset c).
Proof.
  unfold readInfoheader. destruct (_ <? 4); [discriminate|]. cbv zeta.
  destruct (_ <? _); [discriminate|].
  destruct (versionInfo _) as [[prefix f]|] eqn:V; [|discriminate].
  destruct (f _ _) as [c1|e] eqn:E; cbn [bind]; [|discriminate].
  destruct (checkBitCount c1); [discriminate|]. intros H. injection H as <-.
  destruct (versionInfo_okey _ _ _ V _ _ _ E) as [E1 E2]. exact (conj E1 E2).
Qed.

Lemma inspectBitfields_pkey c d c' : inspectBitfields c d = Ok c' -> pkey c' = pkey c.
Proof.
  unfold inspectBitfields. intros H. injection H as <-. cbn [fold_left].
  split_ifs; reflexivity.
Qed.

Lemma inspectColorTable_pkey c d c' : inspectColorTable c d = Ok c' -> pkey c' = pkey c.
Proof.
  unfold inspectColorTable. cbv zeta. intros H. injection H as <-.
  apply (fold_left_pres (fun c1 => pkey c1 = pkey c)).
  - destruct (String.eqb _ _); [destruct (_ =? _)|]; reflexivity.
  - intros c1 i H1. destruct (_ =? 4); rewrite pkey_print; exact H1.
Qed.

Lemma detectVersion_profileOffset c d : profileOffset (detectVersion c d) = profileOffset c.
Proof.
  unfold detectVersion. destruct (len d <? 18); [reflexivity|]. cbv zeta.
  match goal with |- context [match ?e with (_, _) => _ end] => destruct e as [verID verName] end.
  destruct (String.eqb verName ""); reflexivity.
Qed.

Lemma inspectFileheader_keys c d c' :
  inspectFileheader c d = Ok c' ->
  profileOffset c' = profileOffset c /\ bfOffBits c' = getDWORD (slice d 10 14).
Proof.
  unfold inspectFileheader. cbv zeta.
  destruct (String.eqb _ ""); [discriminate|].
  destruct (negb _); [discriminate|].
  intros H. injection H as <-. split; [|reflexivity].
  match goal with |- context [detectVersion ?x ?y] =>
    transitivity (profileOffset (detectVersion x y));
    [destruct (_ && _); reflexivity | rewrite detectVersion_profileOffset; reflexivity] end.
Qed.

Lemma readBmpHeaders_keys c c1 :
  readBmpHeaders c = Ok c1 -> bmpVerID c1 <> "winv5" ->
  profileOffset c1 = profileOffset c /\ 0 <= bfOffBits c1.
Proof.
  unfold readBmpHeaders. destruct (_ <? 18); [discriminate|].
  destruct (inspectFileheader _ _) as [c2|e] eqn:E1; cbn [bind]; [|discriminate].
  destruct (readInfoheader _) as [c3|e] eqn:E2; cbn [bind]; [|discriminate].
  lazymatch goal with |- context [bind (if hasBitfieldsSegment c3 then ?a else ?b) _] =>
    destruct (if hasBitfieldsSegment c3 then a else b) as [c4|e] eqn:E3 end;
    cbn [bind]; [|discriminate].
  assert (K4 : okey c4 = okey c3 /\ profileOffset c4 = profileOffset c3).
  { revert E3. destruct (hasBitfieldsSegment c3); [|intros H; injection H as <-; auto].
    destruct (_ <? _); [discriminate|].
    destruct (inspectBitfields _ _) as [c5|e] eqn:E; cbn [bind]; [|discriminate].
    intros H; injection H as <-. apply inspectBitfields_pkey in E.
    unfold pkey in E. injection E as _ _ E3 _ E5 E6 _ _ _.
    unfold okey. cbn. rewrite E3, E5, E6. auto. }
  clear E3. destruct K4 as [K4 O4].
  intros H Hv.
  assert (K5 : okey c1 = okey c4 /\ profileOffset c1 = profileOffset c4).
  { revert H. destruct (_ >? 0); [|intros H; injection H as <-; auto].
    destruct (_ <? _); [discriminate|].
    destruct (inspectColorTable _ _) as [c6|e] eqn:E; cbn [bind]; [|discriminate].
    intros H; injection H as <-. apply inspectColorTable_pkey in E.
    unfold pkey in E. injection E as _ _ E3 _ E5 E6 _ _ _.
    unfold okey. cbn. rewrite E3, E5, E6. auto. }
  clear H. destruct K5 as [K5 O5].
  destruct (readInfoheader_okey _ _ E2) as [K3 O3].
  destruct (inspectFileheader_keys _ _ _ E1) as [O1 B1].
  unfold okey in K3, K4, K5. injection K3 as B3 V3. injection K4 as B4 V4.
  injection K5 as B5 V5.
  split.
  - rewrite O5, O4, O3.
    + cbn [profileOffset set_pos]. rewrite O1. reflexivity.
    + cbn [bmpVerID set_pos]. rewrite <- V3, <- V4, <- V5. exact Hv.
  - rewrite B5, B4, B3. cbn [bfOffBits set_pos]. rewrite B1. apply getInts_range.
Qed.

Lemma readProfile_keys c c' :
  readProfile c = Ok c' -> hasProfile c' = hasProfile c /\ bmpVerID c' = bmpVerID c.
Proof.
  unfold readProfile. destruct (hasProfile c) eqn:H0; [|intros H; injection H as <-; auto].
  cbv zeta. destruct (pos c <? profileOffset c); cbn [pos profileOffset set_pos print stdout set_stdout];
    (destruct (_ >? _); [discriminate|]); (destruct (_ >? _); [discriminate|]);
    destruct (profileIsLinked _); intros H; injection H as <-; auto.
Qed.

Lemma readProfile_bits c c' :
  readProfile c = Ok c' ->
  bfOffBits c' = bfOffBits c /\ actualBitsSize c' = actualBitsSize c.
Proof.
  unfold readProfile. destruct (hasProfile c) eqn:H0; [|intros H; injection H as <-; auto].
  cbv zeta. destruct (pos c <? profileOffset c);
    cbn [pos profileOffset set_pos print stdout set_stdout];
    (destruct (_ >? _); [discriminate|]); (destruct (_ >? _); [discriminate|]);
    destruct (profileIsLinked _); intros H; injection H as <-; auto.
Qed.

Lemma wrap64_small x :
  -9223372036854775808 <= x < 9223372036854775808 -> wrap64 x = x.
Proof. intros H. unfold wrap64. rewrite Z.mod_small by lia. lia. Qed.

(** X17: a file that is not a Windows v5 BMP but whose header declares a
    color profile is only read successfully when its bitmap bits take no
    bytes, or when the [int64] position after the bits wraps around:
    only the v5 header sets the profile location, which stays at offset 0,
    so a position after the bits that does not wrap lies past it. *)
Theorem main2_profile_needs_v5 (d : list byte) (c' : ctx_type) :
  main2 d = Ok c' -> bmpVerID c' <> "winv5" -> hasProfile c' = true ->
  actualBitsSize c' < 1 \/ 9223372036854775808 <= bfOffBits c' + actualBitsSize c'.
Proof.
  intros H Hv Hh. unfold main2, readBmp in H.
  destruct (readBmpHeaders (newCtx d)) as [c1|e] eqn:E1; cbn [bind] in H; [|discriminate].
  unfold readBmpBits in H. destruct (_ || _) eqn:B; [discriminate|].
  apply orb_false_iff in B. destruct B as [B _]. apply Z.ltb_ge in B.
  destruct (inspectBits (skipUnused c1) _) as [c2|e] eqn:E2; cbn [bind] in H; [|discriminate].
  destruct (actualBitsSize c2 <? 1) eqn:A; [injection H as <-; left; apply Z.ltb_lt, A|].
  right. apply Z.ltb_ge in A.
  destruct (readProfile (set_pos (wrap64 (pos c2 + actualBitsSize c2)) c2)) as [c3|e] eqn:E3;
    cbn [bind] in H; [|discriminate].
  assert (K3 : hasProfile c' = hasProfile c3 /\ bmpVerID c' = bmpVerID c3 /\
               bfOffBits c' = bfOffBits c3 /\ actualBitsSize c' = actualBitsSize c3)
    by (destruct (pos c3 <? fileSize c3); injection H as <-; repeat split; reflexivity).
  clear H. destruct K3 as (H3 & V3 & F3 & A3).
  destruct (readProfile_keys _ _ E3) as [H3' V3'].
  destruct (readProfile_bits _ _ E3) as [F3' A3'].
  cbn [hasProfile bmpVerID bfOffBits actualBitsSize set_pos] in H3', V3', F3', A3'.
  rewrite F3, A3, F3', A3'.
  apply inspectBits_pkey in E2. unfold pkey in E2. injection E2 as Hp _ Ho _ Hb Hv2 Hpos _ _.
  unfold skipUnused in Hp, Ho, Hb, Hv2, Hpos. cbv zeta in Hp, Ho, Hb, Hv2, Hpos.
  destruct (bfOffBits c1 - pos c1 >? 0);
    cbn [hasProfile profileOffset bmpVerID pos bfOffBits print set_stdout set_pos]
      in Hp, Ho, Hb, Hv2, Hpos.
  all: assert (Hv1 : bmpVerID c1 <> "winv5") by congruence.
  all: destruct (readBmpHeaders_keys _ _ E1 Hv1) as [O1 B1].
  all: cbn [profileOffset newCtx] in O1.
  all: apply Z.nlt_ge; intros Lt.
  all: rewrite wrap64_small in E3 by lia.
  all: unfold readProfile in E3; cbv beta iota zeta in E3;
    cbn [hasProfile pos profileOffset set_pos] in E3.
  all: replace (hasProfile c2) with true in E3 by congruence; cbv beta iota zeta in E3.
  all: replace (pos c2 + actualBitsSize c2 <? profileOffset c2) with false in E3
    by (symmetry; apply Z.ltb_ge; lia).
  all: cbv beta iota zeta in E3; cbn [hasProfile pos profileOffset set_pos] in E3.
  all: replace (pos c2 + actualBitsSize c2 >? profileOffset c2) with true in E3
    by (symmetry; rewrite Z.gtb_ltb; apply Z.ltb_lt; lia).
  all: discriminate.
Qed.

Lemma main2_profile_needs_v5_witness :
  bmpVerID (ok_of (main2 v4_wrap_file)) = "winv4" /\
  1 <= actualBitsSize (ok_of (main2 v4_wrap_file)) /\
  (actualBitsSize (ok_of (main2 v4_wrap_file)) < 1 \/
   9223372036854775808 <= bfOffBits (ok_of (main2 v4_wrap_file))
                          + actualBitsSize (ok_of (main2 v4_wrap_file))).
Proof.
  split; [vm_compute; reflexivity|]. split; [apply Z.leb_le; vm_compute; reflexivity|].
  apply (main2_profile_needs_v5 v4_wrap_file (ok_of (main2 v4_wrap_file)));
    vm_compute; [reflexivity|discriminate|reflexivity].
Defined.

(** ** The Windows v3 decoder and [readInfoheader] *)

Lemma V3_tail_vkey d c c' :
  v3_clrUsed d (v3_pelsPerMeter d (v3_sizeImage d c)) = Ok c' ->
  vkey (v3_palette d (v3_clrImportant d c')) = vkey c.
Proof.
  unfold v3_clrUsed, v3_pelsPerMeter, v3_sizeImage. cbv zeta.
  split_ifs; intros H; try discriminate; injection H as <-;
  unfold v3_palette, v3_clrImportant; cbv zeta; split_ifs; reflexivity.
Qed.

(** X18: after the Windows v3 decoder pixels are still to be printed only
    if they were before, the width and height are at least 1, and a
    compressed image of a known compression type is not top-down. *)
Theorem inspectInfoheaderV3_printPixels (c : ctx_type) (d : list byte) (c' : ctx_type) :
  inspectInfoheaderV3 c d = Ok c' -> printPixels c' = true ->
  printPixels c = true /\ 1 <= imgWidth c' /\ 1 <= imgHeight c' /\
  (20 <= len d -> isCompressed c' = true -> compressionType c' <> "unknown" ->
   topDown c' = false).
Proof.
  unfold inspectInfoheaderV3.
  set (w := v3_width d c). set (h := v3_height d w).
  set (x := v3_bitCount d (v3_planes d h)). set (m := v3_compression d x).
  destruct (v3_clrUsed d (v3_pelsPerMeter d (v3_sizeImage d m))) as [c1|e] eqn:E;
    cbn [bind]; [|discriminate].
  intros H. injection H as <-. apply V3_tail_vkey in E. unfold vkey in E.
  injection E as -> -> -> -> -> ->.
  assert (W : printPixels w = true -> printPixels c = true /\ 1 <= imgWidth w).
  { subst w. unfold v3_width. cbv zeta.
    match goal with |- context [if ?b then _ else _] => destruct b eqn:L end;
      cbn; cbn in L; [discriminate|]. apply Z.ltb_ge in L. auto. }
  assert (Hh : printPixels h = true -> printPixels w = true /\ 1 <= imgHeight h /\
               imgWidth h = imgWidth w).
  { subst h. unfold v3_height. cbv zeta.
    destruct (getLONG (slice d 8 12) <? 0); cbn;
      match goal with |- context [if ?b then _ else _] => destruct b eqn:L end;
      cbn; cbn in L; try discriminate; apply Z.ltb_ge in L; auto. }
  assert (M : printPixels m = true -> printPixels x = true /\ imgWidth m = imgWidth x /\
              imgHeight m = imgHeight x /\
              (20 <= len d -> isCompressed m = true -> compressionType m <> "unknown" ->
               topDown m = false)).
  { subst m. unfold v3_compression. destruct (len d >=? 20) eqn:L.
    2:{ intros Hp. split; [exact Hp|]. split; [reflexivity|]. split; [reflexivity|].
        intros L'. rewrite Z.geb_leb in L. apply Z.leb_gt in L. lia. }
    cbv zeta. destruct (getCompressionCodeInfo _) as [ds ct].
    cbn [compressionType set_compressionType isCompressed set_isCompressed topDown
         pfxPrintf print set_stdout set_compressionCode compressionCode].
    destruct (negb (String.eqb ct "none") && negb (String.eqb ct "unknown") && topDown x) eqn:T.
    - split_ifs; cbn; intros Hp; discriminate.
    - split_ifs; cbn. all: intros Hp; (split; [exact Hp|]); (split; [reflexivity|]);
        (split; [reflexivity|]); intros _ Hc Hu; apply String.eqb_neq in Hu.
        all: rewrite Hc, Hu in T; exact T. }
  intros Hp.
  destruct (M Hp) as [Px [Wx [Hx Tx]]].
  assert (Phx : printPixels h = true /\ imgWidth x = imgWidth h /\ imgHeight x = imgHeight h).
  { subst x. revert Px. unfold v3_bitCount, v3_planes. cbv zeta. destruct (negb _); cbn; auto. }
  destruct Phx as [Ph [Wh Hhx]].
  destruct (Hh Ph) as [Pw [H1 Whw]]. destruct (W Pw) as [Pc W1].
  split; [exact Pc|]. split; [lia|]. split; [lia|exact Tx].
Qed.
(** X19: the Windows v3 decoder fails only with "Unreasonable color table
    size", exactly when ClrUsed is present and above 100000; otherwise the
    palette has 4 bytes per entry and at most 100000 entries. *)
Theorem inspectInfoheaderV3_palette (c : ctx_type) (d : list byte) :
  (forall e, inspectInfoheaderV3 c d = Err e ->
     e = "Unreasonable color table size" /\ 36 <= len d /\ 100000 < getDWORD (slice d 32 36)) /\
  (36 <= len d -> 100000 < getDWORD (slice d 32 36) ->
     inspectInfoheaderV3 c d = Err "Unreasonable color table size") /\
  (forall c', inspectInfoheaderV3 c d = Ok c' ->
     palBytesPerEntry c' = 4 /\ 0 <= palNumEntries c' <= 100000).
Proof.
  unfold inspectInfoheaderV3.
  generalize (v3_pelsPerMeter d (v3_sizeImage d (v3_compression d (v3_bitCount d
               (v3_planes d (v3_height d (v3_width d c))))))) as y. intros y.
  unfold v3_clrUsed, v3_palette, v3_biClrUsed. cbv zeta.
  pose proof (getInts_range (slice d 32 36)) as [[R1 R2] _].
  pose proof (getInts_range (slice d 14 16)) as [_ [[B1 B2] _]].
  unfold v3_biBitCount.
  destruct (len d >=? 36) eqn:L; cbv beta iota.
  - apply Z.geb_le in L. destruct (getDWORD (slice d 32 36) >? 100000) eqn:G.
    + rewrite Z.gtb_ltb in G. apply Z.ltb_lt in G. cbn [bind].
      split; [intros e H; injection H as <-; auto|]. split; [reflexivity|discriminate].
    + rewrite Z.gtb_ltb in G. apply Z.ltb_ge in G. cbn [bind].
      split; [discriminate|]. split; [intros; lia|].
      intros c' H. injection H as <-.
      destruct ((getWORD (slice d 14 16) >? 0) && (getWORD (slice d 14 16) <=? 8)) eqn:Bc;
        [destruct (getDWORD (slice d 32 36) =? 0)|]; cbn [palBytesPerEntry palNumEntries set_palNumEntries set_palBytesPerEntry]; (split; [reflexivity|]); [|lia|lia].
      apply andb_true_iff in Bc. destruct Bc as [Bc1 Bc2].
      rewrite Z.gtb_ltb, Z.ltb_lt in Bc1. apply Z.leb_le in Bc2.
      rewrite Z.shiftl_1_l. split; [lia|].
      apply Z.le_trans with (2 ^ 8); [apply Z.pow_le_mono_r; lia|lia].
  - rewrite Z.geb_leb in L. apply Z.leb_gt in L. cbn [bind].
    split; [discriminate|]. split; [intros; lia|].
    intros c' H. injection H as <-.
    destruct ((getWORD (slice d 14 16) >? 0) && (getWORD (slice d 14 16) <=? 8)) eqn:Bc;
      cbn [palBytesPerEntry palNumEntries set_palNumEntries set_palBytesPerEntry];
      (split; [reflexivity|]); [|lia].
    apply andb_true_iff in Bc. destruct Bc as [Bc1 Bc2].
    rewrite Z.gtb_ltb, Z.ltb_lt in Bc1. apply Z.leb_le in Bc2.
    rewrite Z.shiftl_1_l. split; [lia|].
    apply Z.le_trans with (2 ^ 8); [apply Z.pow_le_mono_r; lia|lia].
Qed.

Lemma inspectInfoheaderV3_printPixels_witness :
  1 <= imgWidth (ok_of (inspectInfoheaderV3 (newCtx []) (bytes (infoheader40 1 1 24 0 0)))).
Proof.
  apply (inspectInfoheaderV3_printPixels (newCtx []) (bytes (infoheader40 1 1 24 0 0))
           (ok_of (inspectInfoheaderV3 (newCtx []) (bytes (infoheader40 1 1 24 0 0)))));
    vm_compute; reflexivity.
Defined.

Lemma V4_pos c d c' :
  inspectInfoheaderV4 c d = Ok c' -> pos c' = pos c /\ infoHeaderSize c' = infoHeaderSize c.
Proof.
  unfold inspectInfoheaderV4.
  destruct (inspectInfoheaderV3 c (slice d 0 40)) as [c1|e] eqn:E; cbn [bind]; [|discriminate].
  apply V3_pkey in E. unfold pkey in E. injection E as _ _ _ _ _ _ E7 _ E9.
  cbv zeta. split_ifs; intros H; injection H as <-; cbn; rewrite E7, E9; split; reflexivity.
Qed.

Lemma V5_pos c d c' :
  inspectInfoheaderV5 c d = Ok c' -> pos c' = pos c /\ infoHeaderSize c' = infoHeaderSize c.
Proof.
  unfold inspectInfoheaderV5.
  destruct (inspectInfoheaderV4 c (slice d 0 108)) as [c1|e] eqn:E; cbn [bind]; [|discriminate].
  apply V4_pos in E. cbv zeta. intros H. injection H as <-.
  destruct (hasProfile _); exact E.
Qed.

Lemma versionInfo_pos id prefix f :
  versionInfo id = Some (prefix, f) ->
  forall c d c', f c d = Ok c' -> pos c' = pos c /\ infoHeaderSize c' = infoHeaderSize c.
Proof.
  assert (HP : forall c c', pkey c' = pkey c ->
            pos c' = pos c /\ infoHeaderSize c' = infoHeaderSize c).
  { intros c c' E. unfold pkey in E. injection E as _ _ _ _ _ _ E7 _ E9. auto. }
  unfold versionInfo.
  repeat match goal with
         | |- (if ?b then _ else _) = _ -> _ => destruct b
         end;
  intros V; try discriminate; injection V as <- <-; intros c d c' E.
  all: first [ exact (HP _ _ (OS2_pkey _ _ _ E)) | exact (HP _ _ (OS2V2_pkey _ _ _ E))
             | exact (HP _ _ (V3_pkey _ _ _ E)) | exact (V4_pos _ _ _ E)
             | exact (V5_pos _ _ _ E) ].
Qed.

(** X20: [readInfoheader] fails with "Unexpected end of file" when fewer
    than 4 bytes, or fewer than biSize bytes, are left, and with "Unknown
    BMP version" for a version without a decoder; when it succeeds the
    version has a decoder, biSize bytes were available and the position
    has advanced by exactly biSize. *)
Theorem readInfoheader_outcome (c : ctx_type) :
  (fileSize c - pos c < 4 -> readInfoheader c = Err "Unexpected end of file") /\
  (4 <= fileSize c - pos c < infoHeaderSize c ->
     readInfoheader c = Err "Unexpected end of file") /\
  (4 <= fileSize c - pos c -> infoHeaderSize c <= fileSize c - pos c ->
     versionInfo (bmpVerID c) = None -> readInfoheader c = Err "Unknown BMP version") /\
  (forall c', readInfoheader c = Ok c' ->
     versionInfo (bmpVerID c) <> None /\ infoHeaderSize c <= fileSize c - pos c /\
     pos c' = pos c + infoHeaderSize c).
Proof.
  unfold readInfoheader.
  destruct (fileSize c - pos c <? 4) eqn:L4.
  - apply Z.ltb_lt in L4. split; [reflexivity|]. split; [intros; lia|].
    split; [intros; lia|discriminate].
  - apply Z.ltb_ge in L4. split; [intros; lia|]. cbv zeta.
    cbn [fileSize pos infoHeaderSize bmpVerID print set_stdout].
    destruct (fileSize c - pos c <? infoHeaderSize c) eqn:Ls.
    + apply Z.ltb_lt in Ls. split; [reflexivity|]. split; [intros; lia|discriminate].
    + apply Z.ltb_ge in Ls. split; [intros; lia|].
      destruct (versionInfo (bmpVerID c)) as [[prefix f]|] eqn:V; [|split; [reflexivity|discriminate]].
      split; [discriminate|].
      intros c'.
      destruct (f _ _) as [c1|e] eqn:E; cbn [bind]; [|discriminate].
      destruct (checkBitCount c1); [discriminate|]. intros H. injection H as <-.
      destruct (versionInfo_pos _ _ _ V _ _ _ E) as [P1 I1].
      split; [discriminate|]. split; [exact Ls|].
      cbn [pos set_pos set_palSizeInBytes infoHeaderSize]. rewrite P1, I1. reflexivity.
Qed.

(** ** The OS/2 decoder and the bitmap bits of [readBmp] *)

(** X21: the OS/2 decoder always succeeds with 3 bytes per palette entry;
    for a bit count of at most 8 the palette has at most 2^bitCount
    entries and, when the space before [bfOffBits] holds at least one
    entry, at least one entry and no more than fit in that space. *)
Theorem inspectInfoheaderOS2_palette (c : ctx_type) (d : list byte) :
  exists c', inspectInfoheaderOS2 c d = Ok c' /\ palBytesPerEntry c' = 3 /\
    bitCount c' = getWORD (slice d 10 12) /\
    (8 < getWORD (slice d 10 12) -> palNumEntries c' = palNumEntries c) /\
    (getWORD (slice d 10 12) <= 8 ->
       palNumEntries c' <= Z.shiftl 1 (getWORD (slice d 10 12)) /\
       (3 <= bfOffBits c - (14 + infoHeaderSize c) ->
          1 <= palNumEntries c' /\ 3 * palNumEntries c' <= bfOffBits c - (14 + infoHeaderSize c))).
Proof.
  unfold inspectInfoheaderOS2. cbv zeta.
  pose proof (getInts_range (slice d 10 12)) as [_ [[B1 B2] _]].
  set (bc := getWORD (slice d 10 12)).
  set (A := bfOffBits c - (14 + infoHeaderSize c)).
  assert (P : 0 < Z.shiftl 1 bc) by (rewrite Z.shiftl_1_l; apply Z.pow_pos_nonneg; lia).
  destruct (bc <=? 8) eqn:L.
  - apply Z.leb_le in L.
    cbn [bfOffBits infoHeaderSize palNumEntries set_palNumEntries set_palBytesPerEntry
         set_bitCount pfxPrintf print set_stdout set_imgHeight set_imgWidth].
    fold A.
    destruct ((A >=? 3) && (A <? 3 * Z.shiftl 1 bc)) eqn:C; eexists; (split; [reflexivity|]);
      cbn [palBytesPerEntry bitCount palNumEntries print set_stdout set_palNumEntries
           set_palBytesPerEntry set_bitCount set_imgHeight set_imgWidth pfxPrintf];
      (split; [reflexivity|]); (split; [reflexivity|]); (split; [intros; lia|]); intros _.
    + apply andb_true_iff in C. destruct C as [C1 C2].
      rewrite Z.geb_le in C1. apply Z.ltb_lt in C2.
      rewrite Z.quot_div_nonneg by lia.
      split; [apply Z.div_le_upper_bound; lia|].
      intros _. split; [apply Z.div_le_lower_bound; lia|].
      pose proof (Z.mul_div_le A 3). lia.
    + split; [lia|]. intros H3.
      apply andb_false_iff in C. destruct C as [C|C].
      * rewrite Z.geb_leb in C. apply Z.leb_gt in C. lia.
      * apply Z.ltb_ge in C. lia.
  - apply Z.leb_gt in L. eexists. split; [reflexivity|]. cbn.
    split; [reflexivity|]. split; [reflexivity|]. split; [reflexivity|intros; lia].
Qed.

Lemma readProfile_err_declared c e :
  readProfile c = Err e -> hasProfile c = true /\
  (e = "Invalid color profile location" \/ e = "Invalid color profile size").
Proof.
  unfold readProfile. destruct (hasProfile c); [|discriminate]. cbv zeta.
  destruct (pos c <? profileOffset c);
    cbn [pos profileOffset profileSize fileSize set_pos print set_stdout];
    (destruct (_ >? _); [intros H; injection H as <-; auto|]);
    (destruct (_ >? _); [intros H; injection H as <-; auto|]);
    destruct (profileIsLinked _); discriminate.
Qed.

(** X22: [readBmpBits] fails with "Bad bfOffBits value" exactly when
    [bfOffBits] lies before the current position or past the end of the
    file; its only other errors are the two errors of the color profile,
    for a file that declares one. *)
Theorem readBmpBits_errors (c : ctx_type) :
  ((bfOffBits c < pos c \/ fileSize c < bfOffBits c) ->
     readBmpBits c = Err "Bad bfOffBits value") /\
  (forall e, readBmpBits c = Err e ->
     (e = "Bad bfOffBits value" /\ (bfOffBits c < pos c \/ fileSize c < bfOffBits c)) \/
     ((e = "Invalid color profile location" \/ e = "Invalid color profile size") /\
      hasProfile c = true /\ pos c <= bfOffBits c <= fileSize c)).
Proof.
  unfold readBmpBits.
  destruct ((bfOffBits c <? pos c) || (bfOffBits c >? fileSize c)) eqn:B.
  - split; [reflexivity|]. intros e H. injection H as <-. left. split; [reflexivity|].
    apply orb_true_iff in B. destruct B as [B|B]; [apply Z.ltb_lt in B; auto|].
    rewrite Z.gtb_ltb in B. apply Z.ltb_lt in B. auto.
  - apply orb_false_iff in B. destruct B as [B1 B2]. apply Z.ltb_ge in B1.
    rewrite Z.gtb_ltb in B2. apply Z.ltb_ge in B2.
    split; [intros; lia|]. intros e.
    destruct (inspectBits (skipUnused c) _) as [c2|e2] eqn:E2; cbn [bind];
      [|unfold inspectBits in E2; discriminate].
    destruct (actualBitsSize c2 <? 1); [discriminate|].
    destruct (readProfile _) as [c3|e3] eqn:E3; cbn [bind].
    + destruct (_ <? _); discriminate.
    + intros H. injection H as <-. right.
      apply readProfile_err_declared in E3. destruct E3 as [Hp Ee]. split; [exact Ee|].
      split; [|lia].
      apply inspectBits_pkey in E2. unfold pkey in E2. injection E2 as Hc _.
      cbn [hasProfile set_pos] in Hp. rewrite <- Hp, Hc.
      unfold skipUnused. destruct (_ >? 0); reflexivity.
Qed.
